(** * blackbox42: the safe cross-language rename pipeline

    A shallow embedding of the TypeScript sources of the AI naming reviewer
    (diff parser, suggestion client, safety gate, rename backends and rename
    orchestrator) together with the properties its specification states
    about them.

    Conventions of the embedding.
    - A JavaScript string is a sequence of UTF-16 code units; it is embedded
      as a Rocq [string], one [ascii] per code unit (code units below 256).
    - A JavaScript number that the code only compares against literals
      (the confidence of a suggestion) is an IEEE 754 binary64 value, the
      kernel's [float]; NaN and the infinities are values of that type.
    - A JavaScript number that counts (line numbers, token counts, numbers
      of references, milliseconds) is an exact integer, [Z] or [nat]: the
      code's binary64 numbers are exact below 2^53, and the embedding does
      not follow their rounding beyond it.
    - Money and ratios ([estimatedCost], [cacheHitRate]) are exact
      rationals [Q]: the rounding of binary64 arithmetic is not modelled.
    - Asynchronous functions run to completion one after the other (the
      pipeline awaits every call), so [await] is sequencing over an
      explicit state.
    - The logger prints to the console; its calls at the levels WARN and
      ERROR are kept as a trace, the INFO and DEBUG chatter is left out.
    - What the repository calls but does not contain (the file system, child
      processes, ts-morph, the regular-expression engine outside the literal
      fragment, the chat-completion service, the clock, SHA-256, JSON and
      zod) is a field of a record of externals that every definition takes
      as its first argument. *)

From Stdlib Require Import Floats ZArith QArith Ascii String List Lia.
From stdpp Require Import gmap strings list fin_maps pretty.

Set Warnings "-inexact-float".
Local Open Scope string_scope.
Local Open Scope list_scope.
Local Open Scope Z_scope.

(** * Part I: the embedding *)

(** ** Results of fallible code *)

(** A thrown JavaScript error: its [name] (Error, SyntaxError, TypeError)
    and its [message]. *)
Record JsError : Type := mkError {
  name : string;
  message : string
}.

(** [new Error(message)]. *)
Definition Error (message : string) : JsError := mkError "Error" message.

(** [String(error)], also what a template literal prints for an error. *)
Definition String_ (e : JsError) : string := name e +:+ ": " +:+ message e.

(** A JavaScript computation either returns a value or throws. *)
Inductive Result (A : Type) : Type :=
| Ok (a : A)
| Throw (e : JsError).
Arguments Ok {A} a.
Arguments Throw {A} e.

(** ** Strings *)

Module Str.

Definition code (c : ascii) : N := N_of_ascii c.

Definition isDigit (c : ascii) : bool :=
  ((48 <=? code c) && (code c <=? 57))%N.

Definition isLetter (c : ascii) : bool :=
  (((65 <=? code c) && (code c <=? 90)) || ((97 <=? code c) && (code c <=? 122)))%N.

(** The class [\w] of a regular expression without the [u] flag. *)
Definition isWordChar (c : ascii) : bool :=
  isLetter c || isDigit c || Ascii.eqb c "_".

(** [String.prototype.toLowerCase] on code units below 256. *)
Definition lowerChar (c : ascii) : ascii :=
  if (((65 <=? code c) && (code c <=? 90))
      || ((192 <=? code c) && (code c <=? 222) && negb (code c =? 215)))%N
  then ascii_of_N (code c + 32) else c.

Fixpoint toLowerCase (s : string) : string :=
  match s with
  | EmptyString => EmptyString
  | String c rest => String (lowerChar c) (toLowerCase rest)
  end.

(** [s.startsWith(p)]. *)
Definition startsWith (s p : string) : bool := String.prefix p s.

(** [s.substring(1)]. *)
Definition substring1 (s : string) : string :=
  match s with
  | EmptyString => EmptyString
  | String _ rest => rest
  end.

(** [s.includes(sub)]. *)
Fixpoint includes (s sub : string) : bool :=
  String.prefix sub s ||
  match s with
  | EmptyString => false
  | String _ rest => includes rest sub
  end.

(** [s.indexOf(sub)], [-1] when [sub] does not occur. *)
Fixpoint indexOf (s sub : string) : Z :=
  if String.prefix sub s then 0
  else match s with
       | EmptyString => -1
       | String _ rest =>
           let i := indexOf rest sub in
           if i <? 0 then -1 else i + 1
       end.

(** [s.split(sep)] for a separator of one code unit: never an empty array,
    [''.split(sep)] is [['']]. *)
Fixpoint split (sep : ascii) (s : string) : list string :=
  match s with
  | EmptyString => [EmptyString]
  | String c rest =>
      if Ascii.eqb c sep then EmptyString :: split sep rest
      else match split sep rest with
           | [] => [String c EmptyString]
           | first :: others => String c first :: others
           end
  end.

(** The longest run of decimal digits [s] starts with, and what follows. *)
Fixpoint spanDigits (s : string) : string * string :=
  match s with
  | EmptyString => (EmptyString, EmptyString)
  | String c rest =>
      if isDigit c
      then let '(ds, tl) := spanDigits rest in (String c ds, tl)
      else (EmptyString, s)
  end.

(** [parseInt(ds, 10)] for a string of decimal digits, as an exact integer
    (the code's number is that integer below 2^53). *)
Definition parseDigits (ds : string) : Z :=
  fold_left (fun acc c => 10 * acc + Z.of_N (code c - 48))
            (list_ascii_of_string ds) 0.

End Str.

(** ** Data model (types/index.ts) *)

Inductive LanguageType : Type :=
| typescript
| javascript
| python
| go.

Record Safety : Type := {
  isApiSurface : bool;
  shouldAutofix : bool;
  reason : string
}.

Record NamingSuggestion : Type := {
  oldName : string;
  newName : string;
  confidence : float;
  rationale : string;
  safety : Safety;
  alternatives : list string
}.

Module NamingContext.
Record t : Type := mk {
  file : string;
  language : LanguageType;
  oldName : string;
  declaration : string;
  usages : list string;
  neighbors : list string;
  enclosingScopes : list string;
  types : option (list (string * string));
  prTitle : string;
  prBody : string;
  lineNumber : Z
}.
End NamingContext.

Module DiffLine.
Record t : Type := mk {
  line : Z;
  content : string
}.
End DiffLine.

Module PRDiff.
Record t : Type := mk {
  file : string;
  language : LanguageType;
  additions : list DiffLine.t;
  deletions : list DiffLine.t;
  modifications : list DiffLine.t
}.
End PRDiff.

Module LLMConfig.
Record t : Type := mk {
  apiKey : string;
  model : string;
  maxTokens : Z;
  temperature : float;
  maxRetries : Z
}.
End LLMConfig.

Module RenameResult.
Record t : Type := mk {
  success : bool;
  file : string;
  oldName : string;
  newName : string;
  referencesUpdated : Z;
  error : option string
}.
End RenameResult.

Module CacheEntry.
Record t : Type := mk {
  suggestion : NamingSuggestion;
  timestamp : Z;
  ttl : Z
}.
End CacheEntry.

Module CostStats.
Record t : Type := mk {
  totalTokens : Z;
  estimatedCost : Q;
  apiCalls : Z;
  cacheHitRate : Q
}.
End CostStats.

(** ** Logger (utils/logger.ts) *)

Inductive LogLevel : Type :=
| DEBUG
| INFO
| WARN
| ERROR.

Definition LogEntry : Type := (LogLevel * string)%type.

(** ** File system (fs/promises) *)

(** What a failed write may leave at its destination: Node gives no
    atomicity guarantee for [copyFile] and [writeFile]. *)
Inductive Damage : Type :=
| Untouched
| Removed
| Garbled (content : string).

(** The files by path, and the schedule of input/output faults: every file
    system call takes the head of the schedule, [None] lets the call
    proceed, [Some d] makes it throw and leave damage [d] behind. An empty
    schedule lets every call proceed. *)
Record FS : Type := mkFS {
  files : gmap string string;
  faults : list (option Damage)
}.

(** The head of the schedule, taken. *)
Definition nextFault (s : FS) : option Damage * FS :=
  match faults s with
  | [] => (None, s)
  | f :: later => (f, mkFS (files s) later)
  end.

(** The damage [d] done to the file at [path]. *)
Definition damage (d : Damage) (path : string) (s : FS) : FS :=
  match d with
  | Untouched => s
  | Removed => mkFS (delete path (files s)) (faults s)
  | Garbled c => mkFS (<[path := c]> (files s)) (faults s)
  end.

(** The errors of the file system, by their code and system call (Node
    adds the paths to the message). *)
Definition EIO (syscall : string) : JsError :=
  Error ("EIO: i/o error, " +:+ syscall).
Definition ENOENT (syscall : string) : JsError :=
  Error ("ENOENT: no such file or directory, " +:+ syscall).

(** [fs.readFile(path, 'utf-8')]. *)
Definition fs_readFile (path : string) (s : FS) : Result string * FS :=
  let '(f, s) := nextFault s in
  match f with
  | Some _ => (Throw (EIO "read"), s)
  | None =>
      match files s !! path with
      | Some c => (Ok c, s)
      | None => (Throw (ENOENT "open"), s)
      end
  end.

(** [fs.writeFile(path, content, 'utf-8')]. *)
Definition fs_writeFile (path content : string) (s : FS) : Result unit * FS :=
  let '(f, s) := nextFault s in
  match f with
  | Some d => (Throw (EIO "write"), damage d path s)
  | None => (Ok tt, mkFS (<[path := content]> (files s)) (faults s))
  end.

(** [fs.copyFile(src, dest)]. *)
Definition fs_copyFile (src dest : string) (s : FS) : Result unit * FS :=
  let '(f, s) := nextFault s in
  match f with
  | Some d => (Throw (EIO "copyfile"), damage d dest s)
  | None =>
      match files s !! src with
      | Some c => (Ok tt, mkFS (<[dest := c]> (files s)) (faults s))
      | None => (Throw (ENOENT "copyfile"), s)
      end
  end.

(** [fs.unlink(path)]. *)
Definition fs_unlink (path : string) (s : FS) : Result unit * FS :=
  let '(f, s) := nextFault s in
  match f with
  | Some _ => (Throw (EIO "unlink"), s)
  | None =>
      match files s !! path with
      | Some _ => (Ok tt, mkFS (delete path (files s)) (faults s))
      | None => (Throw (ENOENT "unlink"), s)
      end
  end.

(** ** Stateful code *)

(** A computation over a state of type [S], and its sequencing. *)
Definition Eff (S A : Type) : Type := S -> A * S.

Definition ret {S A : Type} (a : A) : Eff S A := fun s => (a, s).

Definition bind {S A B : Type} (m : Eff S A) (k : A -> Eff S B) : Eff S B :=
  fun s => let '(a, s') := m s in k a s'.

Notation "'let*' x ':=' m 'in' k" := (bind m (fun x => k))
  (at level 10, x name, m at level 100, k at level 200).
Notation "'run' m 'in' k" := (bind m (fun _ => k))
  (at level 10, m at level 100, k at level 200).

(** ** The world of the rename backends and the orchestrator *)

Record World : Type := mkWorld {
  fs : FS;
  logs : list LogEntry
}.

Definition IO (A : Type) : Type := Eff World A.

(** A call of the file system from the world. *)
Definition liftFS {A : Type} (op : FS -> A * FS) : IO A :=
  fun w => let '(a, s) := op (fs w) in (a, mkWorld s (logs w)).

Definition readFile (path : string) : IO (Result string) :=
  liftFS (fs_readFile path).
Definition writeFile (path content : string) : IO (Result unit) :=
  liftFS (fs_writeFile path content).
Definition copyFile (src dest : string) : IO (Result unit) :=
  liftFS (fs_copyFile src dest).
Definition unlink (path : string) : IO (Result unit) :=
  liftFS (fs_unlink path).

(** [logger.warn(msg)] and [logger.error(msg)]. *)
Definition logger (level : LogLevel) (msg : string) : IO unit :=
  fun w => (tt, mkWorld (fs w) (logs w ++ [(level, msg)])).

(** ** The regular expression [new RegExp(`\\b${name}\\b`, 'g')] *)

(** The renamers splice the name into the pattern unescaped. For a name
    made of word characters the pattern is the literal name between two
    word boundaries, which is what this module computes; for any other
    name the engine's answer is an external (see [Tools]). *)
Module WordRegex.

Definition isWordName (name : string) : bool :=
  negb (String.eqb name EmptyString)
  && forallb Str.isWordChar (list_ascii_of_string name).

Definition isWordAt (c : option ascii) : bool :=
  match c with
  | Some c => Str.isWordChar c
  | None => false
  end.

(** The pattern matches at the head of [s], whose preceding code unit is
    [prev] ([None] at the start of the input). *)
Definition matchesAt (name : string) (prev : option ascii) (s : string) : bool :=
  negb (isWordAt prev)
  && String.prefix name s
  && negb (isWordAt (String.get (String.length name) s)).

Fixpoint countFrom (name : string) (prev : option ascii) (s : string) : nat :=
  match s with
  | EmptyString => 0%nat
  | String c rest =>
      ((if matchesAt name prev s then 1 else 0) + countFrom name (Some c) rest)%nat
  end.

(** [(content.match(regex) || []).length]. *)
Definition count (name content : string) : nat := countFrom name None content.

(** [skip] code units of a match are still to be dropped. *)
Fixpoint replaceFrom (name replacement : string) (skip : nat)
    (prev : option ascii) (s : string) : string :=
  match s with
  | EmptyString => EmptyString
  | String c rest =>
      match skip with
      | S k => replaceFrom name replacement k (Some c) rest
      | O =>
          if matchesAt name prev s
          then replacement
               +:+ replaceFrom name replacement (String.length name - 1) (Some c) rest
          else String c (replaceFrom name replacement 0 (Some c) rest)
      end
  end.

(** A replacement text without [$] has no replacement patterns. *)
Definition isPlainReplacement (replacement : string) : bool :=
  negb (Str.includes replacement "$").

(** [content.replace(regex, replacement)]. *)
Definition replace (name replacement content : string) : string :=
  replaceFrom name replacement 0 None content.

End WordRegex.

(** ** Externals of the rename backends *)

(** The commands the backends hand to [child_process.exec], by what they
    run. *)
Inductive Command : Type :=
| RopeProbe                                  (* python3 -c "import rope" *)
| RopeRename (projectRoot filePath oldName newName : string)
                                             (* python3 -c "<rope script>" *)
| GoplsProbe                                 (* gopls version *)
| GoplsRename (projectRoot filePath : string) (lineNumber column : Z)
              (newName : string)             (* cd root && gopls rename -w file:line:col new *)
| PyCompile (filePath : string)              (* python3 -m py_compile file *)
| GoBuild (projectRoot dir : string).        (* cd root && go build dir *)

Record ExecOutput : Type := mkExecOutput {
  stdout : string;
  stderr : string
}.

Record Tools : Type := mkTools {
  (** [execAsync(command)]: the child process may rewrite files and fails
      by throwing. *)
  exec : Command -> FS -> Result ExecOutput * FS;
  (** ts-morph, [project.createSourceFile(path, content)] followed by
      [findSymbolDeclarations(sourceFile, name)]: how many declarations. *)
  ts_findSymbolDeclarations : string -> string -> string -> Result nat;
  (** ts-morph, [symbols[0].rename(newName)] followed by
      [sourceFile.getText()], on path, content, old and new name. *)
  ts_rename : string -> string -> string -> string -> Result string;
  (** ts-morph, the messages of [sourceFile.getPreEmitDiagnostics()]. *)
  ts_diagnostics : string -> string -> Result (list string);
  (** The engine on a name outside the literal fragment: building the
      pattern may throw, otherwise the number of matches in a content. *)
  regex_count_other : string -> string -> Result nat;
  (** The engine's [replace] on name, replacement and content outside the
      literal fragment. *)
  regex_replace_other : string -> string -> string -> string;
  (** Node's [path.dirname]. *)
  dirname : string -> string
}.

(** [new RegExp(`\\b${name}\\b`, 'g')] and [content.match(regex)]. *)
Definition matchCount (T : Tools) (name content : string) : Result Z :=
  if WordRegex.isWordName name
  then Ok (Z.of_nat (WordRegex.count name content))
  else match regex_count_other T name content with
       | Ok n => Ok (Z.of_nat n)
       | Throw e => Throw e
       end.

(** [content.replace(regex, replacement)], the pattern already built. *)
Definition replaceAll (T : Tools) (name replacement content : string) : string :=
  if WordRegex.isWordName name && WordRegex.isPlainReplacement replacement
  then WordRegex.replace name replacement content
  else regex_replace_other T name replacement content.

Definition execAsync (T : Tools) (command : Command) : IO (Result ExecOutput) :=
  liftFS (exec T command).

(** ** Results of the backends *)

Definition failed (filePath oldName newName error : string) : RenameResult.t :=
  RenameResult.mk false filePath oldName newName 0 (Some error).

Definition succeeded (filePath oldName newName : string) (referencesUpdated : Z)
  : RenameResult.t :=
  RenameResult.mk true filePath oldName newName referencesUpdated None.

(** ** Fallback renamers (python-renamer.ts, go-renamer.ts) *)

(** [fallbackPythonRename] and [fallbackGoRename] are the same function up
    to the text of an INFO message. *)
Definition fallbackRename (T : Tools) (filePath oldName newName : string)
  : IO RenameResult.t :=
  let caught (error : JsError) : IO RenameResult.t :=
    ret (failed filePath oldName newName (String_ error)) in
  let* read := readFile filePath in
  match read with
  | Throw e => caught e
  | Ok content =>
      match matchCount T oldName content with
      | Throw e => caught e
      | Ok referencesUpdated =>
          if referencesUpdated =? 0
          then ret (failed filePath oldName newName "Symbol not found")
          else
            let content := replaceAll T oldName newName content in
            let* written := writeFile filePath content in
            match written with
            | Throw e => caught e
            | Ok _ => ret (succeeded filePath oldName newName referencesUpdated)
            end
      end
  end.

Definition fallbackPythonRename := fallbackRename.
Definition fallbackGoRename := fallbackRename.

(** The count the tool-backed paths report: occurrences of the new name in
    the file as it is after the rename. *)
Definition countAfterRename (T : Tools) (filePath oldName newName : string)
    (caught : JsError -> IO RenameResult.t) : IO RenameResult.t :=
  let* read := readFile filePath in
  match read with
  | Throw e => caught e
  | Ok content =>
      match matchCount T newName content with
      | Throw e => caught e
      | Ok referencesUpdated =>
          ret (succeeded filePath oldName newName referencesUpdated)
      end
  end.

(** ** Python renamer (python-renamer.ts) *)

Definition renamePythonSymbol (T : Tools)
    (filePath oldName newName projectRoot : string) : IO RenameResult.t :=
  let caught (error : JsError) : IO RenameResult.t :=
    run logger ERROR ("Python rename failed: " +:+ String_ error) in
    ret (failed filePath oldName newName (String_ error)) in
  let* probe := execAsync T RopeProbe in
  match probe with
  | Throw _ =>
      run logger WARN "rope library not found, falling back to regex replacement" in
      fallbackPythonRename T filePath oldName newName
  | Ok _ =>
      let* done := execAsync T (RopeRename projectRoot filePath oldName newName) in
      match done with
      | Throw e => caught e
      | Ok out =>
          if Str.includes (stdout out) "SUCCESS"
          then countAfterRename T filePath oldName newName caught
          else caught (Error (if String.eqb (stderr out) EmptyString then stdout out
                              else stderr out))
      end
  end.

Definition verifyPythonSyntax (T : Tools) (filePath : string) : IO bool :=
  let* checked := execAsync T (PyCompile filePath) in
  match checked with
  | Throw e =>
      run logger ERROR ("Python syntax check failed: " +:+ String_ e) in
      ret false
  | Ok out =>
      if String.eqb (stderr out) EmptyString then ret true
      else
        run logger WARN ("Python syntax errors in " +:+ filePath +:+ ": "
                         +:+ stderr out) in
        ret false
  end.

(** ** Go renamer (go-renamer.ts) *)

Definition renameGoSymbol (T : Tools)
    (filePath oldName newName : string) (lineNumber : Z) (projectRoot : string)
  : IO RenameResult.t :=
  let caught (error : JsError) : IO RenameResult.t :=
    run logger ERROR ("Go rename failed: " +:+ String_ error) in
    ret (failed filePath oldName newName (String_ error)) in
  let* probe := execAsync T GoplsProbe in
  match probe with
  | Throw _ =>
      run logger WARN "gopls not found, falling back to regex replacement" in
      fallbackGoRename T filePath oldName newName
  | Ok _ =>
      let* read := readFile filePath in
      match read with
      | Throw e => caught e
      | Ok content =>
          let lines := Str.split "010" content in
          if Z.of_nat (length lines) <? lineNumber
          then caught (Error ("Line number " +:+ pretty lineNumber
                              +:+ " exceeds file length"))
          else
            match (if lineNumber <=? 0 then None
                   else lines !! Z.to_nat (lineNumber - 1)) with
            | None =>
                caught (mkError "TypeError"
                  "Cannot read properties of undefined (reading 'indexOf')")
            | Some line =>
                let column := Str.indexOf line oldName + 1 in
                if column =? 0
                then caught (Error ("Symbol " +:+ oldName +:+ " not found on line "
                                    +:+ pretty lineNumber))
                else
                  let* done := execAsync T
                    (GoplsRename projectRoot filePath lineNumber column newName) in
                  match done with
                  | Throw e => caught e
                  | Ok out =>
                      if negb (String.eqb (stderr out) EmptyString)
                         && negb (Str.includes (stderr out) "warning")
                      then caught (Error (stderr out))
                      else countAfterRename T filePath oldName newName caught
                  end
            end
      end
  end.

Definition verifyGoCompilation (T : Tools) (filePath projectRoot : string)
  : IO bool :=
  let dir := dirname T filePath in
  let* built := execAsync T (GoBuild projectRoot dir) in
  match built with
  | Throw e =>
      run logger ERROR ("Go compilation check failed: " +:+ String_ e) in
      ret false
  | Ok out =>
      if negb (String.eqb (stderr out) EmptyString)
         && negb (Str.includes (stderr out) "warning")
      then
        run logger WARN ("Go compilation errors: " +:+ stderr out) in
        ret false
      else ret true
  end.

(** ** TypeScript renamer (typescript-renamer.ts) *)

Definition renameTsSymbol (T : Tools) (filePath oldName newName : string)
  : IO RenameResult.t :=
  let caught (error : JsError) : IO RenameResult.t :=
    run logger ERROR ("Error in renameTsSymbol: " +:+ String_ error) in
    ret (failed filePath oldName newName (String_ error)) in
  let renameFailed (error : JsError) : IO RenameResult.t :=
    ret (failed filePath oldName newName ("Rename failed: " +:+ String_ error)) in
  let* read := readFile filePath in
  match read with
  | Throw e => caught e
  | Ok content =>
      match ts_findSymbolDeclarations T filePath content oldName with
      | Throw e => caught e
      | Ok O =>
          ret (failed filePath oldName newName
                 ("Symbol " +:+ oldName +:+ " not found"))
      | Ok (S _) =>
          match ts_rename T filePath content oldName newName with
          | Throw e => renameFailed e
          | Ok text =>
              match matchCount T oldName text with
              | Throw e => renameFailed e
              | Ok oldCount =>
                  match matchCount T newName text with
                  | Throw e => renameFailed e
                  | Ok newCount =>
                      let referencesUpdated := newCount in
                      let* written := writeFile filePath text in
                      match written with
                      | Throw e => renameFailed e
                      | Ok _ =>
                          ret (succeeded filePath oldName newName referencesUpdated)
                      end
                  end
              end
          end
      end
  end.

Fixpoint warnEach (messages : list string) : IO unit :=
  match messages with
  | [] => ret tt
  | m :: later => run logger WARN ("  " +:+ m) in warnEach later
  end.

Definition verifyTsCompilation (T : Tools) (filePath : string) : IO bool :=
  let caught (error : JsError) : IO bool :=
    run logger ERROR ("Error verifying TypeScript compilation: " +:+ String_ error) in
    ret false in
  let* read := readFile filePath in
  match read with
  | Throw e => caught e
  | Ok content =>
      match ts_diagnostics T filePath content with
      | Throw e => caught e
      | Ok [] => ret true
      | Ok diagnostics =>
          run logger WARN ("TypeScript errors in " +:+ filePath +:+ ":") in
          run warnEach diagnostics in
          ret false
      end
  end.

(** ** Rename orchestrator (rename/rename-orchestrator.ts) *)

Definition backupPathOf (filePath : string) : string := filePath +:+ ".backup".

(** The first [switch (language)]. [LanguageType] has four members, so the
    [default] branch ("Unsupported language") has no input. *)
Definition dispatchRename (T : Tools) (filePath : string)
    (suggestion : NamingSuggestion) (language : LanguageType)
    (lineNumber : Z) (projectRoot : string) : IO RenameResult.t :=
  match language with
  | typescript | javascript =>
      renameTsSymbol T filePath (oldName suggestion) (newName suggestion)
  | python =>
      renamePythonSymbol T filePath (oldName suggestion) (newName suggestion)
        projectRoot
  | go =>
      renameGoSymbol T filePath (oldName suggestion) (newName suggestion)
        lineNumber projectRoot
  end.

(** The second [switch (language)]. *)
Definition dispatchVerify (T : Tools) (filePath : string)
    (language : LanguageType) (projectRoot : string) : IO bool :=
  match language with
  | typescript | javascript => verifyTsCompilation T filePath
  | python => verifyPythonSyntax T filePath
  | go => verifyGoCompilation T filePath projectRoot
  end.

(** [fs.copyFile(backupPath, filePath)] then [fs.unlink(backupPath)]: the
    first call that throws ends the sequence. *)
Definition restoreBackup (backupPath filePath : string) : IO (Result unit) :=
  let* copied := copyFile backupPath filePath in
  match copied with
  | Throw e => ret (Throw e)
  | Ok _ => unlink backupPath
  end.

(** The [catch] clause of the second [try] of [performSafeRename]: restore
    from the backup as far as that works, then report [error]. *)
Definition rollbackAfterError (backupPath filePath : string)
    (suggestion : NamingSuggestion) (error : JsError) : IO RenameResult.t :=
  let* restored := restoreBackup backupPath filePath in
  run (match restored with
       | Throw restoreError =>
           logger ERROR ("Failed to restore backup: " +:+ String_ restoreError)
       | Ok _ => ret tt
       end) in
  ret (failed filePath (oldName suggestion) (newName suggestion) (String_ error)).

Definition performSafeRename (T : Tools) (filePath : string)
    (suggestion : NamingSuggestion) (language : LanguageType)
    (lineNumber : Z) (projectRoot : string) : IO RenameResult.t :=
  let backupPath := backupPathOf filePath in
  let caught := rollbackAfterError backupPath filePath suggestion in
  let* backedUp := copyFile filePath backupPath in
  match backedUp with
  | Throw error =>
      run logger ERROR ("Failed to create backup: " +:+ String_ error) in
      ret (failed filePath (oldName suggestion) (newName suggestion)
             "Failed to create backup")
  | Ok _ =>
      let* result := dispatchRename T filePath suggestion language lineNumber
                       projectRoot in
      if negb (RenameResult.success result)
      then
        let* restored := restoreBackup backupPath filePath in
        match restored with
        | Throw e => caught e
        | Ok _ => ret result
        end
      else
        let* isValid := dispatchVerify T filePath language projectRoot in
        if negb isValid
        then
          run logger WARN ("Verification failed for " +:+ filePath
                           +:+ ", rolling back") in
          let* restored := restoreBackup backupPath filePath in
          match restored with
          | Throw e => caught e
          | Ok _ =>
              ret (RenameResult.mk false
                     (RenameResult.file result)
                     (RenameResult.oldName result)
                     (RenameResult.newName result)
                     (RenameResult.referencesUpdated result)
                     (Some "Verification failed after rename"))
          end
        else
          let* removed := unlink backupPath in
          match removed with
          | Throw e => caught e
          | Ok _ => ret result
          end
  end.

Module RenameRequest.
Record t : Type := mk {
  filePath : string;
  suggestion : NamingSuggestion;
  language : LanguageType;
  lineNumber : Z
}.
End RenameRequest.

(** The [for ... of] loop of [batchRename], [results] being the array
    collected so far. *)
Fixpoint batchRenameLoop (T : Tools) (renames : list RenameRequest.t)
    (projectRoot : string) (results : list RenameResult.t)
  : IO (list RenameResult.t) :=
  match renames with
  | [] => ret results
  | rename :: later =>
      let* result := performSafeRename T
                       (RenameRequest.filePath rename)
                       (RenameRequest.suggestion rename)
                       (RenameRequest.language rename)
                       (RenameRequest.lineNumber rename)
                       projectRoot in
      let results := results ++ [result] in
      if negb (RenameResult.success result)
      then
        run logger WARN "Stopping batch rename due to failure" in
        ret results
      else batchRenameLoop T later projectRoot results
  end.

Definition batchRename (T : Tools) (renames : list RenameRequest.t)
    (projectRoot : string) : IO (list RenameResult.t) :=
  batchRenameLoop T renames projectRoot [].

(** ** Safety gate (rename/rename-orchestrator.ts) *)

Definition shouldAutoRename (suggestion : NamingSuggestion) : bool :=
  if PrimFloat.ltb (confidence suggestion) 0.85%float then false
  else if negb (shouldAutofix (safety suggestion)) then false
  else if isApiSurface (safety suggestion) then false
  else true.

(** ** Diff parser (context/diff-parser.ts) *)

(** [filePath.split('.').pop()?.toLowerCase()]: the text after the last
    dot, the whole path when it has no dot. *)
Definition extensionOf (filePath : string) : option string :=
  match last (Str.split "." filePath) with
  | Some ext => Some (Str.toLowerCase ext)
  | None => None
  end.

Definition detectLanguage (filePath : string) : option LanguageType :=
  match extensionOf filePath with
  | Some ext =>
      if String.eqb ext "ts" || String.eqb ext "tsx" then Some typescript
      else if String.eqb ext "js" || String.eqb ext "jsx" then Some javascript
      else if String.eqb ext "py" then Some python
      else if String.eqb ext "go" then Some go
      else None
  | None => None
  end.

(** [line.match(/\+(\d+)/)]: the digits captured by the leftmost match. *)
Fixpoint matchPlusDigits (line : string) : option string :=
  match line with
  | EmptyString => None
  | String c rest =>
      if Ascii.eqb c "+"
      then let '(digits, _) := Str.spanDigits rest in
           if String.eqb digits EmptyString then matchPlusDigits rest else Some digits
      else matchPlusDigits rest
  end.

(** The variables of the loop over the lines of the diff. *)
Module Walk.
Record t : Type := mk {
  currentLine : Z;
  inHunk : bool;
  additions : list DiffLine.t;
  deletions : list DiffLine.t
}.
Definition start : t := mk 0 false [] [].
End Walk.

(** One turn of [for (const line of lines)]; [currentLine++] is exact for
    the line numbers below 2^53. *)
Definition walkLine (st : Walk.t) (line : string) : Walk.t :=
  if Str.startsWith line "@@" then
    match matchPlusDigits line with
    | Some digits =>
        Walk.mk (Str.parseDigits digits) true (Walk.additions st) (Walk.deletions st)
    | None => st
    end
  else if negb (Walk.inHunk st) then st
  else if Str.startsWith line "+" && negb (Str.startsWith line "+++") then
    Walk.mk (Walk.currentLine st + 1) (Walk.inHunk st)
      (Walk.additions st ++ [DiffLine.mk (Walk.currentLine st) (Str.substring1 line)])
      (Walk.deletions st)
  else if Str.startsWith line "-" && negb (Str.startsWith line "---") then
    Walk.mk (Walk.currentLine st) (Walk.inHunk st)
      (Walk.additions st)
      (Walk.deletions st ++ [DiffLine.mk (Walk.currentLine st) (Str.substring1 line)])
  else if Str.startsWith line " " then
    Walk.mk (Walk.currentLine st + 1) (Walk.inHunk st)
      (Walk.additions st) (Walk.deletions st)
  else st.

Definition walkLines (lines : list string) (st : Walk.t) : Walk.t :=
  fold_left walkLine lines st.

(** [deletions.find((del) => Math.abs(del.line - addition.line) <= 2)]
    found a deletion. *)
Definition hasMatchingDeletion (deletions : list DiffLine.t)
    (addition : DiffLine.t) : bool :=
  existsb (fun del => Z.abs (DiffLine.line del - DiffLine.line addition) <=? 2)
          deletions.

Definition parseDiff (diffText filePath : string) : option PRDiff.t :=
  match detectLanguage filePath with
  | None => None
  | Some language =>
      let lines := Str.split "010" diffText in
      let st := walkLines lines Walk.start in
      let additions := Walk.additions st in
      let deletions := Walk.deletions st in
      let modifications := List.filter (hasMatchingDeletion deletions) additions in
      Some (PRDiff.mk filePath language additions deletions modifications)
  end.

(** ** The walk of the diff as the specification words it *)

(** One line of the walk in the specification's words: a hunk header sets
    the current line from its [+] field, every [+] line is recorded as an
    addition and takes one line number, every [-] line is recorded as a
    deletion and takes none, every context line takes one and is not
    recorded. *)
Definition statedWalkLine (st : Walk.t) (line : string) : Walk.t :=
  if Str.startsWith line "@@" then
    match matchPlusDigits line with
    | Some digits =>
        Walk.mk (Str.parseDigits digits) true (Walk.additions st) (Walk.deletions st)
    | None => st
    end
  else if negb (Walk.inHunk st) then st
  else if Str.startsWith line "+" then
    Walk.mk (Walk.currentLine st + 1) (Walk.inHunk st)
      (Walk.additions st ++ [DiffLine.mk (Walk.currentLine st) (Str.substring1 line)])
      (Walk.deletions st)
  else if Str.startsWith line "-" then
    Walk.mk (Walk.currentLine st) (Walk.inHunk st)
      (Walk.additions st)
      (Walk.deletions st ++ [DiffLine.mk (Walk.currentLine st) (Str.substring1 line)])
  else if Str.startsWith line " " then
    Walk.mk (Walk.currentLine st + 1) (Walk.inHunk st)
      (Walk.additions st) (Walk.deletions st)
  else st.

Definition statedWalkLines (lines : list string) (st : Walk.t) : Walk.t :=
  fold_left statedWalkLine lines st.

(** A line the code takes for a file header, [+++ b/file] or [--- a/file]. *)
Definition isFileHeader (line : string) : bool :=
  Str.startsWith line "+++" || Str.startsWith line "---".

(** A hunk header the code accepts: [@@] first, and a [+] field. *)
Definition isHunkHeader (line : string) : bool :=
  Str.startsWith line "@@"
  && match matchPlusDigits line with Some _ => true | None => false end.

(** The extensions the specification lists as supported. *)
Definition supportedExtensions : list string :=
  ["ts"; "tsx"; "js"; "jsx"; "py"; "go"].

(** A line of a hunk's body: an addition, a deletion or a context line that
    the code does not take for a file header. *)
Definition isBodyLine (line : string) : bool :=
  (Str.startsWith line "+" || Str.startsWith line "-" || Str.startsWith line " ")
  && negb (isFileHeader line).

(** How many line numbers of the new file the lines take: one for each
    line that is not a deletion. *)
Definition consumed (body : list string) : Z :=
  Z.of_nat (length (List.filter (fun line => negb (Str.startsWith line "-")) body)).


(** ** Response schema (llm/schema.ts) *)

(** [/^[a-zA-Z_$][a-zA-Z0-9_$]*$/.test(s)]. *)
Definition validIdentifier (s : string) : bool :=
  match s with
  | EmptyString => false
  | String c rest =>
      (Str.isLetter c || Ascii.eqb c "_" || Ascii.eqb c "$")
      && forallb (fun c => Str.isLetter c || Str.isDigit c
                           || Ascii.eqb c "_" || Ascii.eqb c "$")
                 (list_ascii_of_string rest)
  end.

Definition isValidSuggestion (suggestion : NamingSuggestion) : bool :=
  if String.eqb (oldName suggestion) (newName suggestion) then false
  else if PrimFloat.ltb (confidence suggestion) 0.3%float then false
  else if String.eqb (rationale suggestion) EmptyString
          || (String.length (rationale suggestion) <? 10)%nat then false
  else if negb (validIdentifier (newName suggestion)) then false
  else true.

(** ** Configuration (llm/config.ts) *)

(** [MODEL_PRICING], US dollars per million tokens, input and output (the
    object's own keys: a model named like a property of [Object.prototype]
    is outside the embedding). *)
Definition MODEL_PRICING (model : string) : option (Q * Q) :=
  if String.eqb model "gpt-4o-mini" then Some (15 # 100, 60 # 100)%Q
  else if String.eqb model "gpt-4o" then Some (250 # 100, 1000 # 100)%Q
  else if String.eqb model "gpt-4-turbo" then Some (1000 # 100, 3000 # 100)%Q
  else if String.eqb model "gpt-3.5-turbo" then Some (50 # 100, 150 # 100)%Q
  else None.

Definition calculateCost (model : string) (inputTokens outputTokens : Z) : Q :=
  let pricing := match MODEL_PRICING model with
                 | Some p => p
                 | None => (15 # 100, 60 # 100)%Q
                 end in
  let inputCost := ((inject_Z inputTokens / inject_Z 1000000) * fst pricing)%Q in
  let outputCost := ((inject_Z outputTokens / inject_Z 1000000) * snd pricing)%Q in
  (inputCost + outputCost)%Q.

(** ** Externals of the suggestion client *)

Record Usage : Type := mkUsage {
  prompt_tokens : Z;
  completion_tokens : Z;
  total_tokens : Z
}.

(** What the client reads of a chat completion:
    [response.choices[0]?.message?.content] and [response.usage]. *)
Record ChatCompletion : Type := mkChatCompletion {
  content : option string;
  usage : option Usage
}.

Record Services : Type := mkServices {
  (** What [getLLMConfig()] evaluates to in the process environment: it
      throws when [BLACKBOX_API_KEY] is missing. *)
  getLLMConfig : Result LLMConfig.t;
  (** [crypto.createHash('sha256').update(data).digest('hex')]. *)
  sha256_hex : string -> string;
  (** The successive readings of [Date.now()]. *)
  Date_now : nat -> Z;
  (** The text of the user prompt for a context with type information. *)
  userPromptText : NamingContext.t -> string;
  (** [openai.chat.completions.create], by the number of the request. *)
  chat_create : nat -> LLMConfig.t -> string -> Result ChatCompletion;
  (** [parseNamingSuggestion]: [JSON.parse] and the zod schema, [null]
      when either rejects the text. *)
  parseNamingSuggestion : string -> option NamingSuggestion
}.

(** [buildUserPrompt] (llm/prompts.ts) calls [Object.keys(context.types)],
    which throws when the optional [types] is absent. *)
Definition buildUserPrompt (X : Services) (context : NamingContext.t)
  : Result string :=
  match NamingContext.types context with
  | None => Throw (mkError "TypeError"
                     "Cannot convert undefined or null to object")
  | Some _ => Ok (userPromptText X context)
  end.

(** ** Suggestion client (llm/client.ts) *)

(** The module's variables [responseCache] and [costStats], and what the
    module has asked of the outside so far. *)
Record ClientState : Type := mkClient {
  responseCache : gmap string CacheEntry.t;
  costStats : CostStats.t;
  requests : nat;
  clockReads : nat;
  sleeps : list Z;
  clientLogs : list LogEntry
}.

(** A computation of the client. *)
Definition Client (A : Type) : Type := Eff ClientState A.

(** One hour, in milliseconds. *)
Definition CACHE_TTL : Z := 3600000.

(** The statistics when the module is loaded, and after a reset. *)
Definition initialCostStats : CostStats.t := CostStats.mk 0 0 0 0.

(** The module just loaded: an empty cache, nothing asked yet. *)
Definition initialClient : ClientState :=
  mkClient ∅ initialCostStats 0 0 [] [].

(** [Date.now()]: the next reading of the clock. *)
Definition Date_now_ (X : Services) : Client Z :=
  fun st => (Date_now X (clockReads st),
             mkClient (responseCache st) (costStats st) (requests st)
                      (S (clockReads st)) (sleeps st) (clientLogs st)).

(** An update of [responseCache] ([set], [delete], [clear]). *)
Definition setCache (f : gmap string CacheEntry.t -> gmap string CacheEntry.t)
  : Client unit :=
  fun st => (tt, mkClient (f (responseCache st)) (costStats st) (requests st)
                          (clockReads st) (sleeps st) (clientLogs st)).

(** An update of [costStats]. *)
Definition setStats (f : CostStats.t -> CostStats.t) : Client unit :=
  fun st => (tt, mkClient (responseCache st) (f (costStats st)) (requests st)
                          (clockReads st) (sleeps st) (clientLogs st)).

(** [await sleep(ms)]: the pause is recorded. *)
Definition sleep (ms : Z) : Client unit :=
  fun st => (tt, mkClient (responseCache st) (costStats st) (requests st)
                          (clockReads st) (sleeps st ++ [ms]) (clientLogs st)).

(** The logger, from the client. *)
Definition clientLogger (level : LogLevel) (msg : string) : Client unit :=
  fun st => (tt, mkClient (responseCache st) (costStats st) (requests st)
                          (clockReads st) (sleeps st)
                          (clientLogs st ++ [(level, msg)])).

(** [await openai.chat.completions.create(...)]: one more request. *)
Definition createCompletion (X : Services) (config : LLMConfig.t)
    (userPrompt : string) : Client (Result ChatCompletion) :=
  fun st => (chat_create X (requests st) config userPrompt,
             mkClient (responseCache st) (costStats st) (S (requests st))
                      (clockReads st) (sleeps st) (clientLogs st)).

Definition getCacheKey (X : Services) (context : NamingContext.t) : string :=
  let data := NamingContext.file context +:+ ":"
              +:+ NamingContext.oldName context +:+ ":"
              +:+ NamingContext.declaration context in
  sha256_hex X data.

Definition getCachedResponse (X : Services) (key : string)
  : Client (option NamingSuggestion) :=
  fun st =>
    match responseCache st !! key with
    | None => (None, st)
    | Some entry =>
        (let* now := Date_now_ X in
         if CacheEntry.ttl entry <? now - CacheEntry.timestamp entry
         then run setCache (delete key) in ret None
         else ret (Some (CacheEntry.suggestion entry))) st
    end.

Definition cacheResponse (X : Services) (key : string)
    (suggestion : NamingSuggestion) : Client unit :=
  let* now := Date_now_ X in
  setCache (insert key (CacheEntry.mk suggestion now CACHE_TTL)).

(** How one turn of the retry loop ends. *)
Inductive Attempt : Type :=
| Returns (value : option NamingSuggestion)
| Throws (error : JsError).

(** The body of the [try] of one attempt. *)
Definition attemptOnce (X : Services) (config : LLMConfig.t)
    (context : NamingContext.t) (cacheKey userPrompt : string)
  : Client Attempt :=
  let* response := createCompletion X config userPrompt in
  match response with
  | Throw e => ret (Throws e)
  | Ok response =>
      match content response with
      | None => ret (Throws (Error "Empty response from LLM"))
      | Some EmptyString => ret (Throws (Error "Empty response from LLM"))
      | Some text =>
          match parseNamingSuggestion X text with
          | None => ret (Throws (Error "Invalid JSON response from LLM"))
          | Some suggestion =>
              if negb (isValidSuggestion suggestion)
              then
                run clientLogger WARN
                      ("Invalid suggestion for " +:+ NamingContext.oldName context
                       +:+ ": " +:+ newName suggestion) in
                ret (Returns None)
              else
                run (match usage response with
                     | Some u =>
                         setStats (fun c =>
                           CostStats.mk
                             (CostStats.totalTokens c + total_tokens u)
                             (CostStats.estimatedCost c
                              + calculateCost (LLMConfig.model config)
                                  (prompt_tokens u) (completion_tokens u))%Q
                             (CostStats.apiCalls c)
                             (CostStats.cacheHitRate c))
                     | None => ret tt
                     end) in
                run setStats (fun c =>
                      CostStats.mk (CostStats.totalTokens c)
                        (CostStats.estimatedCost c)
                        (CostStats.apiCalls c + 1)
                        (CostStats.cacheHitRate c)) in
                run cacheResponse X cacheKey suggestion in
                ret (Returns (Some suggestion))
          end
      end
  end.

(** [for (let attempt = 0; attempt <= config.maxRetries; attempt++)], with
    [remaining] turns left to run; [lastError] is the message of the last
    error caught. *)
Fixpoint retryLoop (X : Services) (config : LLMConfig.t)
    (context : NamingContext.t) (cacheKey userPrompt : string)
    (remaining : nat) (attempt : Z) (lastError : option string)
  : Client (option NamingSuggestion) :=
  match remaining with
  | O =>
      run clientLogger ERROR
            ("LLM request failed after " +:+ pretty (LLMConfig.maxRetries config + 1)
             +:+ " attempts: "
             +:+ match lastError with Some m => m | None => "undefined" end) in
      ret None
  | S remaining =>
      let* outcome := attemptOnce X config context cacheKey userPrompt in
      match outcome with
      | Returns value => ret value
      | Throws error =>
          run clientLogger WARN
                ("LLM request failed (attempt " +:+ pretty (attempt + 1) +:+ "): "
                 +:+ message error) in
          run (if attempt <? LLMConfig.maxRetries config
               then sleep (2 ^ attempt * 1000)
               else ret tt) in
          retryLoop X config context cacheKey userPrompt remaining (attempt + 1)
            (Some (message error))
      end
  end.

Definition askLLM (X : Services) (context : NamingContext.t)
  : Client (Result (option NamingSuggestion)) :=
  match getLLMConfig X with
  | Throw e => ret (Throw e)
  | Ok config =>
      let cacheKey := getCacheKey X context in
      let* cached := getCachedResponse X cacheKey in
      match cached with
      | Some suggestion => ret (Ok (Some suggestion))
      | None =>
          match buildUserPrompt X context with
          | Throw e => ret (Throw e)
          | Ok userPrompt =>
              let* answer := retryLoop X config context cacheKey userPrompt
                               (Z.to_nat (LLMConfig.maxRetries config + 1)) 0 None in
              ret (Ok answer)
          end
      end
  end.

Definition getCostStats : Client CostStats.t :=
  fun st =>
    let size := Z.of_nat (size (responseCache st)) in
    let totalRequests := CostStats.apiCalls (costStats st) + size in
    let rate := if 0 <? totalRequests
                then (inject_Z size / inject_Z totalRequests)%Q
                else 0%Q in
    (let* _ := setStats (fun c =>
                 CostStats.mk (CostStats.totalTokens c) (CostStats.estimatedCost c)
                   (CostStats.apiCalls c) rate) in
     fun st' => (costStats st', st')) st.

Definition resetCostStats : Client unit :=
  setStats (fun _ => initialCostStats).

Definition clearCache : Client unit :=
  setCache (fun _ => ∅).

(** ** Collecting suggestions (github/review.ts, github/autofix.ts) *)

Definition Collected : Type := (NamingSuggestion * NamingContext.t)%type.

(** The loop of [runReview] that fills [suggestions]; a throw of [askLLM]
    leaves the loop. *)
Fixpoint collectForReview (X : Services) (contexts : list NamingContext.t)
    (suggestions : list Collected) : Client (Result (list Collected)) :=
  match contexts with
  | [] => ret (Ok suggestions)
  | context :: later =>
      let* asked := askLLM X context in
      match asked with
      | Throw e => ret (Throw e)
      | Ok (Some suggestion) =>
          if PrimFloat.leb 0.3%float (confidence suggestion)
          then collectForReview X later (suggestions ++ [(suggestion, context)])
          else collectForReview X later suggestions
      | Ok None => collectForReview X later suggestions
      end
  end.

(** The loop of [runAutofix] that fills [allSuggestions] and
    [autofixSuggestions]. *)
Fixpoint collectForAutofix (X : Services) (contexts : list NamingContext.t)
    (allSuggestions autofixSuggestions : list Collected)
  : Client (Result (list Collected * list Collected)) :=
  match contexts with
  | [] => ret (Ok (allSuggestions, autofixSuggestions))
  | context :: later =>
      let* asked := askLLM X context in
      match asked with
      | Throw e => ret (Throw e)
      | Ok (Some suggestion) =>
          if PrimFloat.leb 0.3%float (confidence suggestion)
          then
            let allSuggestions := allSuggestions ++ [(suggestion, context)] in
            if shouldAutoRename suggestion
            then collectForAutofix X later allSuggestions
                   (autofixSuggestions ++ [(suggestion, context)])
            else collectForAutofix X later allSuggestions autofixSuggestions
          else collectForAutofix X later allSuggestions autofixSuggestions
      | Ok None => collectForAutofix X later allSuggestions autofixSuggestions
      end
  end.

(** ** Runs and remainders of strings *)

(** The longest run of word characters [s] starts with. *)
Fixpoint wordRun (s : string) : string :=
  match s with
  | EmptyString => EmptyString
  | String c rest =>
      if Str.isWordChar c then String c (wordRun rest) else EmptyString
  end.

(** [s] without its first [n] code units. *)
Fixpoint dropUnits (n : nat) (s : string) : string :=
  match n, s with
  | O, _ => s
  | S _, EmptyString => EmptyString
  | S n, String _ rest => dropUnits n rest
  end.

(** The last code unit of [s], [c] when [s] is empty. *)
Fixpoint lastUnit (c : ascii) (s : string) : ascii :=
  match s with
  | EmptyString => c
  | String d rest => lastUnit d rest
  end.

(** ** Regular expressions without captures *)

(** The patterns the code tests names and lines against use character
    classes, sequence, alternation and repetition only. Whether such a
    pattern matches is a question of membership in a regular language,
    answered here by derivatives; which of several matches the engine
    would report does not matter to a test. *)
Module Regex.

Inductive t : Type :=
| Void                        (* matches nothing *)
| Eps                         (* matches the empty string *)
| Class (p : ascii -> bool)   (* one code unit of a class: [a-z], \s, a literal *)
| Seq (r1 r2 : t)             (* r1 r2 *)
| Alt (r1 r2 : t)             (* r1 | r2 *)
| Star (r : t).               (* r* *)

(** [r+] and [r?]. *)
Definition Plus (r : t) : t := Seq r (Star r).
Definition Opt (r : t) : t := Alt r Eps.

(** A literal code unit, and the same under the flag [i]: for an ASCII
    letter, the letter in either case. *)
Definition Chr (c : ascii) : t := Class (Ascii.eqb c).
Definition ChrI (c : ascii) : t :=
  Class (fun d => Ascii.eqb (Str.lowerChar d) (Str.lowerChar c)).

(** A literal text, and the same under the flag [i]. *)
Fixpoint Lit (s : string) : t :=
  match s with
  | EmptyString => Eps
  | String c rest => Seq (Chr c) (Lit rest)
  end.
Fixpoint LitI (s : string) : t :=
  match s with
  | EmptyString => Eps
  | String c rest => Seq (ChrI c) (LitI rest)
  end.

(** Any code unit. *)
Definition Any : t := Class (fun _ => true).

(** [a-z], [A-Z], [0-9], and [\s] on code units below 256: tab, line feed,
    vertical tab, form feed, carriage return, space and no-break space. *)
Definition lower (c : ascii) : bool := ((97 <=? Str.code c) && (Str.code c <=? 122))%N.
Definition upper (c : ascii) : bool := ((65 <=? Str.code c) && (Str.code c <=? 90))%N.
Definition digit (c : ascii) : bool := Str.isDigit c.
Definition space (c : ascii) : bool :=
  (((9 <=? Str.code c) && (Str.code c <=? 13))
   || (Str.code c =? 32) || (Str.code c =? 160))%N.

(** The pattern matches the empty string. *)
Fixpoint nullable (r : t) : bool :=
  match r with
  | Void => false
  | Eps => true
  | Class _ => false
  | Seq r1 r2 => nullable r1 && nullable r2
  | Alt r1 r2 => nullable r1 || nullable r2
  | Star _ => true
  end.

(** What is left of the pattern after the code unit [c]. *)
Fixpoint deriv (c : ascii) (r : t) : t :=
  match r with
  | Void => Void
  | Eps => Void
  | Class p => if p c then Eps else Void
  | Seq r1 r2 =>
      if nullable r1
      then Alt (Seq (deriv c r1) r2) (deriv c r2)
      else Seq (deriv c r1) r2
  | Alt r1 r2 => Alt (deriv c r1) (deriv c r2)
  | Star r1 => Seq (deriv c r1) (Star r1)
  end.

(** The pattern matches the whole of [s]. *)
Fixpoint matches (r : t) (s : string) : bool :=
  match s with
  | EmptyString => nullable r
  | String c rest => matches (deriv c r) rest
  end.

(** [/^r$/.test(s)], [/^r/.test(s)] and [/r/.test(s)]. *)
Definition testWhole (r : t) (s : string) : bool := matches r s.
Definition testStart (r : t) (s : string) : bool := matches (Seq r (Star Any)) s.
Definition test (r : t) (s : string) : bool :=
  matches (Seq (Star Any) (Seq r (Star Any))) s.

End Regex.

(** ** Which symbols are reviewed (context/context-builder.ts) *)

(** [/^[A-Z][a-z]+(?:[A-Z][a-z]+)*$/]. *)
Definition PascalCase : Regex.t :=
  Regex.Seq (Regex.Class Regex.upper)
    (Regex.Seq (Regex.Plus (Regex.Class Regex.lower))
       (Regex.Star (Regex.Seq (Regex.Class Regex.upper)
                      (Regex.Plus (Regex.Class Regex.lower))))).

(** [/^[a-z]+(?:[A-Z][a-z]+)*$/]. *)
Definition camelCase : Regex.t :=
  Regex.Seq (Regex.Plus (Regex.Class Regex.lower))
    (Regex.Star (Regex.Seq (Regex.Class Regex.upper)
                   (Regex.Plus (Regex.Class Regex.lower)))).

(** [/^[A-Z][A-Z0-9_]*$/]. *)
Definition SCREAMING_SNAKE_CASE : Regex.t :=
  Regex.Seq (Regex.Class Regex.upper)
    (Regex.Star (Regex.Class (fun c => Regex.upper c || Regex.digit c
                                       || Ascii.eqb c "_"))).

(** [/^[a-z][a-z0-9_]*$/]. *)
Definition snake_case : Regex.t :=
  Regex.Seq (Regex.Class Regex.lower)
    (Regex.Star (Regex.Class (fun c => Regex.lower c || Regex.digit c
                                       || Ascii.eqb c "_"))).

Definition wellFormedPatterns : list Regex.t :=
  [PascalCase; camelCase; SCREAMING_SNAKE_CASE; snake_case].

(** [/^test/i], [/^mock/i], [/^stub/i], [/^fake/i], [/^dummy/i], [/^_/]. *)
Definition skipPatterns : list Regex.t :=
  [Regex.LitI "test"; Regex.LitI "mock"; Regex.LitI "stub"; Regex.LitI "fake";
   Regex.LitI "dummy"; Regex.Lit "_"].

Definition genericNames : list string :=
  ["data"; "info"; "temp"; "tmp"; "val"; "value"; "item"; "obj";
   "result"; "res"; "ret"; "output"; "input"; "param"; "arg"].

Definition shouldReviewSymbol (name declaration : string) : bool :=
  if (String.length name <=? 2)%nat then false
  else
    let isWellFormed :=
      existsb (fun pattern => Regex.testWhole pattern name) wellFormedPatterns in
    if isWellFormed && (5 <=? String.length name)%nat then false
    else if existsb (fun pattern => Regex.testStart pattern name) skipPatterns
    then false
    else if Str.includes declaration "import" && Str.includes declaration "type"
    then false
    else if existsb (String.eqb (Str.toLowerCase name)) genericNames then true
    else if (String.length name <? 5)%nat
            || negb (Regex.test (Regex.Seq (Regex.Class Regex.lower)
                                   (Regex.Class Regex.upper)) name)
    then true
    else false.

(** ** Vocabulary of the properties *)

(** [m] leaves the file at [p] as it is and only adds to the log. *)
Definition Frames {A : Type} (p : string) (m : IO A) : Prop :=
  forall w a w', m w = (a, w') ->
    files (fs w') !! p = files (fs w) !! p /\ exists l, logs w' = logs w ++ l.

(** The child processes leave the file at [p] as it is. *)
Definition execKeeps (T : Tools) (p : string) : Prop :=
  forall (command : Command) (s : FS),
    files (exec T command s).2 !! p = files s !! p.

(** The [try] block of the call of [performSafeRename] from [w] threw [e]
    and left the world [w0]: the backup was made, and then the restore
    after a failed rename, the restore after a failed verification, or the
    removal of the backup after a successful one threw. *)
Definition tryBlockThrew (T : Tools) (filePath : string)
    (suggestion : NamingSuggestion) (language : LanguageType)
    (lineNumber : Z) (projectRoot : string)
    (w : World) (e : JsError) (w0 : World) : Prop :=
  exists w1 result w2,
    copyFile filePath (backupPathOf filePath) w = (Ok tt, w1)
    /\ dispatchRename T filePath suggestion language lineNumber projectRoot w1
       = (result, w2)
    /\ if RenameResult.success result
       then
         exists isValid w3,
           dispatchVerify T filePath language projectRoot w2 = (isValid, w3)
           /\ if isValid
              then unlink (backupPathOf filePath) w3 = (Throw e, w0)
              else restoreBackup (backupPathOf filePath) filePath
                     (logger WARN ("Verification failed for " +:+ filePath
                                   +:+ ", rolling back") w3).2
                   = (Throw e, w0)
       else restoreBackup (backupPathOf filePath) filePath w2 = (Throw e, w0).

(** The emergency restore of the call of [performSafeRename] that led from
    [w] to [w'] itself failed: the [try] block threw and, in the world it
    left, the copy of the backup over the file threw too; the call logged
    that error and did nothing more. *)
Definition emergencyRestoreThrew (T : Tools) (filePath : string)
    (suggestion : NamingSuggestion) (language : LanguageType)
    (lineNumber : Z) (projectRoot : string) (w w' : World) : Prop :=
  exists e w0 restoreError w1,
    tryBlockThrew T filePath suggestion language lineNumber projectRoot w e w0
    /\ copyFile (backupPathOf filePath) filePath w0 = (Throw restoreError, w1)
    /\ w' = mkWorld (fs w1)
              (logs w1 ++ [(ERROR, "Failed to restore backup: "
                                   +:+ String_ restoreError)]).

(** No input/output fault hits the next [n] calls of the file system. *)
Definition noFaultAhead (n : nat) (s : FS) : bool :=
  forallb (fun f => match f with None => true | Some _ => false end)
          (take n (faults s)).

(** The requests attempted in turn, each from the world its predecessor
    left, whatever the outcomes: the outcome of every request and the world
    after it. *)
Fixpoint attemptInTurn (T : Tools) (renames : list RenameRequest.t)
    (projectRoot : string) (w : World) : list (RenameResult.t * World) :=
  match renames with
  | [] => []
  | rename :: later =>
      let '(result, w1) :=
        performSafeRename T (RenameRequest.filePath rename)
          (RenameRequest.suggestion rename) (RenameRequest.language rename)
          (RenameRequest.lineNumber rename) projectRoot w in
      (result, w1) :: attemptInTurn T later projectRoot w1
  end.

(** The state after one more reading of the clock. *)
Definition tickClock (st : ClientState) : ClientState :=
  mkClient (responseCache st) (costStats st) (requests st)
           (S (clockReads st)) (sleeps st) (clientLogs st).

(** The state after a lookup that read the clock and deleted the entry
    under [key]. *)
Definition evict (key : string) (st : ClientState) : ClientState :=
  mkClient (delete key (responseCache st)) (costStats st) (requests st)
           (S (clockReads st)) (sleeps st) (clientLogs st).

(** The confidence is at least 0.3, so it is not below 0.3. *)
Definition passedThreshold (c : Collected) : Prop :=
  PrimFloat.leb 0.3%float (confidence c.1) = true
  /\ PrimFloat.ltb (confidence c.1) 0.3%float = false.

(** [z.number().min(0).max(1)]: the range the schema accepts for a
    confidence. *)
Definition confidenceInRange (c : float) : bool :=
  PrimFloat.leb 0%float c && PrimFloat.leb c 1%float.

(** The statistics after a successful request has been accounted for. *)
Definition accountFor (config : LLMConfig.t) (response : ChatCompletion)
    (c : CostStats.t) : CostStats.t :=
  match usage response with
  | Some u =>
      CostStats.mk (CostStats.totalTokens c + total_tokens u)
        (CostStats.estimatedCost c
         + calculateCost (LLMConfig.model config)
             (prompt_tokens u) (completion_tokens u))%Q
        (CostStats.apiCalls c + 1)
        (CostStats.cacheHitRate c)
  | None =>
      CostStats.mk (CostStats.totalTokens c) (CostStats.estimatedCost c)
        (CostStats.apiCalls c + 1) (CostStats.cacheHitRate c)
  end.

(** A suggestion that breaks one of the invariants of the data model. *)
Definition breaksInvariant (s : NamingSuggestion) : Prop :=
  oldName s = newName s
  \/ validIdentifier (newName s) = false
  \/ (String.length (rationale s) < 10)%nat.

(** The service reports token counts that are not negative. *)
Definition usageNonNegative (X : Services) : Prop :=
  forall k config prompt response u,
    chat_create X k config prompt = Ok response ->
    usage response = Some u ->
    0 <= total_tokens u /\ 0 <= prompt_tokens u /\ 0 <= completion_tokens u.

(** The three accumulated counters of [b] are at least those of [a]. *)
Definition statsLe (a b : CostStats.t) : Prop :=
  CostStats.totalTokens a <= CostStats.totalTokens b
  /\ (CostStats.estimatedCost a <= CostStats.estimatedCost b)%Q
  /\ CostStats.apiCalls a <= CostStats.apiCalls b.

(** The ratio [getCostStats] stores in [cacheHitRate]. *)
Definition hitRateOf (st : ClientState) : Q :=
  let size := Z.of_nat (size (responseCache st)) in
  let totalRequests := CostStats.apiCalls (costStats st) + size in
  if 0 <? totalRequests then (inject_Z size / inject_Z totalRequests)%Q else 0%Q.

(** ** Inputs of the examples *)

Definition newline : string := String "010" EmptyString.

(** Scenario A. *)
Definition scenarioA_diff : string :=
  "@@ -1,3 +1,4 @@" +:+ newline +:+
  " const x = 1;" +:+ newline +:+
  "+const data = fetchUser();" +:+ newline +:+
  " const y = 2;".

(** An addition whose text starts with [++]. *)
Definition increment_diff : string :=
  "@@ -1,1 +1,3 @@" +:+ newline +:+
  "+++counter;" +:+ newline +:+
  "+run(counter);" +:+ newline +:+
  " done();".

(** Scenario C. *)
Definition scenarioC_before : string :=
  "const data = 1;" +:+ newline +:+ "console.log(data);".
Definition scenarioC_after : string :=
  "const userProfile = 1;" +:+ newline +:+ "console.log(userProfile);".

(** A machine without rope, gopls, python or go, and a ts-morph that finds
    no declaration. *)
Definition bareTools : Tools :=
  mkTools (fun _ s => (Throw (Error "Command failed"), s))
          (fun _ _ _ => Ok 0%nat)
          (fun _ content _ _ => Ok content)
          (fun _ _ => Ok [])
          (fun _ _ => Throw (mkError "SyntaxError" "Invalid regular expression"))
          (fun _ _ content => content)
          (fun path => path).

Definition worldWith (path content : string) : World :=
  mkWorld (mkFS {[ path := content ]} []) [].

(** The same working tree on a disk that fails the fourth call of the file
    system and, when hit, leaves junk at the destination. *)
Definition worldFailingFourth (path content : string) : World :=
  mkWorld (mkFS {[ path := content ]} [None; None; None; Some (Garbled "junk")]) [].

(** Scenario B. *)
Definition scenarioB_suggestion : NamingSuggestion :=
  Build_NamingSuggestion "data" "userProfile" 0.95%float
    "Describes what the variable holds"
    (Build_Safety false true "Local variable") ["userInfo"].

Definition scenarioB_public : NamingSuggestion :=
  Build_NamingSuggestion "data" "userProfile" 0.95%float
    "Describes what the variable holds"
    (Build_Safety true true "Exported") ["userInfo"].

(** A file that already mentions the new name. *)
Definition mentionsNewName : string := "data = userProfile".

(** Two requests, the first of them on a file that does not exist. *)
Definition requestOn (filePath : string) : RenameRequest.t :=
  RenameRequest.mk filePath scenarioB_suggestion python 1.

(** ** A service for the examples *)

(** Scenario E: a suggestion that renames nothing. *)
Definition scenarioE_suggestion : NamingSuggestion :=
  Build_NamingSuggestion "temp" "temp" 0.9%float
    "The name is already descriptive"
    (Build_Safety false false "Nothing to rename") ["temp"].

(** A service that answers every request, with the prompt as its text, and
    a clock that advances by [tick] milliseconds a reading. The prompt of a
    context is its old name; the text "data" parses to the suggestion of
    Scenario B and the text "temp" to that of Scenario E. *)
Definition echoServices (tick : Z) : Services :=
  mkServices
    (Ok (LLMConfig.mk "key" "gpt-4o-mini" 1000 0.3%float 2))
    (fun data => data)
    (fun reading => tick * Z.of_nat reading)
    NamingContext.oldName
    (fun _ _ prompt =>
       Ok (mkChatCompletion (Some prompt) (Some (mkUsage 500 300 800))))
    (fun text =>
       if String.eqb text "data" then Some scenarioB_suggestion
       else if String.eqb text "temp" then Some scenarioE_suggestion
       else None).

Definition contextOf (name : string) : NamingContext.t :=
  NamingContext.mk "app.ts" typescript name ("const " +:+ name +:+ " = load();")
    [] [] [] (Some []) "Load the profile" EmptyString 1.

(** Run a computation of the client for its state, and for its value. *)
Definition after {A : Type} (m : Client A) (st : ClientState) : ClientState :=
  (m st).2.
Definition valueOf {A : Type} (m : Client A) (st : ClientState) : A :=
  (m st).1.

(** ** The client as its callers see it *)

(** The functions llm/client.ts exports; [responseCache] and [costStats]
    are private to the module, so these calls are all that changes them. *)
Inductive ClientCall : Type :=
| CallAskLLM (context : NamingContext.t)
| CallGetCostStats
| CallResetCostStats
| CallClearCache.

(** The state one call leaves. *)
Definition afterCall (X : Services) (st : ClientState) (c : ClientCall)
  : ClientState :=
  match c with
  | CallAskLLM context => (askLLM X context st).2
  | CallGetCostStats => (getCostStats st).2
  | CallResetCostStats => (resetCostStats st).2
  | CallClearCache => (clearCache st).2
  end.

(** The state of the module after the calls made since it was loaded. *)
Definition afterCalls (X : Services) (calls : list ClientCall) : ClientState :=
  fold_left (afterCall X) calls initialClient.

(** The error with which the request numbered [k] makes its attempt throw,
    if it does: the service's own, an empty text, or a text that is not a
    suggestion. *)
Definition attemptError (X : Services) (config : LLMConfig.t) (prompt : string)
    (k : nat) : option JsError :=
  match chat_create X k config prompt with
  | Throw e => Some e
  | Ok response =>
      match content response with
      | None => Some (Error "Empty response from LLM")
      | Some EmptyString => Some (Error "Empty response from LLM")
      | Some text =>
          match parseNamingSuggestion X text with
          | None => Some (Error "Invalid JSON response from LLM")
          | Some _ => None
          end
      end
  end.

(** The pauses before [n] retries, the first of them after the attempt
    numbered [attempt]: [2 ^ attempt] seconds, doubling. *)
Fixpoint backoffsFrom (attempt : Z) (n : nat) : list Z :=
  match n with
  | O => []
  | S n => 2 ^ attempt * 1000 :: backoffsFrom (attempt + 1) n
  end.

(** The text [getCacheKey] hashes. *)
Definition cacheKeyText (context : NamingContext.t) : string :=
  NamingContext.file context +:+ ":"
  +:+ NamingContext.oldName context +:+ ":"
  +:+ NamingContext.declaration context.

(** What a cache entry written by [cacheResponse] looks like at [st]: a
    suggestion that passed [isValidSuggestion], the time to live of the
    module, a reading of the clock already taken. *)
Definition entryWellFormed (X : Services) (st : ClientState)
    (entry : CacheEntry.t) : Prop :=
  isValidSuggestion (CacheEntry.suggestion entry) = true
  /\ CacheEntry.ttl entry = CACHE_TTL
  /\ exists reading, (reading < clockReads st)%nat
                     /\ CacheEntry.timestamp entry = Date_now X reading.

(** What holds of the module's variables whatever calls were made. *)
Definition clientInvariant (X : Services) (st : ClientState) : Prop :=
  (forall key entry, responseCache st !! key = Some entry ->
                     entryWellFormed X st entry)
  /\ 0 <= CostStats.apiCalls (costStats st) <= Z.of_nat (requests st).

(** ** Vocabulary of the diff parser's properties *)

(** A line the parser records as an addition when it is in a hunk. *)
Definition isAddedLine (line : string) : bool :=
  Str.startsWith line "+" && negb (Str.startsWith line "+++").

(** A line the parser records as a deletion when it is in a hunk. *)
Definition isDeletedLine (line : string) : bool :=
  Str.startsWith line "-" && negb (Str.startsWith line "---").

(** The lines that follow the first hunk header the parser accepts. *)
Fixpoint afterFirstHunkHeader (lines : list string) : list string :=
  match lines with
  | [] => []
  | line :: later =>
      if isHunkHeader line then later else afterFirstHunkHeader later
  end.

(** ** Vocabulary of the properties of the symbol filter *)

(** The prefixes, in lower case, that [skipPatterns] looks for. *)
Definition skippedPrefixes : list string :=
  ["test"; "mock"; "stub"; "fake"; "dummy"; "_"].

(** The name starts with one of them, letters taken in either case. *)
Definition hasSkippedPrefix (name : string) : bool :=
  existsb (Str.startsWith (Str.toLowerCase name)) skippedPrefixes.

(** The declaration mentions both import and type. *)
Definition looksLikeTypeImport (declaration : string) : bool :=
  Str.includes declaration "import" && Str.includes declaration "type".

(** A lower-case letter followed by lower-case letters, digits and
    underscores; an upper-case letter followed by upper-case letters,
    digits and underscores. *)
Definition isSnakeName (name : string) : bool :=
  match name with
  | EmptyString => false
  | String c rest =>
      Regex.lower c
      && forallb (fun c => Regex.lower c || Regex.digit c || Ascii.eqb c "_")
                 (list_ascii_of_string rest)
  end.
Definition isScreamingName (name : string) : bool :=
  match name with
  | EmptyString => false
  | String c rest =>
      Regex.upper c
      && forallb (fun c => Regex.upper c || Regex.digit c || Ascii.eqb c "_")
                 (list_ascii_of_string rest)
  end.

(** ** Comment formatter (github/comment-formatter.ts) *)

(** The templates hold characters outside Latin-1 (emoji, the sign for at
    least); they are written here as their UTF-8 bytes. The code only
    concatenates these texts and searches the result for markers made of
    ASCII characters, which gives the same answers on either encoding. *)

(** What the formatter asks of Node and of the engine. *)
Record Formatter : Type := mkFormatter {
  (** [crypto.createHash('md5').update(data).digest('hex')]. *)
  md5_hex : string -> string;
  (** [Number.prototype.toFixed(0)]. *)
  toFixed0 : float -> string
}.

Module ReviewComment.
Record t : Type := mk {
  path : string;
  line : Z;
  body : string;
  suggestion : option string;
  hash : string
}.
End ReviewComment.

(** A review comment as [getExistingComments] returns it. *)
Module ExistingComment.
Record t : Type := mk {
  path : string;
  line : Z;
  body : string;
  id : Z
}.
End ExistingComment.

(** [items.join(sep)]. *)
Fixpoint join (sep : string) (items : list string) : string :=
  match items with
  | [] => EmptyString
  | [item] => item
  | item :: later => item +:+ sep +:+ join sep later
  end.

Definition generateCommentHash (F : Formatter) (filePath oldName newName : string)
  : string :=
  let data := filePath +:+ ":" +:+ oldName +:+ ":" +:+ newName in
  String.substring 0 8 (md5_hex F data).

(** The value of [body] before the deduplication marker is added. *)
Definition bodyBeforeMarker (F : Formatter) (suggestion : NamingSuggestion)
    (includeAutofix : bool) : string :=
  let confidenceEmoji :=
    if PrimFloat.leb 0.8%float (confidence suggestion) then "🟢"
    else if PrimFloat.leb 0.5%float (confidence suggestion) then "🟡"
    else "🔴" in
  let confidence := toFixed0 F (confidence suggestion * 100)%float in
  let body :=
    "## " +:+ confidenceEmoji +:+ " Naming Suggestion (" +:+ confidence
    +:+ "% confidence)" +:+ newline
    +:+ newline
    +:+ "**Current name:** `" +:+ oldName suggestion +:+ "`" +:+ newline
    +:+ "**Suggested name:** `" +:+ newName suggestion +:+ "`" +:+ newline
    +:+ newline
    +:+ "**Rationale:** " +:+ rationale suggestion +:+ newline
    +:+ newline
    +:+ "**Safety Analysis:**" +:+ newline
    +:+ "- API Surface: "
    +:+ (if isApiSurface (safety suggestion) then "⚠️ Yes" else "✅ No")
    +:+ newline
    +:+ "- Auto-fix Safe: "
    +:+ (if shouldAutofix (safety suggestion) then "✅ Yes" else "❌ No")
    +:+ newline
    +:+ "- Reason: " +:+ reason (safety suggestion) +:+ newline
    +:+ newline
    +:+ "**Alternative names:** "
    +:+ join ", " (map (fun alt => "`" +:+ alt +:+ "`") (alternatives suggestion))
    +:+ newline in
  if includeAutofix && shouldAutofix (safety suggestion)
  then body +:+ newline +:+ "```suggestion" +:+ newline
       +:+ newName suggestion +:+ newline
       +:+ "```" +:+ newline
  else body.

Definition formatSuggestionComment (F : Formatter) (suggestion : NamingSuggestion)
    (filePath : string) (lineNumber : Z) (includeAutofix : bool)
  : ReviewComment.t :=
  let body := bodyBeforeMarker F suggestion includeAutofix in
  let hash := generateCommentHash F filePath (oldName suggestion)
                (newName suggestion) in
  let body := body +:+ newline +:+ "<!-- ai-naming-bot:" +:+ hash +:+ " -->" in
  ReviewComment.mk filePath lineNumber body
    (if includeAutofix && shouldAutofix (safety suggestion)
     then Some (newName suggestion) else None)
    hash.

(** [[a-f0-9]]. *)
Definition isHexDigit (c : ascii) : bool :=
  (Str.isDigit c || ((97 <=? Str.code c) && (Str.code c <=? 102)))%N.

(** [/<!-- ai-naming-bot:([a-f0-9]{8}) -->/] matches at the head of [s]:
    the group it captures. *)
Definition markerAt (s : string) : option string :=
  if String.prefix "<!-- ai-naming-bot:" s then
    let hash := String.substring 19 8 s in
    if (String.length hash =? 8)%nat
       && forallb isHexDigit (list_ascii_of_string hash)
       && String.prefix " -->" (dropUnits 27 s)
    then Some hash
    else None
  else None.

(** [commentBody.match(/<!-- ai-naming-bot:([a-f0-9]{8}) -->/)]: the
    group captured by the leftmost match. *)
Fixpoint firstMarker (s : string) : option string :=
  match markerAt s with
  | Some hash => Some hash
  | None =>
      match s with
      | EmptyString => None
      | String _ rest => firstMarker rest
      end
  end.

Definition isCommentDuplicate (commentBody : string)
    (existingComments : list ExistingComment.t) : bool :=
  match firstMarker commentBody with
  | None => false
  | Some hash =>
      existsb (fun comment =>
                 Str.includes (ExistingComment.body comment)
                   ("ai-naming-bot:" +:+ hash))
              existingComments
  end.

(** The three counts of [formatSummaryComment]. *)
Definition highConfidence (suggestions : list NamingSuggestion) : nat :=
  length (List.filter (fun s => PrimFloat.leb 0.8%float (confidence s)) suggestions).
Definition mediumConfidence (suggestions : list NamingSuggestion) : nat :=
  length (List.filter (fun s => PrimFloat.leb 0.5%float (confidence s)
                                && PrimFloat.ltb (confidence s) 0.8%float)
                      suggestions).
Definition lowConfidence (suggestions : list NamingSuggestion) : nat :=
  length (List.filter (fun s => PrimFloat.ltb (confidence s) 0.5%float) suggestions).

Definition formatSummaryComment (suggestions : list NamingSuggestion)
    (autoFixCount : Z) : string :=
  let totalCount := length suggestions in
  "## 🤖 AI Naming Review Summary" +:+ newline
  +:+ newline
  +:+ "Found **" +:+ pretty totalCount +:+ "** naming suggestions:" +:+ newline
  +:+ "- 🟢 High confidence (≥80%): " +:+ pretty (highConfidence suggestions)
  +:+ newline
  +:+ "- 🟡 Medium confidence (50-79%): "
  +:+ pretty (mediumConfidence suggestions) +:+ newline
  +:+ "- 🔴 Low confidence (<50%): " +:+ pretty (lowConfidence suggestions)
  +:+ newline
  +:+ newline
  +:+ (if 0 <? autoFixCount
       then "✨ **" +:+ pretty autoFixCount
            +:+ "** suggestions were automatically applied and committed."
       else EmptyString)
  +:+ newline
  +:+ newline
  +:+ "Review the inline comments for detailed suggestions." +:+ newline
  +:+ newline
  +:+ "---" +:+ newline
  +:+ "*Powered by AI Naming Reviewer*".

Definition formatErrorComment (error : string) : string :=
  "## ⚠️ AI Naming Review Error" +:+ newline
  +:+ newline
  +:+ "An error occurred during the naming review:" +:+ newline
  +:+ newline
  +:+ "```" +:+ newline
  +:+ error +:+ newline
  +:+ "```" +:+ newline
  +:+ newline
  +:+ "Please check the action logs for more details." +:+ newline
  +:+ newline
  +:+ "---" +:+ newline
  +:+ "*Powered by AI Naming Reviewer*".

Definition formatNoSuggestionsComment : string :=
  "## ✅ AI Naming Review Complete" +:+ newline
  +:+ newline
  +:+ "No naming improvements suggested. All identifiers appear to follow good naming conventions!"
  +:+ newline
  +:+ newline
  +:+ "---" +:+ newline
  +:+ "*Powered by AI Naming Reviewer*".

(** ** Vocabulary of the formatter's properties *)

(** MD5 in hexadecimal: the first eight code units of a digest are eight
    digits from 0-9 and a-f. *)
Definition hexDigests (F : Formatter) : Prop :=
  forall data : string,
    String.length (String.substring 0 8 (md5_hex F data)) = 8%nat
    /\ forallb isHexDigit
         (list_ascii_of_string (String.substring 0 8 (md5_hex F data))) = true.

(** The status line [runAutofix] puts before the body of a comment for a
    rename it applied. *)
Definition autofixedNote : string :=
  "✅ **Auto-fixed and committed**" +:+ newline +:+ newline.

(** A confidence that is a number. *)
Definition isNumber (c : float) : bool := PrimFloat.eqb c c.

(** ** Identifiers of the added code (context/diff-parser.ts) *)

(** The nine patterns of [extractIdentifiers], all with the flag g and
    one capturing group, written (name) below, for the name; in the
    TypeScript patterns name is [a-zA-Z_$][a-zA-Z0-9_$]* and in the Python
    and Go patterns it is [a-zA-Z_][a-zA-Z0-9_]*. *)
Inductive IdentifierPattern : Type :=
| TsDeclaration  (* \b(?:const|let|var|function|class|interface|type|enum)\s+(name) *)
| TsAssignment   (* (name)\s*[:=]\s*(?:function|async|\() *)
| TsCall         (* \.(name)\s*\( *)
| PyDef          (* \bdef\s+(name) *)
| PyClass        (* \bclass\s+(name) *)
| PyAssignment   (* (name)\s*= *)
| GoFunc         (* \bfunc\s+(?:\([^)]*\)\s+)?(name) *)
| GoType         (* \btype\s+(name) *)
| GoVar.         (* \bvar\s+(name) *)

(** The [switch (language)] that fills [patterns]. *)
Definition patternsOf (language : LanguageType) : list IdentifierPattern :=
  match language with
  | typescript | javascript => [TsDeclaration; TsAssignment; TsCall]
  | python => [PyDef; PyClass; PyAssignment]
  | go => [GoFunc; GoType; GoVar]
  end.

(** The regular-expression engine where the code reads what a group
    captured, or splices a name into a pattern. *)
Record Engine : Type := mkEngine {
  (** The values of [match[1]] in the successive results of
      [pattern.exec(code)], until it returns [null]. *)
  exec_captures : IdentifierPattern -> string -> list string;
  (** [line.match(new RegExp(source))] found a match, for a pattern that
      holds a name with characters other than word characters: building
      the pattern may throw. *)
  match_source : string -> string -> Result bool
}.

Definition keywords : list string :=
  ["if"; "else"; "for"; "while"; "do"; "switch"; "case"; "break"; "continue";
   "return"; "try"; "catch"; "finally"; "throw"; "new"; "this"; "super";
   "true"; "false"; "null"; "undefined"; "void"; "typeof"; "instanceof";
   "in"; "of"; "as"; "is"; "from"; "import"; "export"; "default";
   "async"; "await"; "yield"; "get"; "set"; "static"; "public"; "private";
   "protected"; "readonly"; "abstract"; "extends"; "implements"].

Definition isCommonKeyword (name : string) : bool :=
  existsb (String.eqb (Str.toLowerCase name)) keywords.

(** [identifiers.add(name)]: a [Set] keeps a value once, where it was
    first added. *)
Definition addIdentifier (identifiers : list string) (name : string)
  : list string :=
  if existsb (String.eqb name) identifiers then identifiers
  else identifiers ++ [name].

(** The body of the [while] loop over the matches of one pattern. *)
Definition keepIdentifier (identifiers : list string) (name : string)
  : list string :=
  if (1 <? String.length name)%nat && negb (isCommonKeyword name)
  then addIdentifier identifiers name
  else identifiers.

Definition extractIdentifiers (E : Engine) (code : string)
    (language : LanguageType) : list string :=
  fold_left (fun identifiers pattern =>
               fold_left keepIdentifier (exec_captures E pattern code) identifiers)
            (patternsOf language) [].

(** ** Symbol information for Python and Go (context/symbol-extractor.ts) *)

Module SymbolInfo.
Record t : Type := mk {
  name : string;
  declaration : string;
  usages : list string;
  neighbors : list string;
  enclosingScopes : list string;
  types : list (string * string);
  lineNumber : Z
}.
End SymbolInfo.

(** [String.prototype.trim] on code units below 256: the white space and
    line terminators it strips are the code units of [\s]. *)
Fixpoint trimStart (s : string) : string :=
  match s with
  | EmptyString => EmptyString
  | String c rest => if Regex.space c then trimStart rest else s
  end.

Fixpoint trimEnd (s : string) : string :=
  match s with
  | EmptyString => EmptyString
  | String c rest =>
      match trimEnd rest with
      | EmptyString => if Regex.space c then EmptyString else String c EmptyString
      | kept => String c kept
      end
  end.

Definition trim (s : string) : string := trimEnd (trimStart s).

(** [\s]. *)
Definition whitespace : Regex.t := Regex.Class Regex.space.

(** The patterns [extractPythonSymbolInfo] builds around the name: what
    each is when the name is made of word characters, which stand for
    themselves in a pattern, and the text given to [new RegExp]. *)
Definition pythonPatterns (symbolName : string) : list (Regex.t * string) :=
  [ (Regex.Seq (Regex.Lit "def")
       (Regex.Seq (Regex.Plus whitespace)
          (Regex.Seq (Regex.Lit symbolName)
             (Regex.Seq (Regex.Star whitespace) (Regex.Chr "(")))),
     "def\s+" +:+ symbolName +:+ "\s*\(");
    (Regex.Seq (Regex.Lit "class")
       (Regex.Seq (Regex.Plus whitespace)
          (Regex.Seq (Regex.Lit symbolName)
             (Regex.Seq (Regex.Star whitespace)
                (Regex.Class (fun c => Ascii.eqb c ":" || Ascii.eqb c "("))))),
     "class\s+" +:+ symbolName +:+ "\s*[:(]");
    (Regex.Seq (Regex.Lit symbolName)
       (Regex.Seq (Regex.Star whitespace) (Regex.Chr "=")),
     symbolName +:+ "\s*=") ].

(** The patterns of [extractGoSymbolInfo]. *)
Definition goPatterns (symbolName : string) : list (Regex.t * string) :=
  [ (Regex.Seq (Regex.Lit "func")
       (Regex.Seq (Regex.Plus whitespace)
          (Regex.Seq
             (Regex.Opt
                (Regex.Seq (Regex.Chr "(")
                   (Regex.Seq
                      (Regex.Star (Regex.Class (fun c => negb (Ascii.eqb c ")"))))
                      (Regex.Seq (Regex.Chr ")") (Regex.Plus whitespace)))))
             (Regex.Seq (Regex.Lit symbolName)
                (Regex.Seq (Regex.Star whitespace) (Regex.Chr "("))))),
     "func\s+(?:\([^)]*\)\s+)?" +:+ symbolName +:+ "\s*\(");
    (Regex.Seq (Regex.Lit "type")
       (Regex.Seq (Regex.Plus whitespace)
          (Regex.Seq (Regex.Lit symbolName) (Regex.Plus whitespace))),
     "type\s+" +:+ symbolName +:+ "\s+");
    (Regex.Seq (Regex.Lit "var")
       (Regex.Seq (Regex.Plus whitespace)
          (Regex.Seq (Regex.Lit symbolName) (Regex.Plus whitespace))),
     "var\s+" +:+ symbolName +:+ "\s+") ].

(** [line.match(new RegExp(...))] found a match. *)
Definition lineMatches (E : Engine) (symbolName : string)
    (pattern : Regex.t * string) (line : string) : Result bool :=
  if forallb Str.isWordChar (list_ascii_of_string symbolName)
  then Ok (Regex.test pattern.1 line)
  else match_source E pattern.2 line.

(** The matches of one turn of the loop are all computed, in order, before
    any is tested: a pattern that cannot be built throws whatever the
    earlier ones found. *)
Fixpoint anyMatch (found : list (Result bool)) : Result bool :=
  match found with
  | [] => Ok false
  | Throw e :: _ => Throw e
  | Ok b :: later =>
      match anyMatch later with
      | Throw e => Throw e
      | Ok b' => Ok (b || b')
      end
  end.

(** The loop that finds the declaration, from the line of index [i]: the
    values of [declaration] and [lineNumber] when it ends. *)
Fixpoint findDeclaration (declares : string -> Result bool)
    (lines : list string) (i : Z) : Result (string * Z) :=
  match lines with
  | [] => Ok (EmptyString, 0)
  | line :: later =>
      match declares line with
      | Throw e => Throw e
      | Ok true => Ok (trim line, i + 1)
      | Ok false => findDeclaration declares later (i + 1)
      end
  end.

(** The loop that collects the usages, from the line of index [i]. *)
Fixpoint findUsages (symbolName : string) (lineNumber : Z)
    (lines : list string) (i : Z) (usages : list string) : list string :=
  match lines with
  | [] => usages
  | line :: later =>
      if i =? lineNumber - 1
      then findUsages symbolName lineNumber later (i + 1) usages
      else if Str.includes line symbolName && (length usages <? 5)%nat
      then findUsages symbolName lineNumber later (i + 1) (usages ++ [trim line])
      else findUsages symbolName lineNumber later (i + 1) usages
  end.

(** The body the two extractors share, up to their patterns. *)
Definition extractByLines (E : Engine)
    (patterns : string -> list (Regex.t * string))
    (symbolName fileContent : string) : Result (option SymbolInfo.t) :=
  let lines := Str.split "010" fileContent in
  let declares line :=
    anyMatch (List.map (fun pattern => lineMatches E symbolName pattern line)
                (patterns symbolName)) in
  match findDeclaration declares lines 0 with
  | Throw e => Throw e
  | Ok (declaration, lineNumber) =>
      if String.eqb declaration EmptyString then Ok None
      else
        let usages := findUsages symbolName lineNumber lines 0 [] in
        Ok (Some (SymbolInfo.mk symbolName declaration usages [] [] []
                    lineNumber))
  end.

Definition extractPythonSymbolInfo (E : Engine)
    (filePath symbolName fileContent : string) : Result (option SymbolInfo.t) :=
  extractByLines E pythonPatterns symbolName fileContent.

Definition extractGoSymbolInfo (E : Engine)
    (filePath symbolName fileContent : string) : Result (option SymbolInfo.t) :=
  extractByLines E goPatterns symbolName fileContent.

(** ** Vocabulary of the statements about symbol information *)

(** The name is made of word characters. *)
Definition isWordText (symbolName : string) : bool :=
  forallb Str.isWordChar (list_ascii_of_string symbolName).

(** One of the patterns matches somewhere in the line. *)
Definition declaresIn (patterns : string -> list (Regex.t * string))
    (symbolName line : string) : bool :=
  existsb (fun pattern => Regex.test pattern.1 line) (patterns symbolName).

(** The line has a code unit that is not white space. *)
Definition hasInk (s : string) : bool :=
  existsb (fun c => negb (Regex.space c)) (list_ascii_of_string s).

(** Whatever the pattern matches has a code unit that is not white space. *)
Definition inked (r : Regex.t) : Prop :=
  forall s, Regex.matches r s = true -> hasInk s = true.

(** The lines other than the one of index [i] that contain the name,
    trimmed. *)
Definition otherMentions (symbolName : string) (i : nat) (lines : list string)
  : list string :=
  List.map trim (List.filter (fun line => Str.includes line symbolName)
                   (delete i lines)).

(** What the result of an extractor by lines says of the lines: nothing
    declares the name, or the first line that does is the declaration and
    the first five other mentions are the usages. *)
Definition describes (patterns : string -> list (Regex.t * string))
    (symbolName : string) (lines : list string)
    (result : option SymbolInfo.t) : Prop :=
  match result with
  | None =>
      forall line, In line lines -> declaresIn patterns symbolName line = false
  | Some info =>
      exists i line,
        lines !! i = Some line
        /\ declaresIn patterns symbolName line = true
        /\ (forall j earlier, (j < i)%nat -> lines !! j = Some earlier ->
                              declaresIn patterns symbolName earlier = false)
        /\ info = SymbolInfo.mk symbolName (trim line)
                    (take 5 (otherMentions symbolName i lines)) [] [] []
                    (Z.of_nat i + 1)
        /\ trim line <> EmptyString
  end.

(** ** The pull request on GitHub (github/api-client.ts) *)

Module PullRequest.
Record t : Type := mk {
  number : Z;
  title : string;
  body : string;
  base : string;
  head : string;
  isDraft : option bool;
  isFork : bool;
  labels : list string;
  owner : string;
  repo : string
}.
End PullRequest.

(** What the code reads of the answer of [pulls.get]: [head_repo_fork] is
    [pr.head.repo?.fork], absent when the head has no repository. *)
Module PullData.
Record t : Type := mk {
  number : Z;
  title : string;
  body : option string;
  base_ref : string;
  head_ref : string;
  draft : option bool;
  head_repo_fork : option bool;
  labels : list string
}.
End PullData.

(** A file of the pull request as [pulls.listFiles] answers. *)
Module PullFile.
Record t : Type := mk {
  filename : string;
  status : string;
  patch : option string
}.
End PullFile.

(** A review comment as [pulls.listReviewComments] answers. *)
Module CommentData.
Record t : Type := mk {
  path : string;
  line : option Z;
  original_line : option Z;
  body : string;
  id : Z
}.
End CommentData.

(** The requests the code sends through Octokit, with the arguments that
    vary: [per_page] is always 100, [side] RIGHT, [encoding] base64, the
    [mode] of a tree entry 100644 and its [type] blob. *)
Inductive OctokitCall : Type :=
| PullsGet (owner repo : string) (pull_number : Z)
| PullsListFiles (owner repo : string) (pull_number : Z)
| ReposGetContent (owner repo path ref : string)
| PullsCreateReviewComment (owner repo : string) (pull_number : Z)
    (path : string) (line : Z) (body : string)
| PullsListReviewComments (owner repo : string) (pull_number : Z)
| GitGetRef (owner repo ref : string)
| GitGetCommit (owner repo commit_sha : string)
| GitCreateBlob (owner repo content : string)
| GitCreateTree (owner repo base_tree : string) (tree : list (string * string))
| GitCreateCommit (owner repo message tree : string) (parents : list string)
| GitUpdateRef (owner repo ref sha : string).

(** GitHub as the code meets it: what each request is answered, given the
    requests sent before it. *)
Record Octokit : Type := mkOctokit {
  pulls_get : list OctokitCall -> string -> string -> Z -> Result PullData.t;
  pulls_listFiles : list OctokitCall -> string -> string -> Z
                    -> Result (list PullFile.t);
  (** The [content] of the answer, when the answer has that property. *)
  repos_getContent : list OctokitCall -> string -> string -> string -> string
                     -> Result (option string);
  pulls_createReviewComment : list OctokitCall -> string -> string -> Z
                              -> string -> Z -> string -> Result unit;
  pulls_listReviewComments : list OctokitCall -> string -> string -> Z
                             -> Result (list CommentData.t);
  (** [ref.object.sha], [commit.tree.sha] and the [sha] of what is created. *)
  git_getRef : list OctokitCall -> string -> string -> string -> Result string;
  git_getCommit : list OctokitCall -> string -> string -> string -> Result string;
  git_createBlob : list OctokitCall -> string -> string -> string -> Result string;
  git_createTree : list OctokitCall -> string -> string -> string
                   -> list (string * string) -> Result string;
  git_createCommit : list OctokitCall -> string -> string -> string -> string
                     -> list string -> Result string;
  git_updateRef : list OctokitCall -> string -> string -> string -> string
                  -> Result unit
}.

(** Everything outside the repository that a run of the action meets. *)
Record Platform : Type := mkPlatform {
  (** [process.env]. *)
  env : gmap string string;
  tools : Tools;
  services : Services;
  formatter : Formatter;
  engine : Engine;
  octokit : Octokit;
  (** What the [try] block of [extractTsSymbolInfo] evaluates to: it works
      on the syntax tree that ts-morph builds. *)
  ts_symbolInfo : string -> string -> string -> Result (option SymbolInfo.t);
  (** [Buffer.from(text).toString('base64')] and
      [Buffer.from(text, 'base64').toString('utf-8')]. *)
  to_base64 : string -> string;
  from_base64 : string -> string;
  (** Of the rejections of the promises given to [Promise.all], the one
      that comes first in time. *)
  first_rejection : list JsError -> JsError
}.

(** The state of a run: the working tree and the log, the module of the
    suggestion client, and the requests sent to GitHub so far. *)
Record App : Type := mkApp {
  world : World;
  client : ClientState;
  github : list OctokitCall
}.

Definition Run (A : Type) : Type := Eff App A.

Definition liftIO {A : Type} (m : IO A) : Run A :=
  fun a => let '(x, w) := m (world a) in (x, mkApp w (client a) (github a)).

Definition liftClient {A : Type} (m : Client A) : Run A :=
  fun a => let '(x, c) := m (client a) in (x, mkApp (world a) c (github a)).

(** A request: it is answered from what was sent before, and recorded. *)
Definition request {A : Type} (call : OctokitCall)
    (answer : list OctokitCall -> Result A) : Run (Result A) :=
  fun a => (answer (github a), mkApp (world a) (client a) (github a ++ [call])).

(** [await] of a call that may throw: a throw leaves the function. *)
Definition bindResult {A B : Type} (m : Run (Result A))
    (k : A -> Run (Result B)) : Run (Result B) :=
  let* outcome := m in
  match outcome with
  | Ok a => k a
  | Throw e => ret (Throw e)
  end.

Notation "'await' x ':=' m 'in' k" := (bindResult m (fun x => k))
  (at level 10, x name, m at level 100, k at level 200).
Notation "'await' ''' p ':=' m 'in' k" :=
  (bindResult m (fun x => let 'p := x in k))
  (at level 10, p strict pattern, m at level 100, k at level 200).

(** The logger, from a run. *)
Definition log (level : LogLevel) (msg : string) : Run unit :=
  liftIO (logger level msg).

(** [value || ''] for a variable of the environment. *)
Definition envOr (P : Platform) (variable : string) : string :=
  default EmptyString (env P !! variable).

Definition createOctokit (P : Platform) : Result unit :=
  if String.eqb (envOr P "GITHUB_TOKEN") EmptyString
  then Throw (Error "GITHUB_TOKEN environment variable is required")
  else Ok tt.

Definition getPullRequest (P : Platform) (owner repo : string) (prNumber : Z)
  : Run (Result PullRequest.t) :=
  await pr := request (PullsGet owner repo prNumber)
                (fun sent => pulls_get (octokit P) sent owner repo prNumber) in
  ret (Ok (PullRequest.mk
             (PullData.number pr)
             (PullData.title pr)
             (default EmptyString (PullData.body pr))
             (PullData.base_ref pr)
             (PullData.head_ref pr)
             (PullData.draft pr)
             (default false (PullData.head_repo_fork pr))
             (PullData.labels pr)
             owner repo)).

Definition postReviewComment (P : Platform) (owner repo : string) (prNumber : Z)
    (path : string) (line : Z) (body : string) : Run (Result unit) :=
  let* posted := request (PullsCreateReviewComment owner repo prNumber path line body)
                   (fun sent => pulls_createReviewComment (octokit P) sent
                                  owner repo prNumber path line body) in
  match posted with
  | Ok _ => ret (Ok tt)
  | Throw error =>
      run log ERROR ("Failed to post comment: " +:+ String_ error) in
      ret (Throw error)
  end.

(** [a || b] on numbers that may be absent: [a] unless it is absent or 0. *)
Definition numberOr (a : option Z) (b : Z) : Z :=
  match a with
  | Some n => if n =? 0 then b else n
  | None => b
  end.

Definition getExistingComments (P : Platform) (owner repo : string)
    (prNumber : Z) : Run (list ExistingComment.t) :=
  let* listed := request (PullsListReviewComments owner repo prNumber)
                   (fun sent => pulls_listReviewComments (octokit P) sent
                                  owner repo prNumber) in
  match listed with
  | Ok comments =>
      ret (List.map (fun comment =>
                       ExistingComment.mk
                         (CommentData.path comment)
                         (numberOr (CommentData.line comment)
                            (numberOr (CommentData.original_line comment) 0))
                         (CommentData.body comment)
                         (CommentData.id comment))
             comments)
  | Throw error =>
      run log ERROR ("Failed to get existing comments: " +:+ String_ error) in
      ret []
  end.

(** The blobs of [commitChanges]: the requests all leave, in the order of
    the files, before any answer is awaited. *)
Fixpoint createBlobs (P : Platform) (owner repo : string)
    (files : list (string * string))
  : Run (list (Result (string * string))) :=
  match files with
  | [] => ret []
  | (path, content) :: later =>
      let* blob := request (GitCreateBlob owner repo (to_base64 P content))
                     (fun sent => git_createBlob (octokit P) sent owner repo
                                    (to_base64 P content)) in
      let* blobs := createBlobs P owner repo later in
      ret (match blob with
           | Ok sha => Ok (path, sha)
           | Throw e => Throw e
           end :: blobs)
  end.

(** The rejections among the outcomes, in the order of the files. *)
Fixpoint rejections {A : Type} (outcomes : list (Result A)) : list JsError :=
  match outcomes with
  | [] => []
  | Ok _ :: later => rejections later
  | Throw e :: later => e :: rejections later
  end.

(** The values of the outcomes that are not rejections. *)
Fixpoint fulfilled {A : Type} (outcomes : list (Result A)) : list A :=
  match outcomes with
  | [] => []
  | Ok a :: later => a :: fulfilled later
  | Throw _ :: later => fulfilled later
  end.

(** [await Promise.all(promises)]. *)
Definition Promise_all {A : Type} (P : Platform) (outcomes : list (Result A))
  : Result (list A) :=
  match rejections outcomes with
  | [] => Ok (fulfilled outcomes)
  | errors => Throw (first_rejection P errors)
  end.

Definition commitChanges (P : Platform) (owner repo branch : string)
    (files : list (string * string)) (message : string) : Run (Result unit) :=
  let* committed :=
    (await currentCommitSha :=
       request (GitGetRef owner repo ("heads/" +:+ branch))
         (fun sent => git_getRef (octokit P) sent owner repo ("heads/" +:+ branch)) in
     await currentTreeSha :=
       request (GitGetCommit owner repo currentCommitSha)
         (fun sent => git_getCommit (octokit P) sent owner repo currentCommitSha) in
     let* outcomes := createBlobs P owner repo files in
     await blobs := ret (Promise_all P outcomes) in
     await newTree :=
       request (GitCreateTree owner repo currentTreeSha blobs)
         (fun sent => git_createTree (octokit P) sent owner repo currentTreeSha
                        blobs) in
     await newCommit :=
       request (GitCreateCommit owner repo message newTree [currentCommitSha])
         (fun sent => git_createCommit (octokit P) sent owner repo message newTree
                        [currentCommitSha]) in
     request (GitUpdateRef owner repo ("heads/" +:+ branch) newCommit)
       (fun sent => git_updateRef (octokit P) sent owner repo
                      ("heads/" +:+ branch) newCommit)) in
  match committed with
  | Ok _ => ret (Ok tt)
  | Throw error =>
      run log ERROR ("Failed to commit changes: " +:+ String_ error) in
      ret (Throw error)
  end.

Definition isForkPR (pr : PullRequest.t) : bool := PullRequest.isFork pr.

Definition hasLabel (pr : PullRequest.t) (label : string) : bool :=
  existsb (String.eqb label) (PullRequest.labels pr).

(** ** Contexts of a pull request (context/context-builder.ts) *)

Definition extractTsSymbolInfo (P : Platform)
    (filePath symbolName fileContent : string) : IO (option SymbolInfo.t) :=
  match ts_symbolInfo P filePath symbolName fileContent with
  | Ok found => ret found
  | Throw error =>
      run logger ERROR ("Error extracting TS symbol info: " +:+ String_ error) in
      ret None
  end.

Definition extractSymbolInfo (P : Platform)
    (filePath symbolName fileContent : string) (language : LanguageType)
  : IO (Result (option SymbolInfo.t)) :=
  match language with
  | typescript | javascript =>
      let* found := extractTsSymbolInfo P filePath symbolName fileContent in
      ret (Ok found)
  | python => ret (extractPythonSymbolInfo (engine P) filePath symbolName fileContent)
  | go => ret (extractGoSymbolInfo (engine P) filePath symbolName fileContent)
  end.

(** The loop over the identifiers of one file. *)
Fixpoint contextsOfIdentifiers (P : Platform) (pr : PullRequest.t)
    (filename : string) (language : LanguageType) (fileContent : string)
    (identifiers : list string) (contexts : list NamingContext.t)
  : Run (Result (list NamingContext.t)) :=
  match identifiers with
  | [] => ret (Ok contexts)
  | identifier :: later =>
      await symbolInfo :=
        liftIO (extractSymbolInfo P filename identifier fileContent language) in
      match symbolInfo with
      | None =>
          contextsOfIdentifiers P pr filename language fileContent later contexts
      | Some symbolInfo =>
          if negb (shouldReviewSymbol identifier (SymbolInfo.declaration symbolInfo))
          then contextsOfIdentifiers P pr filename language fileContent later
                 contexts
          else
            let context :=
              NamingContext.mk filename language identifier
                (SymbolInfo.declaration symbolInfo)
                (SymbolInfo.usages symbolInfo)
                (SymbolInfo.neighbors symbolInfo)
                (SymbolInfo.enclosingScopes symbolInfo)
                (Some (SymbolInfo.types symbolInfo))
                (PullRequest.title pr)
                (PullRequest.body pr)
                (SymbolInfo.lineNumber symbolInfo) in
            contextsOfIdentifiers P pr filename language fileContent later
              (contexts ++ [context])
      end
  end.

(** The loop over the files of the pull request. *)
Fixpoint contextsOfFiles (P : Platform) (pr : PullRequest.t)
    (files : list PullFile.t) (contexts : list NamingContext.t)
  : Run (Result (list NamingContext.t)) :=
  match files with
  | [] => ret (Ok contexts)
  | file :: later =>
      if String.eqb (PullFile.status file) "removed"
      then contextsOfFiles P pr later contexts
      else
        match parseDiff (default EmptyString (PullFile.patch file))
                (PullFile.filename file) with
        | None => contextsOfFiles P pr later contexts
        | Some diff =>
            let* fetched :=
              request (ReposGetContent (PullRequest.owner pr) (PullRequest.repo pr)
                         (PullFile.filename file) (PullRequest.head pr))
                (fun sent => repos_getContent (octokit P) sent
                               (PullRequest.owner pr) (PullRequest.repo pr)
                               (PullFile.filename file) (PullRequest.head pr)) in
            match fetched with
            | Throw error =>
                run log ERROR ("Error fetching file content: " +:+ String_ error) in
                contextsOfFiles P pr later contexts
            | Ok None =>
                run log WARN ("Could not get content for "
                              +:+ PullFile.filename file) in
                contextsOfFiles P pr later contexts
            | Ok (Some content) =>
                let fileContent := from_base64 P content in
                let addedCode :=
                  join newline (List.map DiffLine.content (PRDiff.additions diff)) in
                let identifiers :=
                  extractIdentifiers (engine P) addedCode (PRDiff.language diff) in
                await contexts :=
                  contextsOfIdentifiers P pr (PullFile.filename file)
                    (PRDiff.language diff) fileContent identifiers contexts in
                contextsOfFiles P pr later contexts
            end
        end
  end.

Definition buildContextsFromPR (P : Platform) (pr : PullRequest.t)
  : Run (Result (list NamingContext.t)) :=
  await files :=
    request (PullsListFiles (PullRequest.owner pr) (PullRequest.repo pr)
               (PullRequest.number pr))
      (fun sent => pulls_listFiles (octokit P) sent (PullRequest.owner pr)
                     (PullRequest.repo pr) (PullRequest.number pr)) in
  contextsOfFiles P pr files [].

(** ** The two entry points (github/review.ts, github/autofix.ts) *)

(** [parseInt(text, 10)]: white space, a sign, then the digits that
    follow; [None] is NaN. The value is exact: a number beyond 2^53 is
    outside the embedding. *)
Fixpoint digitsValue (s : string) (value : Z) (seen : bool) : option Z :=
  match s with
  | EmptyString => if seen then Some value else None
  | String c rest =>
      if Str.isDigit c
      then digitsValue rest (value * 10 + (Z.of_N (Str.code c) - 48)) true
      else if seen then Some value else None
  end.

Definition parseInt10 (text : string) : option Z :=
  match trimStart text with
  | String "-" rest => option_map Z.opp (digitsValue rest 0 false)
  | String "+" rest => digitsValue rest 0 false
  | rest => digitsValue rest 0 false
  end.

(** [owner], [repo] and [prNumber] as both entry points read them, or the
    throw for missing variables. *)
Definition readContext (P : Platform) (missing : string)
  : Result (string * string * Z) :=
  let owner := envOr P "GITHUB_REPOSITORY_OWNER" in
  let repo :=
    match env P !! "GITHUB_REPOSITORY" with
    | Some repository => default EmptyString (Str.split "/" repository !! 1%nat)
    | None => EmptyString
    end in
  let prNumber :=
    parseInt10 (if String.eqb (envOr P "PR_NUMBER") EmptyString then "0"
                else envOr P "PR_NUMBER") in
  match prNumber with
  | Some prNumber =>
      if String.eqb owner EmptyString || String.eqb repo EmptyString
         || (prNumber =? 0)
      then Throw (Error missing)
      else Ok (owner, repo, prNumber)
  | None => Throw (Error missing)
  end.

(** The [catch] of an entry point: the error is logged and thrown again. *)
Definition reported (label : string) (body : Run (Result unit))
  : Run (Result unit) :=
  let* outcome := body in
  match outcome with
  | Ok _ => ret (Ok tt)
  | Throw error =>
      run log ERROR (label +:+ String_ error) in
      ret (Throw error)
  end.

(** The loop of [runReview] that posts the inline comments; the value is
    [postedCount]. *)
Fixpoint postInlineComments (P : Platform) (owner repo : string) (prNumber : Z)
    (existingComments : list ExistingComment.t) (suggestions : list Collected)
    (postedCount : Z) : Run Z :=
  match suggestions with
  | [] => ret postedCount
  | (suggestion, context) :: later =>
      let comment :=
        formatSuggestionComment (formatter P) suggestion
          (NamingContext.file context) (NamingContext.lineNumber context) false in
      if isCommentDuplicate (ReviewComment.body comment) existingComments
      then postInlineComments P owner repo prNumber existingComments later
             postedCount
      else
        let* posted :=
          postReviewComment P owner repo prNumber (ReviewComment.path comment)
            (ReviewComment.line comment) (ReviewComment.body comment) in
        match posted with
        | Ok _ =>
            postInlineComments P owner repo prNumber existingComments later
              (postedCount + 1)
        | Throw error =>
            run log ERROR ("Failed to post comment for "
                           +:+ NamingContext.oldName context +:+ ": "
                           +:+ String_ error) in
            postInlineComments P owner repo prNumber existingComments later
              postedCount
        end
  end.

Definition runReview (P : Platform) : Run (Result unit) :=
  reported "Review failed: "
    (await '(owner, repo, prNumber) :=
       ret (readContext P "Missing required environment variables: GITHUB_REPOSITORY_OWNER, GITHUB_REPOSITORY, PR_NUMBER") in
     await _ := ret (createOctokit P) in
     await pr := getPullRequest P owner repo prNumber in
     await contexts := buildContextsFromPR P pr in
     match contexts with
     | [] => ret (Ok tt)
     | first :: _ =>
         let* existingComments := getExistingComments P owner repo prNumber in
         await suggestions :=
           liftClient (collectForReview (services P) contexts []) in
         match suggestions with
         | [] =>
             postReviewComment P owner repo prNumber (NamingContext.file first) 1
               formatNoSuggestionsComment
         | _ :: _ =>
             let* postedCount :=
               postInlineComments P owner repo prNumber existingComments
                 suggestions 0 in
             let* stats := liftClient getCostStats in
             ret (Ok tt)
         end
     end).

Definition AUTOFIX_LABEL : string := "auto-naming-fix".

(** [modifiedFiles.set(path, content)]: a [Map] keeps a key where it was
    first set. *)
Fixpoint mapSet (entries : list (string * string)) (path content : string)
  : list (string * string) :=
  match entries with
  | [] => [(path, content)]
  | (p, c) :: later =>
      if String.eqb p path then (p, content) :: later
      else (p, c) :: mapSet later path content
  end.

(** The loop of [runAutofix] that applies the renames. *)
Fixpoint applyAutofixes (P : Platform) (autofixSuggestions : list Collected)
    (renameResults : list RenameResult.t) (modifiedFiles : list (string * string))
  : Run (Result (list RenameResult.t * list (string * string))) :=
  match autofixSuggestions with
  | [] => ret (Ok (renameResults, modifiedFiles))
  | (suggestion, context) :: later =>
      let* result :=
        liftIO (performSafeRename (tools P) (NamingContext.file context) suggestion
                  (NamingContext.language context)
                  (NamingContext.lineNumber context) ".") in
      let renameResults := renameResults ++ [result] in
      if RenameResult.success result
      then
        await content := liftIO (readFile (NamingContext.file context)) in
        applyAutofixes P later renameResults
          (mapSet modifiedFiles (NamingContext.file context) content)
      else
        run log WARN ("Autofix failed for " +:+ NamingContext.oldName context
                      +:+ ": "
                      +:+ default "undefined" (RenameResult.error result)) in
        applyAutofixes P later renameResults modifiedFiles
  end.

(** The message of the commit. *)
Definition commitMessage (successfulRenames : list RenameResult.t) : string :=
  "🤖 AI Naming: Auto-fix " +:+ pretty (length successfulRenames)
  +:+ " naming improvement"
  +:+ (if (length successfulRenames =? 1)%nat then EmptyString else "s")
  +:+ newline +:+ newline
  +:+ join newline
        (List.map (fun r => "- " +:+ RenameResult.oldName r +:+ " → "
                            +:+ RenameResult.newName r +:+ " ("
                            +:+ RenameResult.file r +:+ ")")
           successfulRenames)
  +:+ newline +:+ newline
  +:+ "Applied by AI Naming Reviewer".

(** The loop of [runAutofix] that posts the comments; the value is
    [commentCount]. *)
Fixpoint postAutofixComments (P : Platform) (owner repo : string) (prNumber : Z)
    (successfulRenames : list RenameResult.t)
    (existingComments : list ExistingComment.t) (allSuggestions : list Collected)
    (commentCount : Z) : Run Z :=
  match allSuggestions with
  | [] => ret commentCount
  | (suggestion, context) :: later =>
      let wasAutofixed :=
        existsb (fun r => String.eqb (RenameResult.oldName r) (oldName suggestion)
                          && String.eqb (RenameResult.file r)
                               (NamingContext.file context))
                successfulRenames in
      let comment :=
        formatSuggestionComment (formatter P) suggestion
          (NamingContext.file context) (NamingContext.lineNumber context)
          (negb wasAutofixed) in
      let body :=
        if wasAutofixed then autofixedNote +:+ ReviewComment.body comment
        else ReviewComment.body comment in
      if isCommentDuplicate body existingComments
      then postAutofixComments P owner repo prNumber successfulRenames
             existingComments later commentCount
      else
        let* posted :=
          postReviewComment P owner repo prNumber (ReviewComment.path comment)
            (ReviewComment.line comment) body in
        match posted with
        | Ok _ =>
            postAutofixComments P owner repo prNumber successfulRenames
              existingComments later (commentCount + 1)
        | Throw error =>
            run log ERROR ("Failed to post comment: " +:+ String_ error) in
            postAutofixComments P owner repo prNumber successfulRenames
              existingComments later commentCount
        end
  end.

(** The comment posted on a pull request from a fork. *)
Definition forkNotice : string :=
  "⚠️ **Autofix skipped**: This PR is from a fork. For security reasons, automatic fixes are only applied to same-repository PRs.".

Definition runAutofix (P : Platform) : Run (Result unit) :=
  reported "Autofix failed: "
    (await '(owner, repo, prNumber) :=
       ret (readContext P "Missing required environment variables") in
     await _ := ret (createOctokit P) in
     await pr := getPullRequest P owner repo prNumber in
     if isForkPR pr
     then
       run log WARN "Skipping autofix for fork PR (security policy)" in
       postReviewComment P owner repo prNumber "README.md" 1 forkNotice
     else if negb (hasLabel pr AUTOFIX_LABEL) then ret (Ok tt)
     else
       await contexts := buildContextsFromPR P pr in
       match contexts with
       | [] => ret (Ok tt)
       | first :: _ =>
           let* existingComments := getExistingComments P owner repo prNumber in
           await '(allSuggestions, autofixSuggestions) :=
             liftClient (collectForAutofix (services P) contexts [] []) in
           await '(renameResults, modifiedFiles) :=
             applyAutofixes P autofixSuggestions [] [] in
           let successfulRenames :=
             List.filter RenameResult.success renameResults in
           await _ :=
             match modifiedFiles with
             | [] => ret (Ok tt)
             | _ :: _ =>
                 commitChanges P owner repo (PullRequest.head pr) modifiedFiles
                   (commitMessage successfulRenames)
             end in
           let* commentCount :=
             postAutofixComments P owner repo prNumber successfulRenames
               existingComments allSuggestions 0 in
           let summaryComment :=
             formatSummaryComment (List.map fst allSuggestions)
               (Z.of_nat (length successfulRenames)) in
           await _ :=
             postReviewComment P owner repo prNumber (NamingContext.file first) 1
               summaryComment in
           let* stats := liftClient getCostStats in
           ret (Ok tt)
       end).

(** ** Vocabulary of the statements about the entry points *)

(** The requests that change the repository: blobs, trees, commits and
    the move of a branch. *)
Definition writesRepository (call : OctokitCall) : bool :=
  match call with
  | GitCreateBlob _ _ _ | GitCreateTree _ _ _ _ | GitCreateCommit _ _ _ _ _
  | GitUpdateRef _ _ _ _ => true
  | _ => false
  end.

(** The requests [runAutofix] sends before it has decided to go on: for
    the pull request, and the notice on a pull request from a fork. *)
Definition beforeTheGate (call : OctokitCall) : bool :=
  match call with
  | PullsGet _ _ _ => true
  | PullsCreateReviewComment _ _ _ path line body =>
      String.eqb path "README.md" && (line =? 1) && String.eqb body forkNotice
  | _ => false
  end.

(** The pull request that the run of [runAutofix] from [a] is told of is
    not from a fork and carries the label. *)
Definition gateOpen (P : Platform) (a : App) : Prop :=
  exists owner repo prNumber data,
    readContext P "Missing required environment variables"
    = Ok (owner, repo, prNumber)
    /\ createOctokit P = Ok tt
    /\ pulls_get (octokit P) (github a) owner repo prNumber = Ok data
    /\ PullData.head_repo_fork data <> Some true
    /\ In AUTOFIX_LABEL (PullData.labels data).

(** What a run has sent to GitHub: the requests of [a'] after those of
    [a]. *)
Definition sentSince (a a' : App) (calls : list OctokitCall) : Prop :=
  github a' = github a ++ calls.

(** The requests of a review: reading the pull request, its files, their
    contents and the review comments, and posting a review comment. *)
Definition reviewCall (call : OctokitCall) : bool :=
  match call with
  | PullsGet _ _ _ | PullsListFiles _ _ _ | ReposGetContent _ _ _ _
  | PullsListReviewComments _ _ _ | PullsCreateReviewComment _ _ _ _ _ _ => true
  | _ => false
  end.

(** The requests that build the contexts: the files and their contents. *)
Definition readCall (call : OctokitCall) : bool :=
  match call with
  | PullsListFiles _ _ _ | ReposGetContent _ _ _ _ => true
  | _ => false
  end.

(** From [a] to [a'] the files of the working tree stayed as they were and
    the requests sent were all [allowed]. *)
Definition within (allowed : OctokitCall -> bool) (a a' : App) : Prop :=
  fs (world a') = fs (world a)
  /\ exists calls, sentSince a a' calls /\ forallb allowed calls = true.

(** From [a] to [a'] the suggestion client stayed as it was. *)
Definition sameClient (a a' : App) : Prop := client a' = client a.

(** Every run of [m] relates the state it starts from to the one it
    leaves. *)
Definition Keeps {A : Type} (R : App -> App -> Prop) (m : Run A) : Prop :=
  forall a, R a (m a).2.

(** The engine captures what the groups of the Python and Go patterns can
    match: names made of word characters. *)
Definition capturesWords (E : Engine) : Prop :=
  forall pattern code name,
    In pattern (patternsOf python ++ patternsOf go) ->
    In name (exec_captures E pattern code) ->
    isWordText name = true.

(** The context was built for an identifier of the lines that a file of
    [files] adds. *)
Definition builtFrom (P : Platform) (pr : PullRequest.t)
    (files : list PullFile.t) (context : NamingContext.t) : Prop :=
  exists file diff,
    In file files
    /\ PullFile.status file <> "removed"
    /\ parseDiff (default EmptyString (PullFile.patch file)) (PullFile.filename file)
       = Some diff
    /\ NamingContext.file context = PullFile.filename file
    /\ NamingContext.language context = PRDiff.language diff
    /\ In (NamingContext.oldName context)
          (extractIdentifiers (engine P)
             (join newline (List.map DiffLine.content (PRDiff.additions diff)))
             (PRDiff.language diff))
    /\ shouldReviewSymbol (NamingContext.oldName context)
         (NamingContext.declaration context) = true
    /\ NamingContext.prTitle context = PullRequest.title pr
    /\ NamingContext.prBody context = PullRequest.body pr.

(** The request for the blob of a file of a commit. *)
Definition blobCall (P : Platform) (owner repo : string)
    (file : string * string) : OctokitCall :=
  GitCreateBlob owner repo (to_base64 P file.2).

(** The request moves a branch. *)
Definition movesBranch (call : OctokitCall) : bool :=
  match call with
  | GitUpdateRef _ _ _ _ => true
  | _ => false
  end.

(** ** The level of the logger (utils/logger.ts) *)

(** [LogLevel.DEBUG = 0] to [LogLevel.ERROR = 3], and the names. *)
Definition levelNumber (level : LogLevel) : Z :=
  match level with
  | DEBUG => 0
  | INFO => 1
  | WARN => 2
  | ERROR => 3
  end.

Definition levelName (level : LogLevel) : string :=
  match level with
  | DEBUG => "DEBUG"
  | INFO => "INFO"
  | WARN => "WARN"
  | ERROR => "ERROR"
  end.

Definition levels : list LogLevel := [DEBUG; INFO; WARN; ERROR].

(** What [this.level] holds: a level or, since the object of a numeric
    enum also maps the numbers, as text, back to the names, the name of
    a level. *)
Inductive LevelSetting : Type :=
| AtLevel (level : LogLevel)
| NameOfLevel (level : LogLevel).

(** The constructor: [LogLevel[envLevel] ?? LogLevel.INFO], where
    [envLevel] is the variable LOG_LEVEL in upper case when it is set. *)
Definition Logger_level (envLevel : option string) : LevelSetting :=
  match envLevel with
  | None => AtLevel INFO
  | Some key =>
      match List.find (fun level => String.eqb key (levelName level)) levels with
      | Some level => AtLevel level
      | None =>
          match List.find (fun level => String.eqb key (pretty (levelNumber level)))
                  levels with
          | Some level => NameOfLevel level
          | None => AtLevel INFO
          end
      end
  end.

(** [this.level <= LogLevel.X], the test of the method of level X: a name
    is not a number, and compares with none. *)
Definition prints (setting : LevelSetting) (method : LogLevel) : bool :=
  match setting with
  | AtLevel level => levelNumber level <=? levelNumber method
  | NameOfLevel _ => false
  end.

(** The variable holds a number of a level instead of its name. *)
Definition numberedLevel (envLevel : option string) : bool :=
  match envLevel with
  | Some key => existsb (String.eqb key) ["0"; "1"; "2"; "3"]
  | None => false
  end.

(** ** Inputs of further examples *)

(** A service that is down: every request throws. Two retries. *)
Definition downServices : Services :=
  mkServices
    (Ok (LLMConfig.mk "key" "gpt-4o-mini" 1000 0.3%float 2))
    (fun data => data)
    (fun reading => Z.of_nat reading)
    NamingContext.oldName
    (fun _ _ _ => Throw (Error "503 Service Unavailable"))
    (fun _ => None).

(** The context of [contextOf] as another pass over the pull request may
    build it: another language tag, other usages, another line, another
    title, and no type information. *)
Definition contextElsewhere (name : string) : NamingContext.t :=
  NamingContext.mk "app.ts" javascript name ("const " +:+ name +:+ " = load();")
    ["render(" +:+ name +:+ ");"] ["load"] ["function main"] None
    "Rework the loader" "Second pass" 42.

(** A machine without rope and gopls on which [py_compile] and [go build]
    run and print nothing. *)
Definition checkingTools : Tools :=
  mkTools (fun command s =>
             match command with
             | PyCompile _ | GoBuild _ _ => (Ok (mkExecOutput EmptyString EmptyString), s)
             | _ => (Throw (Error "Command failed"), s)
             end)
          (fun _ _ _ => Ok 0%nat)
          (fun _ content _ _ => Ok content)
          (fun _ _ => Ok [])
          (fun _ _ => Throw (mkError "SyntaxError" "Invalid regular expression"))
          (fun _ _ content => content)
          (fun path => path).

(** A machine with gopls, which renames nothing and prints nothing. *)
Definition goplsTools : Tools :=
  mkTools (fun command s =>
             match command with
             | GoplsProbe | GoplsRename _ _ _ _ _ | GoBuild _ _ =>
                 (Ok (mkExecOutput EmptyString EmptyString), s)
             | _ => (Throw (Error "Command failed"), s)
             end)
          (fun _ _ _ => Ok 0%nat)
          (fun _ content _ _ => Ok content)
          (fun _ _ => Ok [])
          (fun _ _ => Throw (mkError "SyntaxError" "Invalid regular expression"))
          (fun _ _ content => content)
          (fun path => path).

(** A working tree in which a file named like the backup already exists. *)
Definition worldWithBackup (path content : string) : World :=
  mkWorld (mkFS (<[ backupPathOf path := "kept by hand" ]> {[ path := content ]}) [])
          [].

(** A Go file, its second line declaring [data]. *)
Definition goSource : string :=
  "package main" +:+ newline +:+ "var data = load()".


(** A formatter for the examples: one digest for every text, and 95 for
    every percentage. *)
Definition plainFormatter : Formatter :=
  mkFormatter (fun _ => "9e107d9d372bb6826bd81d3542a419d6") (fun _ => "95").

(** The comment a review posted for the suggestion of Scenario B at line 3
    of app.ts, as GitHub returns it. *)
Definition earlierComment : ExistingComment.t :=
  ExistingComment.mk "app.ts" 3
    (ReviewComment.body
       (formatSuggestionComment plainFormatter scenarioB_suggestion "app.ts" 3 false))
    1001.

(** An engine that finds nothing, and a Python file that assigns and
    prints a total. *)
Definition quietEngine : Engine :=
  mkEngine (fun _ _ => []) (fun _ _ => Ok false).

Definition pythonSource : string :=
  "x = 1" +:+ newline +:+ "total = x + 1" +:+ newline +:+ "print(total)".

(** A pull request that changes one Python file, adding an assignment to
    [tmp], and removes another file. *)
Definition tmpPatch : string :=
  "@@ -1,1 +1,2 @@" +:+ newline +:+ " import os" +:+ newline +:+ "+tmp = load()".

Definition tmpFile : string :=
  "import os" +:+ newline +:+ "tmp = load()" +:+ newline +:+ "print(tmp)".

(** An engine that captures [tmp] where it is assigned. *)
Definition assignmentEngine : Engine :=
  mkEngine (fun pattern code =>
              match pattern with
              | PyAssignment => if Str.includes code "tmp =" then ["tmp"] else []
              | _ => []
              end)
           (fun _ _ => Ok false).

(** GitHub hosting that pull request, from a fork or not, with its labels:
    comments can be posted, the repository cannot be written. *)
Definition hostedPull (fork : option bool) (labels : list string) : Octokit :=
  mkOctokit
    (fun _ _ _ number =>
       Ok (PullData.mk number "Load the table" None "main" "feature" (Some false)
             fork labels))
    (fun _ _ _ _ =>
       Ok [PullFile.mk "app.py" "modified" (Some tmpPatch);
           PullFile.mk "old.py" "removed" None])
    (fun _ _ _ _ _ => Ok (Some tmpFile))
    (fun _ _ _ _ _ _ _ => Ok tt)
    (fun _ _ _ _ => Ok [])
    (fun _ _ _ _ => Throw (Error "Resource not accessible by integration"))
    (fun _ _ _ _ => Throw (Error "Resource not accessible by integration"))
    (fun _ _ _ _ => Throw (Error "Resource not accessible by integration"))
    (fun _ _ _ _ _ => Throw (Error "Resource not accessible by integration"))
    (fun _ _ _ _ _ _ => Throw (Error "Resource not accessible by integration"))
    (fun _ _ _ _ _ => Throw (Error "Resource not accessible by integration")).

(** The variables of the action on pull request 7 of acme/shop. *)
Definition actionEnv : gmap string string :=
  <["GITHUB_REPOSITORY_OWNER" := "acme"]>
    (<["GITHUB_REPOSITORY" := "acme/shop"]>
       (<["PR_NUMBER" := "7"]> (<["GITHUB_TOKEN" := "secret"]> ∅))).

Definition hosted (fork : option bool) (labels : list string) : Platform :=
  mkPlatform actionEnv checkingTools downServices plainFormatter assignmentEngine
    (hostedPull fork labels)
    (fun _ _ _ => Ok None)
    (fun text => text)
    (fun text => text)
    (fun errors => default (Error "rejected") (head errors)).

(** A run that starts in an empty working tree with the client just
    loaded. *)
Definition startApp : App :=
  mkApp (mkWorld (mkFS ∅ []) []) initialClient [].

(** The pull request as [getPullRequest] returns it, and the context of
    its [tmp]. *)
Definition tmpPull : PullRequest.t :=
  PullRequest.mk 7 "Load the table" EmptyString "main" "feature" (Some false)
    false [] "acme" "shop".

Definition tmpContext : NamingContext.t :=
  NamingContext.mk "app.py" python "tmp" "tmp = load()" ["print(tmp)"] [] []
    (Some []) "Load the table" EmptyString 2.

(** A run that starts with one file in the working tree, and the context
    of the [data] of a Python file. *)
Definition appWith (path content : string) : App :=
  mkApp (mkWorld (mkFS {[ path := content ]} []) []) initialClient [].

Definition dataContextIn (path : string) : NamingContext.t :=
  NamingContext.mk path python "data" "data = 1" [] [] [] (Some [])
    "Load the table" EmptyString 1.

(** Two eligible suggestions, the first for a file that does not exist,
    and the results of their renames. *)
Definition mixedSuggestions : list Collected :=
  [(scenarioB_public, dataContextIn "gone.py");
   (scenarioB_public, dataContextIn "app.py")].

Definition mixedResults : list RenameResult.t :=
  [RenameResult.mk false "gone.py" "data" "userProfile" 0
     (Some "Failed to create backup");
   RenameResult.mk true "app.py" "data" "userProfile" 1 None].

(** * Part II: properties *)

(** ** Strings *)

Lemma length_append (s t : string) :
  String.length (s +:+ t) = (String.length s + String.length t)%nat.
Proof.
  induction s as [|c s IH]; simpl; [reflexivity | now rewrite IH].
Qed.

Lemma backupPathOf_fresh (filePath : string) : backupPathOf filePath <> filePath.
Proof.
  unfold backupPathOf. intros H.
  apply (f_equal String.length) in H. rewrite length_append in H.
  simpl in H. lia.
Qed.

(** ** What a file system call leaves in place *)

Lemma nextFault_files (s : FS) : files (nextFault s).2 = files s.
Proof. unfold nextFault. destruct (faults s); reflexivity. Qed.

Lemma damage_other (d : Damage) (path p : string) (s : FS) :
  p <> path -> files (damage d path s) !! p = files s !! p.
Proof.
  intros Hp. destruct d; simpl; [reflexivity | |].
  - now rewrite lookup_delete_ne.
  - now rewrite lookup_insert_ne.
Qed.

Ltac fs_step s :=
  let f := fresh "f" in
  let s1 := fresh "s" in
  let E := fresh "E" in
  pose proof (nextFault_files s) as E;
  destruct (nextFault s) as [f s1]; simpl in E.

Lemma fs_readFile_files (path : string) (s : FS) :
  files (fs_readFile path s).2 = files s.
Proof.
  unfold fs_readFile. fs_step s. destruct f; simpl; [assumption|].
  destruct (files s0 !! path); simpl; assumption.
Qed.

Lemma fs_writeFile_other (path content p : string) (s : FS) :
  p <> path -> files (fs_writeFile path content s).2 !! p = files s !! p.
Proof.
  intros Hp. unfold fs_writeFile. fs_step s. destruct f; simpl.
  - rewrite damage_other by assumption. now rewrite E.
  - rewrite lookup_insert_ne by congruence. now rewrite E.
Qed.

Lemma fs_copyFile_other (src dest p : string) (s : FS) :
  p <> dest -> files (fs_copyFile src dest s).2 !! p = files s !! p.
Proof.
  intros Hp. unfold fs_copyFile. fs_step s. destruct f; simpl.
  - rewrite damage_other by assumption. now rewrite E.
  - destruct (files s0 !! src); simpl; [|now rewrite E].
    rewrite lookup_insert_ne by congruence. now rewrite E.
Qed.

Lemma fs_unlink_other (path p : string) (s : FS) :
  p <> path -> files (fs_unlink path s).2 !! p = files s !! p.
Proof.
  intros Hp. unfold fs_unlink. fs_step s. destruct f; simpl; [now rewrite E|].
  destruct (files s0 !! path); simpl; [|now rewrite E].
  rewrite lookup_delete_ne by congruence. now rewrite E.
Qed.

Lemma fs_copyFile_ok (src dest : string) (s s' : FS) :
  fs_copyFile src dest s = (Ok tt, s') ->
  exists c, files s !! src = Some c /\ files s' !! dest = Some c.
Proof.
  unfold fs_copyFile. fs_step s. destruct f; [discriminate|].
  destruct (files s0 !! src) as [c|] eqn:Hsrc; [|discriminate].
  intros [= <-]. exists c. simpl. split.
  - now rewrite <- E.
  - now rewrite lookup_insert_eq.
Qed.

Lemma fs_unlink_throw (path : string) (s s' : FS) (e : JsError) :
  fs_unlink path s = (Throw e, s') -> files s' = files s.
Proof.
  unfold fs_unlink. fs_step s. destruct f.
  - now intros [= _ <-].
  - destruct (files s0 !! path); [discriminate|]. now intros [= _ <-].
Qed.

(** ** Computations that leave a path alone *)

Lemma Frames_ret {A : Type} (p : string) (a : A) : Frames p (ret a).
Proof.
  intros w a' w' [= _ <-]. split; [reflexivity|]. exists []. now rewrite app_nil_r.
Qed.

Lemma Frames_bind {A B : Type} (p : string) (m : IO A) (k : A -> IO B) :
  Frames p m -> (forall a, Frames p (k a)) -> Frames p (bind m k).
Proof.
  intros Hm Hk w b w'. unfold bind.
  destruct (m w) as [a w1] eqn:E1. intros E2.
  destruct (Hm _ _ _ E1) as [F1 [l1 L1]].
  destruct (Hk a _ _ _ E2) as [F2 [l2 L2]].
  split; [congruence|]. exists (l1 ++ l2). rewrite L2, L1. now rewrite app_assoc.
Qed.

Lemma Frames_logger (p : string) (level : LogLevel) (msg : string) :
  Frames p (logger level msg).
Proof. intros w a w' [= _ <-]. split; [reflexivity|]. now eexists. Qed.

Lemma Frames_liftFS {A : Type} (p : string) (op : FS -> A * FS) :
  (forall s, files (op s).2 !! p = files s !! p) -> Frames p (liftFS op).
Proof.
  intros Hop w a w'. unfold liftFS. specialize (Hop (fs w)).
  destruct (op (fs w)) as [a1 s1]. intros [= _ <-]. simpl in *.
  split; [assumption|]. exists []. now rewrite app_nil_r.
Qed.

Lemma Frames_readFile (p path : string) : Frames p (readFile path).
Proof. apply Frames_liftFS. intros s. now rewrite fs_readFile_files. Qed.

Lemma Frames_writeFile (p path content : string) :
  p <> path -> Frames p (writeFile path content).
Proof. intros H. apply Frames_liftFS. intros s. now apply fs_writeFile_other. Qed.

Lemma Frames_copyFile (p src dest : string) :
  p <> dest -> Frames p (copyFile src dest).
Proof. intros H. apply Frames_liftFS. intros s. now apply fs_copyFile_other. Qed.

Lemma Frames_unlink (p path : string) : p <> path -> Frames p (unlink path).
Proof. intros H. apply Frames_liftFS. intros s. now apply fs_unlink_other. Qed.

Lemma Frames_execAsync (T : Tools) (p : string) (command : Command) :
  execKeeps T p -> Frames p (execAsync T command).
Proof. intros H. apply Frames_liftFS. intros s. apply H. Qed.

Lemma Frames_warnEach (p : string) (messages : list string) :
  Frames p (warnEach messages).
Proof.
  induction messages as [|m ms IH]; simpl.
  - apply Frames_ret.
  - apply Frames_bind; [apply Frames_logger | intros _; exact IH].
Qed.

Create HintDb frames.
#[local] Hint Resolve Frames_ret Frames_logger Frames_readFile Frames_writeFile
  Frames_copyFile Frames_unlink Frames_execAsync Frames_warnEach : frames.

(** Walks down a computation built from [bind], [match] and [if]. *)
Ltac frames :=
  repeat first
    [ progress cbv zeta
    | apply Frames_bind; [| intros ?]
    | match goal with
      | |- Frames _ (match ?x with _ => _ end) => destruct x
      | |- Frames _ (if ?b then _ else _) => destruct b
      end
    | solve [auto with frames] ].

Section BackendsFrame.

Variable T : Tools.
Variables p filePath : string.
Hypothesis exec_keeps : execKeeps T p.
Hypothesis p_other : p <> filePath.

Lemma Frames_fallbackRename (old new : string) :
  Frames p (fallbackRename T filePath old new).
Proof using p_other. unfold fallbackRename. frames. Qed.

Lemma Frames_countAfterRename (old new : string)
    (caught : JsError -> IO RenameResult.t) :
  (forall e, Frames p (caught e)) ->
  Frames p (countAfterRename T filePath old new caught).
Proof. intros H. unfold countAfterRename. frames. Qed.

Lemma Frames_renamePythonSymbol (old new root : string) :
  Frames p (renamePythonSymbol T filePath old new root).
Proof using exec_keeps p_other.
  unfold renamePythonSymbol, fallbackPythonRename. frames;
    try apply Frames_fallbackRename;
    try (apply Frames_countAfterRename; intros; frames).
Qed.

Lemma Frames_renameGoSymbol (old new : string) (line : Z) (root : string) :
  Frames p (renameGoSymbol T filePath old new line root).
Proof using exec_keeps p_other.
  unfold renameGoSymbol, fallbackGoRename. frames;
    try apply Frames_fallbackRename;
    try (apply Frames_countAfterRename; intros; frames).
Qed.

Lemma Frames_renameTsSymbol (old new : string) :
  Frames p (renameTsSymbol T filePath old new).
Proof using p_other. unfold renameTsSymbol. frames. Qed.

Lemma Frames_dispatchRename (s : NamingSuggestion) (language : LanguageType)
    (line : Z) (root : string) :
  Frames p (dispatchRename T filePath s language line root).
Proof using exec_keeps p_other.
  destruct language; simpl; auto using Frames_renameTsSymbol,
    Frames_renamePythonSymbol, Frames_renameGoSymbol.
Qed.

Lemma Frames_dispatchVerify (language : LanguageType) (root : string) :
  Frames p (dispatchVerify T filePath language root).
Proof using exec_keeps.
  destruct language; simpl;
    unfold verifyTsCompilation, verifyPythonSyntax, verifyGoCompilation; frames.
Qed.

End BackendsFrame.

(** ** The rename transaction *)

Lemma fs_unlink_ok (path : string) (s s' : FS) :
  fs_unlink path s = (Ok tt, s') -> files s' !! path = None.
Proof.
  unfold fs_unlink. fs_step s. destruct f; [discriminate|].
  destruct (files s0 !! path); [|discriminate].
  intros [= <-]. simpl. now rewrite lookup_delete_eq.
Qed.

Lemma restoreBackup_spec (b f : string) (w w' : World) (r : Result unit) :
  b <> f -> restoreBackup b f w = (r, w') ->
  logs w' = logs w
  /\ match r with
     | Ok _ => files (fs w') !! f = files (fs w) !! b
               /\ files (fs w') !! b = None
               /\ is_Some (files (fs w) !! b)
     | Throw _ => files (fs w') !! b = files (fs w) !! b
     end.
Proof.
  intros Hbf. unfold restoreBackup, bind, copyFile, unlink, liftFS, ret.
  destruct (fs_copyFile b f (fs w)) as [[[]|e] s1] eqn:Hcopy; simpl.
  - destruct (fs_unlink b s1) as [[[]|e] s2] eqn:Hun; intros [= <- <-]; simpl;
      (split; [reflexivity|]).
    + destruct (fs_copyFile_ok _ _ _ _ Hcopy) as (c & Hb & Hf).
      pose proof (fs_unlink_other b f s1 (not_eq_sym Hbf)) as Hother.
      rewrite Hun in Hother. simpl in Hother.
      repeat split.
      * now rewrite Hother, Hf, Hb.
      * now apply (fs_unlink_ok _ _ _ Hun).
      * now exists c.
    + rewrite (fs_unlink_throw _ _ _ _ Hun).
      pose proof (fs_copyFile_other b f b (fs w) Hbf) as Hother.
      now rewrite Hcopy in Hother.
  - intros [= <- <-]. simpl. split; [reflexivity|].
    pose proof (fs_copyFile_other b f b (fs w) Hbf) as Hother.
    now rewrite Hcopy in Hother.
Qed.

Lemma rollbackAfterError_restores (b f : string) (s : NamingSuggestion)
    (e : JsError) (w w' : World) (r : RenameResult.t) :
  b <> f -> rollbackAfterError b f s e w = (r, w') ->
  files (fs w') !! f = files (fs w) !! b
  \/ exists restoreError w1,
       copyFile b f w = (Throw restoreError, w1)
       /\ w' = mkWorld (fs w1)
                 (logs w1 ++ [(ERROR, "Failed to restore backup: "
                                      +:+ String_ restoreError)]).
Proof.
  intros Hbf. unfold rollbackAfterError, restoreBackup, bind at 1, bind at 1.
  destruct (copyFile b f w) as [[[]|restoreError] w1] eqn:Hcopy.
  - unfold copyFile, liftFS in Hcopy.
    destruct (fs_copyFile b f (fs w)) as [r0 s1] eqn:Hfs.
    injection Hcopy as -> <-.
    destruct (fs_copyFile_ok _ _ _ _ Hfs) as (c & Hb & Hf).
    pose proof (fs_unlink_other b f s1 (not_eq_sym Hbf)) as Hother.
    unfold unlink, liftFS, bind, logger, ret. cbn [fs logs].
    destruct (fs_unlink b s1) as [[[]|e2] s2]; intros [= <- <-]; left;
      cbn [fs snd] in *; now rewrite Hother, Hf, Hb.
  - unfold ret, bind, logger. intros [= <- <-]. right.
    now exists restoreError, w1.
Qed.

Section Transaction.

Variable T : Tools.
Variable filePath : string.
Variable suggestion : NamingSuggestion.
Variable language : LanguageType.
Variable lineNumber : Z.
Variable projectRoot : string.

Let backupPath : string := backupPathOf filePath.

(** The child processes of the backends do not write the sidecar backup. *)
Hypothesis exec_keeps : execKeeps T backupPath.

Lemma performSafeRename_failure_restores (w w' : World) (r : RenameResult.t) :
  performSafeRename T filePath suggestion language lineNumber projectRoot w
    = (r, w') ->
  RenameResult.success r = false ->
  files (fs w') !! filePath = files (fs w) !! filePath
  \/ emergencyRestoreThrew T filePath suggestion language lineNumber projectRoot
       w w'.
Proof using exec_keeps.
  pose proof (backupPathOf_fresh filePath) as Hfresh. fold backupPath in Hfresh.
  unfold performSafeRename. fold backupPath. cbv zeta. unfold bind at 1.
  destruct (copyFile filePath backupPath w) as [[[]|e] w1] eqn:Hcopy.
  - (* the backup exists *)
    pose proof Hcopy as Hbackedup.
    unfold copyFile, liftFS in Hcopy.
    destruct (fs_copyFile filePath backupPath (fs w)) as [r0 s1] eqn:Hfs.
    injection Hcopy as -> <-.
    destruct (fs_copyFile_ok _ _ _ _ Hfs) as (c & Hfile & Hbackup).
    unfold bind at 1.
    destruct (dispatchRename T filePath suggestion language lineNumber
                projectRoot (mkWorld s1 (logs w))) as [result w2] eqn:Hren.
    destruct (Frames_dispatchRename T backupPath filePath exec_keeps Hfresh
                _ _ _ _ _ _ _ Hren) as [Hkeep2 _].
    simpl in Hkeep2. rewrite Hbackup in Hkeep2.
    destruct (RenameResult.success result) eqn:Hsucc; simpl.
    + (* the backend renamed *)
      unfold bind at 1.
      destruct (dispatchVerify T filePath language projectRoot w2)
        as [isValid w3] eqn:Hver.
      destruct (Frames_dispatchVerify T backupPath filePath exec_keeps
                  _ _ _ _ _ Hver) as [Hkeep3 _].
      rewrite Hkeep2 in Hkeep3.
      destruct isValid; simpl.
      * (* verified: only the removal of the backup can still fail *)
        unfold bind at 1.
        destruct (unlink backupPath w3) as [[[]|e] w4] eqn:Hun.
        { unfold ret. intros [= <- <-] Hr. congruence. }
        pose proof Hun as Hthrew.
        unfold unlink, liftFS in Hun.
        destruct (fs_unlink backupPath (fs w3)) as [r4 s4] eqn:Hfs4.
        injection Hun as -> <-.
        intros Hrun _.
        destruct (rollbackAfterError_restores _ _ _ _ _ _ _ Hfresh Hrun)
          as [H|(restoreError & w5 & Hagain & Hlogged)].
        { left. rewrite H. simpl. rewrite (fs_unlink_throw _ _ _ _ Hfs4).
          now rewrite Hkeep3, Hfile. }
        { right. exists e, (mkWorld s4 (logs w3)), restoreError, w5.
          split; [|split; [exact Hagain|exact Hlogged]].
          exists (mkWorld s1 (logs w)), result, w2.
          split; [exact Hbackedup|]. split; [exact Hren|]. rewrite Hsucc.
          exists true, w3. split; [exact Hver|exact Hthrew]. }
      * (* verification failed *)
        unfold bind at 1. unfold logger at 1. unfold bind at 1.
        match goal with
        | |- context [restoreBackup backupPath filePath ?w0] =>
            destruct (restoreBackup backupPath filePath w0) as [res w4] eqn:Hres
        end.
        destruct (restoreBackup_spec _ _ _ _ _ Hfresh Hres) as [_ Hfiles4].
        simpl in Hfiles4.
        destruct res as [[]|e].
        { unfold ret. intros [= <- <-] _. left.
          destruct Hfiles4 as [-> _]. now rewrite Hkeep3, Hfile. }
        { intros Hrun _.
          destruct (rollbackAfterError_restores _ _ _ _ _ _ _ Hfresh Hrun)
            as [H|(restoreError & w5 & Hagain & Hlogged)].
          - left. rewrite H, Hfiles4. now rewrite Hkeep3, Hfile.
          - right. exists e, w4, restoreError, w5.
            split; [|split; [exact Hagain|exact Hlogged]].
            exists (mkWorld s1 (logs w)), result, w2.
            split; [exact Hbackedup|]. split; [exact Hren|]. rewrite Hsucc.
            exists false, w3. split; [exact Hver|exact Hres]. }
    + (* the backend failed *)
      unfold bind at 1.
      destruct (restoreBackup backupPath filePath w2) as [res w4] eqn:Hres.
      destruct (restoreBackup_spec _ _ _ _ _ Hfresh Hres) as [_ Hfiles4].
      destruct res as [[]|e].
      * unfold ret. intros [= <- <-] _. left.
        destruct Hfiles4 as [-> _]. now rewrite Hkeep2, Hfile.
      * intros Hrun _.
        destruct (rollbackAfterError_restores _ _ _ _ _ _ _ Hfresh Hrun)
          as [H|(restoreError & w5 & Hagain & Hlogged)].
        { left. rewrite H, Hfiles4. now rewrite Hkeep2, Hfile. }
        { right. exists e, w4, restoreError, w5.
          split; [|split; [exact Hagain|exact Hlogged]].
          exists (mkWorld s1 (logs w)), result, w2.
          split; [exact Hbackedup|]. split; [exact Hren|]. now rewrite Hsucc. }
  - (* no backup: nothing was touched *)
    unfold bind, logger, ret. intros [= <- <-] _. left. simpl.
    unfold copyFile, liftFS in Hcopy.
    pose proof (fs_copyFile_other filePath backupPath filePath (fs w)
                  (not_eq_sym Hfresh)) as Hother.
    destruct (fs_copyFile filePath backupPath (fs w)) as [r0 s1].
    injection Hcopy as _ <-. exact Hother.
Qed.

End Transaction.

Lemma nextFault_noFault (n : nat) (s : FS) :
  noFaultAhead (S n) s = true ->
  (nextFault s).1 = None
  /\ files (nextFault s).2 = files s
  /\ noFaultAhead n (nextFault s).2 = true.
Proof.
  unfold noFaultAhead, nextFault.
  destruct (faults s) as [|[d|] later] eqn:E; simpl.
  - intros _. repeat split. rewrite E. now destruct n.
  - discriminate.
  - intros H. repeat split. exact H.
Qed.

Lemma restoreBackup_works (b f : string) (w : World) :
  b <> f -> is_Some (files (fs w) !! b) -> noFaultAhead 2 (fs w) = true ->
  exists w', restoreBackup b f w = (Ok tt, w').
Proof.
  intros Hbf [c Hb] Hno.
  unfold restoreBackup, bind, copyFile, unlink, liftFS, ret.
  unfold fs_copyFile.
  destruct (nextFault_noFault _ _ Hno) as (Hf1 & Hfiles1 & Hno1).
  destruct (nextFault (fs w)) as [f1 s1]. simpl in *. subst f1.
  rewrite Hfiles1, Hb. simpl. unfold fs_unlink.
  match goal with
  | |- context [nextFault ?s] =>
      assert (Hno2 : noFaultAhead 1 s = true) by exact Hno1;
      destruct (nextFault_noFault _ _ Hno2) as (Hf2 & Hfiles2 & _);
      destruct (nextFault s) as [f2 s2]
  end.
  simpl in *. subst f2. rewrite Hfiles2.
  rewrite lookup_insert_ne by congruence. rewrite Hb. now eexists.
Qed.

Section TransactionScenarios.

Variable T : Tools.
Variable filePath : string.
Variable suggestion : NamingSuggestion.
Variable language : LanguageType.
Variable lineNumber : Z.
Variable projectRoot : string.

Let backupPath : string := backupPathOf filePath.

Hypothesis exec_keeps : execKeeps T backupPath.

Lemma performSafeRename_verification_failure
    (w w1 w2 w3 w' : World) (result r : RenameResult.t) :
  copyFile filePath backupPath w = (Ok tt, w1) ->
  dispatchRename T filePath suggestion language lineNumber projectRoot w1
    = (result, w2) ->
  RenameResult.success result = true ->
  dispatchVerify T filePath language projectRoot w2 = (false, w3) ->
  noFaultAhead 2 (fs w3) = true ->
  performSafeRename T filePath suggestion language lineNumber projectRoot w
    = (r, w') ->
  r = RenameResult.mk false (RenameResult.file result)
        (RenameResult.oldName result) (RenameResult.newName result)
        (RenameResult.referencesUpdated result)
        (Some "Verification failed after rename")
  /\ files (fs w') !! filePath = files (fs w) !! filePath
  /\ files (fs w') !! backupPath = None.
Proof using exec_keeps.
  pose proof (backupPathOf_fresh filePath) as Hfresh. fold backupPath in Hfresh.
  intros Hcopy Hren Hsucc Hver Hno.
  unfold performSafeRename. fold backupPath. cbv zeta.
  unfold bind at 1. rewrite Hcopy.
  unfold bind at 1. rewrite Hren. rewrite Hsucc. simpl.
  unfold bind at 1. rewrite Hver. simpl.
  unfold bind at 1. unfold logger at 1. unfold bind at 1.
  unfold copyFile, liftFS in Hcopy.
  destruct (fs_copyFile filePath backupPath (fs w)) as [r0 s1] eqn:Hfs.
  injection Hcopy as -> <-.
  destruct (fs_copyFile_ok _ _ _ _ Hfs) as (c & Hfile & Hbackup).
  destruct (Frames_dispatchRename T backupPath filePath exec_keeps Hfresh
              _ _ _ _ _ _ _ Hren) as [Hkeep2 _].
  destruct (Frames_dispatchVerify T backupPath filePath exec_keeps
              _ _ _ _ _ Hver) as [Hkeep3 _].
  simpl in Hkeep2. rewrite Hkeep2, Hbackup in Hkeep3.
  match goal with
  | |- context [restoreBackup backupPath filePath ?w0] =>
      destruct (restoreBackup_works backupPath filePath w0 Hfresh) as [w4 Hres];
        [ simpl; rewrite Hkeep3; now eexists | exact Hno | ];
      destruct (restoreBackup_spec _ _ _ _ _ Hfresh Hres) as [_ (H1 & H2 & _)]
  end.
  rewrite Hres. unfold ret. intros [= <- <-]. simpl in H1.
  split; [reflexivity|]. split; [|exact H2].
  now rewrite H1, Hkeep3, Hfile.
Qed.

(** C1. The child processes of the backends leaving the sidecar backup
    alone, a call of [performSafeRename] that reports [success: false]
    leaves the target file with the content it had when the call began,
    unless the emergency restore itself failed: the [try] block threw and
    the copy of the backup over the file, attempted in the [catch], threw
    as well. That holds whatever input/output faults hit the calls of the
    file system. In particular, when the backend renamed and the
    verification rejected the result, and no fault hits the two calls of
    the restore, the outcome is the backend's outcome with
    [success: false] and the error "Verification failed after rename",
    the file is restored from the backup and the backup is gone. *)
Theorem performSafeRename_conserves_file (w w' : World) (r : RenameResult.t) :
  performSafeRename T filePath suggestion language lineNumber projectRoot w
    = (r, w') ->
  (RenameResult.success r = false ->
     files (fs w') !! filePath = files (fs w) !! filePath
     \/ emergencyRestoreThrew T filePath suggestion language lineNumber
          projectRoot w w')
  /\ (forall (w1 w2 w3 : World) (result : RenameResult.t),
        copyFile filePath backupPath w = (Ok tt, w1) ->
        dispatchRename T filePath suggestion language lineNumber projectRoot w1
          = (result, w2) ->
        RenameResult.success result = true ->
        dispatchVerify T filePath language projectRoot w2 = (false, w3) ->
        noFaultAhead 2 (fs w3) = true ->
        r = RenameResult.mk false (RenameResult.file result)
              (RenameResult.oldName result) (RenameResult.newName result)
              (RenameResult.referencesUpdated result)
              (Some "Verification failed after rename")
        /\ files (fs w') !! filePath = files (fs w) !! filePath
        /\ files (fs w') !! backupPath = None).
Proof using exec_keeps.
  intros Hrun. split.
  - intros Hfail.
    exact (performSafeRename_failure_restores T filePath suggestion language
             lineNumber projectRoot exec_keeps w w' r Hrun Hfail).
  - intros w1 w2 w3 result Hcopy Hren Hsucc Hver Hno.
    exact (performSafeRename_verification_failure w w1 w2 w3 w' result r
             Hcopy Hren Hsucc Hver Hno Hrun).
Qed.

End TransactionScenarios.

(** ** Batches *)

Section Batch.

Variable T : Tools.
Variable projectRoot : string.

Lemma attemptInTurn_length (renames : list RenameRequest.t) (w : World) :
  length (attemptInTurn T renames projectRoot w) = length renames.
Proof.
  revert w. induction renames as [|rename later IH]; intros w; simpl.
  - reflexivity.
  - destruct (performSafeRename _ _ _ _ _ _ w) as [result w1]. simpl.
    now rewrite IH.
Qed.

Lemma batchRenameLoop_results (renames : list RenameRequest.t)
    (results : list RenameResult.t) (w : World) :
  batchRenameLoop T renames projectRoot results w
  = (results ++ (batchRenameLoop T renames projectRoot [] w).1,
     (batchRenameLoop T renames projectRoot [] w).2).
Proof.
  revert results w. induction renames as [|rename later IH]; intros results w.
  - simpl. unfold ret. simpl. now rewrite app_nil_r.
  - cbn [batchRenameLoop]. unfold bind.
    destruct (performSafeRename _ _ _ _ _ _ w) as [result w1].
    destruct (RenameResult.success result); simpl.
    + rewrite (IH (results ++ [result])), (IH ([result])).
      simpl. now rewrite <- app_assoc.
    + reflexivity.
Qed.

Lemma batchRename_cons (rename : RenameRequest.t)
    (later : list RenameRequest.t) (w : World) :
  batchRename T (rename :: later) projectRoot w
  = let '(result, w1) :=
      performSafeRename T (RenameRequest.filePath rename)
        (RenameRequest.suggestion rename) (RenameRequest.language rename)
        (RenameRequest.lineNumber rename) projectRoot w in
    if RenameResult.success result
    then (result :: (batchRename T later projectRoot w1).1,
          (batchRename T later projectRoot w1).2)
    else ([result],
          mkWorld (fs w1)
            (logs w1 ++ [(WARN, "Stopping batch rename due to failure")])).
Proof.
  unfold batchRename. cbn [batchRenameLoop]. unfold bind.
  destruct (performSafeRename _ _ _ _ _ _ w) as [result w1].
  destruct (RenameResult.success result); simpl.
  - now rewrite batchRenameLoop_results.
  - reflexivity.
Qed.

Lemma batchRename_stops (renames : list RenameRequest.t) (w : World)
    (i : nat) (result : RenameResult.t) (wi : World) :
  attemptInTurn T renames projectRoot w !! i = Some (result, wi) ->
  RenameResult.success result = false ->
  (forall j res wj, (j < i)%nat ->
     attemptInTurn T renames projectRoot w !! j = Some (res, wj) ->
     RenameResult.success res = true) ->
  (batchRename T renames projectRoot w).1
    = (take (S i) (attemptInTurn T renames projectRoot w)).*1
  /\ fs (batchRename T renames projectRoot w).2 = fs wi
  /\ forall others,
       batchRename T (take (S i) renames ++ others) projectRoot w
       = batchRename T renames projectRoot w.
Proof.
  revert w i. induction renames as [|rename later IH]; intros w i Hi Hfail Hbefore.
  - discriminate.
  - rewrite batchRename_cons. simpl in Hi, Hbefore |- *.
    destruct (performSafeRename _ _ _ _ _ _ w) as [res0 w1] eqn:Hrun.
    destruct i as [|i].
    + injection Hi as -> ->. rewrite Hfail. simpl.
      repeat split. intros others. simpl.
      rewrite batchRename_cons, Hrun. now rewrite Hfail.
    + simpl in Hi.
      assert (Hs0 : RenameResult.success res0 = true)
        by (apply (Hbefore 0%nat res0 w1); [lia | reflexivity]).
      rewrite Hs0.
      destruct (IH w1 i Hi Hfail) as (H1 & H2 & H3).
      { intros j res wj Hj Hlook. apply (Hbefore (S j) res wj); [lia | exact Hlook]. }
      split; [|split].
      * cbn [fst]. rewrite H1. reflexivity.
      * exact H2.
      * intros others. rewrite batchRename_cons, Hrun, Hs0. now rewrite H3.
Qed.

Lemma batchRename_all (renames : list RenameRequest.t) (w : World) :
  (forall i res wi,
     attemptInTurn T renames projectRoot w !! i = Some (res, wi) ->
     RenameResult.success res = true) ->
  (batchRename T renames projectRoot w).1
    = (attemptInTurn T renames projectRoot w).*1.
Proof.
  revert w. induction renames as [|rename later IH]; intros w Hall.
  - reflexivity.
  - rewrite batchRename_cons. simpl in Hall |- *.
    destruct (performSafeRename _ _ _ _ _ _ w) as [res0 w1].
    rewrite (Hall 0%nat res0 w1 eq_refl). simpl. f_equal.
    apply IH. intros i res wi Hlook. apply (Hall (S i) res wi Hlook).
Qed.

(** C2. [batchRename] attempts the requests in list order, each from the
    world its predecessor left. When request number [i] (counted from 0)
    is the first whose outcome has [success: false], the outcomes returned
    are those of requests 0 to [i], so [i + 1] of them; the files are as
    that request left them, and the call is the same whatever requests
    follow: they are not attempted. When no request fails there are as many
    outcomes as requests. *)
Theorem batchRename_fail_fast (renames : list RenameRequest.t) (w w' : World)
    (results : list RenameResult.t) :
  batchRename T renames projectRoot w = (results, w') ->
  (forall i result wi,
     attemptInTurn T renames projectRoot w !! i = Some (result, wi) ->
     RenameResult.success result = false ->
     (forall j res wj, (j < i)%nat ->
        attemptInTurn T renames projectRoot w !! j = Some (res, wj) ->
        RenameResult.success res = true) ->
     results = (take (S i) (attemptInTurn T renames projectRoot w)).*1
     /\ length results = S i
     /\ fs w' = fs wi
     /\ forall others,
          batchRename T (take (S i) renames ++ others) projectRoot w
          = (results, w'))
  /\ ((forall i res wi,
         attemptInTurn T renames projectRoot w !! i = Some (res, wi) ->
         RenameResult.success res = true) ->
      results = (attemptInTurn T renames projectRoot w).*1
      /\ length results = length renames).
Proof.
  intros Hrun. split.
  - intros i result wi Hi Hfail Hbefore.
    destruct (batchRename_stops renames w i result wi Hi Hfail Hbefore)
      as (H1 & H2 & H3).
    rewrite Hrun in H1, H2, H3. simpl in H1, H2.
    repeat split; try assumption.
    rewrite H1, length_fmap, length_take.
    apply lookup_lt_Some in Hi. lia.
  - intros Hall. pose proof (batchRename_all renames w Hall) as H.
    rewrite Hrun in H. simpl in H. split; [exact H|].
    now rewrite H, length_fmap, attemptInTurn_length.
Qed.

End Batch.

(** ** The fallback renamers *)

Lemma readFile_works (n : nat) (path content : string) (w : World) :
  files (fs w) !! path = Some content ->
  noFaultAhead (S n) (fs w) = true ->
  exists w1, readFile path w = (Ok content, w1)
             /\ files (fs w1) = files (fs w)
             /\ noFaultAhead n (fs w1) = true
             /\ logs w1 = logs w.
Proof.
  intros Hfile Hno. unfold readFile, liftFS, fs_readFile.
  destruct (nextFault_noFault _ _ Hno) as (Hf & Hfiles & Hno').
  destruct (nextFault (fs w)) as [f s1]. simpl in *. subst f.
  rewrite Hfiles, Hfile. eexists. repeat split; simpl; assumption.
Qed.

Lemma writeFile_works (n : nat) (path content : string) (w : World) :
  noFaultAhead (S n) (fs w) = true ->
  exists w1, writeFile path content w = (Ok tt, w1)
             /\ files (fs w1) = <[path := content]> (files (fs w))
             /\ logs w1 = logs w.
Proof.
  intros Hno. unfold writeFile, liftFS, fs_writeFile.
  destruct (nextFault_noFault _ _ Hno) as (Hf & Hfiles & Hno').
  destruct (nextFault (fs w)) as [f s1]. simpl in *. subst f.
  eexists. repeat split; simpl. now rewrite Hfiles.
Qed.

Section Fallback.

Variable T : Tools.

Lemma matchCount_word (name content : string) :
  WordRegex.isWordName name = true ->
  matchCount T name content = Ok (Z.of_nat (WordRegex.count name content)).
Proof. intros H. unfold matchCount. now rewrite H. Qed.

(** What [fallbackRename] does to a readable and writable file, when the
    pattern of the old name can be built and has [n] matches. *)
Lemma fallbackRename_spec (filePath old new content : string) (n : Z)
    (w : World) :
  matchCount T old content = Ok n ->
  files (fs w) !! filePath = Some content ->
  noFaultAhead 2 (fs w) = true ->
  exists w',
    fallbackRename T filePath old new w =
      (if n =? 0
       then failed filePath old new "Symbol not found"
       else succeeded filePath old new n,
       w')
    /\ files (fs w') =
         (if n =? 0 then files (fs w)
          else <[filePath := replaceAll T old new content]> (files (fs w))).
Proof.
  intros Hcount Hfile Hno. unfold fallbackRename. cbv zeta. unfold bind at 1.
  destruct (readFile_works 1 _ _ _ Hfile Hno) as (w1 & -> & Hfiles1 & Hno1 & _).
  rewrite Hcount.
  destruct (n =? 0) eqn:Hzero.
  - eexists. split; [reflexivity|]. exact Hfiles1.
  - unfold bind.
    destruct (writeFile_works 0 filePath (replaceAll T old new content) w1 Hno1)
      as (w2 & -> & Hfiles2 & _).
    eexists. split; [reflexivity|]. simpl. now rewrite Hfiles2, Hfiles1.
Qed.

End Fallback.

(** ** The diff parser *)

Lemma split_nonempty (sep : ascii) (s : string) : Str.split sep s <> [].
Proof.
  destruct s as [|c rest]; simpl; [discriminate|].
  destruct (Ascii.eqb c sep); [discriminate|].
  destruct (Str.split sep rest); discriminate.
Qed.

Lemma extensionOf_total (filePath : string) :
  exists ext, extensionOf filePath = Some ext.
Proof.
  unfold extensionOf.
  destruct (last (Str.split "." filePath)) as [ext|] eqn:Hlast.
  - now eexists.
  - apply last_None in Hlast. now apply split_nonempty in Hlast.
Qed.

Lemma detectLanguage_supported (filePath ext : string) :
  extensionOf filePath = Some ext ->
  (In ext supportedExtensions <-> exists l, detectLanguage filePath = Some l).
Proof.
  intros Hext. unfold detectLanguage. rewrite Hext. unfold supportedExtensions.
  simpl.
  destruct (String.eqb_spec ext "ts") as [->|H1]; simpl.
  { split; [eauto | auto]. }
  destruct (String.eqb_spec ext "tsx") as [->|H2]; simpl.
  { split; [eauto | auto]. }
  destruct (String.eqb_spec ext "js") as [->|H3]; simpl.
  { split; [eauto | auto]. }
  destruct (String.eqb_spec ext "jsx") as [->|H4]; simpl.
  { split; [eauto | auto 6]. }
  destruct (String.eqb_spec ext "py") as [->|H5]; simpl.
  { split; [eauto | auto 6]. }
  destruct (String.eqb_spec ext "go") as [->|H6]; simpl.
  { split; [eauto | auto 7]. }
  split.
  - intros [E|[E|[E|[E|[E|[E|[]]]]]]]; congruence.
  - intros [l Hl]. discriminate.
Qed.

Lemma walkLine_outside_hunk (st : Walk.t) (line : string) :
  Walk.inHunk st = false -> isHunkHeader line = false -> walkLine st line = st.
Proof.
  unfold walkLine, isHunkHeader. intros Hin Hhead.
  destruct (Str.startsWith line "@@"); simpl in Hhead.
  - destruct (matchPlusDigits line); [discriminate | reflexivity].
  - now rewrite Hin.
Qed.

Lemma walkLines_outside_hunk (lines : list string) (st : Walk.t) :
  Walk.inHunk st = false ->
  Forall (fun line => isHunkHeader line = false) lines ->
  walkLines lines st = st.
Proof.
  intros Hin Hall. revert st Hin.
  induction Hall as [|line lines Hline _ IH]; intros st Hin; simpl.
  - reflexivity.
  - unfold walkLines in *. simpl.
    rewrite (walkLine_outside_hunk st line Hin Hline). now apply IH.
Qed.

Lemma walkLine_stated (st : Walk.t) (line : string) :
  isFileHeader line = false -> walkLine st line = statedWalkLine st line.
Proof.
  unfold isFileHeader, walkLine, statedWalkLine. intros H.
  apply orb_false_elim in H as [-> ->].
  now rewrite !andb_true_r.
Qed.

Lemma walkLines_stated (lines : list string) (st : Walk.t) :
  Forall (fun line => isFileHeader line = false) lines ->
  walkLines lines st = statedWalkLines lines st.
Proof.
  intros Hall. revert st.
  induction Hall as [|line lines Hline _ IH]; intros st.
  - reflexivity.
  - unfold walkLines, statedWalkLines in *. simpl.
    rewrite (walkLine_stated st line Hline). apply IH.
Qed.

Lemma prefix_cons_inv (a : ascii) (p s : string) :
  String.prefix (String a p) s = true ->
  exists rest, s = String a rest /\ String.prefix p rest = true.
Proof.
  destruct s as [|b rest]; simpl; [discriminate|].
  destruct (ascii_dec a b) as [->|]; [|discriminate].
  intros H. now exists rest.
Qed.

Lemma walkLine_file_header (st : Walk.t) (line : string) :
  isFileHeader line = true -> walkLine st line = st.
Proof.
  unfold isFileHeader, Str.startsWith. intros H.
  apply orb_prop in H as [H|H];
    apply prefix_cons_inv in H as (r1 & -> & H);
    apply prefix_cons_inv in H as (r2 & -> & H);
    apply prefix_cons_inv in H as (r3 & -> & _);
    unfold walkLine, Str.startsWith; destruct r3, (Walk.inHunk st); reflexivity.
Qed.

Lemma prefix_empty (s : string) : String.prefix EmptyString s = true.
Proof. now destruct s. Qed.

Lemma walkLine_body (st : Walk.t) (line : string) :
  Walk.inHunk st = true -> isBodyLine line = true ->
  walkLine st line =
    if Str.startsWith line "+" then
      Walk.mk (Walk.currentLine st + 1) true
        (Walk.additions st ++ [DiffLine.mk (Walk.currentLine st) (Str.substring1 line)])
        (Walk.deletions st)
    else if Str.startsWith line "-" then
      Walk.mk (Walk.currentLine st) true (Walk.additions st)
        (Walk.deletions st ++ [DiffLine.mk (Walk.currentLine st) (Str.substring1 line)])
    else Walk.mk (Walk.currentLine st + 1) true (Walk.additions st) (Walk.deletions st).
Proof.
  intros Hin Hbody. unfold isBodyLine in Hbody.
  apply andb_prop in Hbody as [Hkind Hnot].
  apply negb_true_iff in Hnot. unfold isFileHeader in Hnot.
  apply orb_false_elim in Hnot as [Hplus Hminus].
  unfold walkLine. rewrite Hin, Hplus, Hminus. simpl.
  rewrite !andb_true_r.
  apply orb_prop in Hkind as [Hkind|Hkind]; [apply orb_prop in Hkind as [Hkind|Hkind]|];
    unfold Str.startsWith in Hkind |- *;
    apply prefix_cons_inv in Hkind as (rest & -> & _);
    cbn; rewrite ?prefix_empty; reflexivity.
Qed.

Lemma walkLines_additions_grow (lines : list string) (st : Walk.t) :
  exists extra,
    Walk.additions (walkLines lines st) = Walk.additions st ++ extra.
Proof.
  revert st. induction lines as [|line lines IH]; intros st.
  - exists []. simpl. now rewrite app_nil_r.
  - unfold walkLines in *. simpl. destruct (IH (walkLine st line)) as [extra ->].
    assert (H : exists e1, Walk.additions (walkLine st line) = Walk.additions st ++ e1).
    { unfold walkLine.
      repeat match goal with
             | |- context [if ?b then _ else _] => destruct b
             | |- context [match ?o with Some _ => _ | None => _ end] => destruct o
             end; simpl; try (exists []; now rewrite app_nil_r); now eexists. }
    destruct H as [e1 ->]. exists (e1 ++ extra). now rewrite app_assoc.
Qed.

(** Inside a hunk, the addition at position [k] of the body gets the line
    number the hunk started with plus the number of additions and context
    lines before it. *)
Lemma walkLines_numbers_additions (body : list string) (st : Walk.t)
    (k : nat) (line : string) :
  Walk.inHunk st = true ->
  Forall (fun l => isBodyLine l = true) body ->
  body !! k = Some line ->
  Str.startsWith line "+" = true ->
  In (DiffLine.mk (Walk.currentLine st + consumed (take k body))
                  (Str.substring1 line))
     (Walk.additions (walkLines body st)).
Proof.
  intros Hin Hall. revert st k Hin.
  induction Hall as [|l body Hl _ IH]; intros st k Hin Hk Hplus.
  - discriminate.
  - unfold walkLines in *. simpl.
    pose proof (walkLine_body st l Hin Hl) as Hstep.
    destruct k as [|k].
    + injection Hk as ->. rewrite Hplus in Hstep. rewrite Hstep.
      destruct (walkLines_additions_grow body
                  (Walk.mk (Walk.currentLine st + 1) true
                     (Walk.additions st
                      ++ [DiffLine.mk (Walk.currentLine st) (Str.substring1 line)])
                     (Walk.deletions st))) as [extra Hextra].
      unfold walkLines in Hextra. rewrite Hextra. simpl.
      unfold consumed. simpl. rewrite Z.add_0_r.
      apply in_or_app. left. apply in_or_app. right. now left.
    + simpl in Hk.
      assert (Hin' : Walk.inHunk (walkLine st l) = true).
      { rewrite Hstep. destruct (Str.startsWith l "+"); [reflexivity|].
        destruct (Str.startsWith l "-"); reflexivity. }
      specialize (IH (walkLine st l) k Hin' Hk Hplus).
      replace (Walk.currentLine st + consumed (take (S k) (l :: body)))
        with (Walk.currentLine (walkLine st l) + consumed (take k body));
        [exact IH|].
      rewrite Hstep. unfold consumed. simpl.
      assert (Hexcl : Str.startsWith l "+" = true -> Str.startsWith l "-" = false).
      { unfold Str.startsWith. intros H.
        apply prefix_cons_inv in H as (rest & -> & _). reflexivity. }
      destruct (Str.startsWith l "+") eqn:E1.
      * rewrite (Hexcl eq_refl). simpl. lia.
      * destruct (Str.startsWith l "-"); simpl; lia.
Qed.

(** C6. The walk of the code departs from the walk the claim states on a
    hunk line that adds a text starting with [++]. The guard that keeps
    the file header [+++ b/file] out of the additions turns such a line
    away as well: it is neither recorded nor counted. On a hunk that adds
    the two lines [++counter;] and [run(counter);] at line 1, the stated
    walk records them at lines 1 and 2, and [parseDiff] returns the one
    addition [run(counter);] at line 1. The diff of Scenario A, which has
    no such line, parses as the claim says, to the one addition
    "const data = fetchUser();" at line 2. *)
Theorem parseDiff_skips_added_line :
  Str.split "010" increment_diff
  = ["@@ -1,1 +1,3 @@"; "+++counter;"; "+run(counter);"; " done();"]
  /\ walkLine (Walk.mk 1 true [] []) "+++counter;" = Walk.mk 1 true [] []
  /\ statedWalkLine (Walk.mk 1 true [] []) "+++counter;"
     = Walk.mk 2 true [DiffLine.mk 1 "++counter;"] []
  /\ parseDiff increment_diff "test.ts" =
       Some (PRDiff.mk "test.ts" typescript [DiffLine.mk 1 "run(counter);"] [] [])
  /\ Walk.additions (statedWalkLines (Str.split "010" increment_diff) Walk.start) =
       [DiffLine.mk 1 "++counter;"; DiffLine.mk 2 "run(counter);"]
  /\ parseDiff scenarioA_diff "test.ts" =
       Some (PRDiff.mk "test.ts" typescript
               [DiffLine.mk 2 "const data = fetchUser();"] [] []).
Proof. repeat split; vm_compute; reflexivity. Qed.

(** C10. For a path whose extension (the text after its last dot, the whole
    path when it has no dot, in lower case) is one of ts, tsx, js, jsx, py
    and go, [parseDiff] returns a change object for any diff text, and it
    returns none exactly when the extension is not one of them. A text without a hunk header, the empty
    text among them, gives empty lists of additions, deletions and
    modifications. *)
Theorem parseDiff_total (diffText filePath : string) :
  (exists ext,
     extensionOf filePath = Some ext
     /\ (In ext supportedExtensions ->
         exists language additions deletions modifications,
           parseDiff diffText filePath =
             Some (PRDiff.mk filePath language additions deletions modifications))
     /\ (parseDiff diffText filePath = None <-> ~ In ext supportedExtensions))
  /\ (forall d,
        parseDiff diffText filePath = Some d ->
        Forall (fun line => isHunkHeader line = false) (Str.split "010" diffText) ->
        PRDiff.additions d = [] /\ PRDiff.deletions d = []
        /\ PRDiff.modifications d = [])
  /\ (forall d,
        parseDiff EmptyString filePath = Some d ->
        PRDiff.additions d = [] /\ PRDiff.deletions d = []
        /\ PRDiff.modifications d = []).
Proof.
  split; [|split].
  - destruct (extensionOf_total filePath) as [ext Hext]. exists ext.
    split; [exact Hext|].
    pose proof (detectLanguage_supported filePath ext Hext) as Hsupp.
    unfold parseDiff. split.
    + intros Hin. apply Hsupp in Hin as [language ->]. now repeat eexists.
    + destruct (detectLanguage filePath) as [language|].
      * split; [discriminate|]. intros Hnot. exfalso. apply Hnot, Hsupp. now eexists.
      * split; [|reflexivity]. intros _ Hin. apply Hsupp in Hin as [l Hl].
        discriminate.
  - intros d Hparse Hall. unfold parseDiff in Hparse.
    destruct (detectLanguage filePath); [|discriminate].
    injection Hparse as <-. simpl.
    rewrite (walkLines_outside_hunk _ Walk.start eq_refl Hall). now simpl.
  - intros d Hparse. unfold parseDiff in Hparse.
    destruct (detectLanguage filePath); [|discriminate].
    injection Hparse as <-. now simpl.
Qed.

(** C10 at a TypeScript path with a text that has no hunk header. *)
Lemma parseDiff_total_witness :
  parseDiff "+not a diff" "src/Index.TS" =
    Some (PRDiff.mk "src/Index.TS" typescript [] [] [])
  /\ Forall (fun line => isHunkHeader line = false) (Str.split "010" "+not a diff")
  /\ PRDiff.additions (PRDiff.mk "src/Index.TS" typescript [] [] []) = []
  /\ PRDiff.deletions (PRDiff.mk "src/Index.TS" typescript [] [] []) = []
  /\ PRDiff.modifications (PRDiff.mk "src/Index.TS" typescript [] [] []) = [].
Proof.
  assert (Hparse : parseDiff "+not a diff" "src/Index.TS" =
                     Some (PRDiff.mk "src/Index.TS" typescript [] [] []))
    by reflexivity.
  assert (Hall : Forall (fun line => isHunkHeader line = false)
                        (Str.split "010" "+not a diff"))
    by (repeat constructor).
  split; [exact Hparse|]. split; [exact Hall|].
  destruct (parseDiff_total "+not a diff" "src/Index.TS") as (_ & Hempty & _).
  exact (Hempty _ Hparse Hall).
Defined.

(** ** The fallback renamers, as reported *)

(** C5, as amended. On a file that can be read and written, the fallback
    renamers of Python and Go, the pattern of the old name having [n]
    matches in the file, report failure with the error "Symbol not found"
    exactly when [n] is 0, and leave the file as it is; otherwise they
    report success, [referencesUpdated] is [n], the number of occurrences
    of the old name they found before substituting (the number of
    replacements), and the file holds the substituted text. For an old name
    made of word characters [n] is the number of its whole-word
    occurrences. Renaming data to userProfile in the file of Scenario C
    gives [referencesUpdated = 2] and the renamed content. *)
Theorem fallbackRename_reports (T : Tools)
    (rename : Tools -> string -> string -> string -> IO RenameResult.t)
    (filePath old new content : string) (n : Z) (w w' : World)
    (r : RenameResult.t) :
  rename = fallbackPythonRename \/ rename = fallbackGoRename ->
  matchCount T old content = Ok n ->
  files (fs w) !! filePath = Some content ->
  noFaultAhead 2 (fs w) = true ->
  rename T filePath old new w = (r, w') ->
  ((RenameResult.success r = false
    /\ RenameResult.error r = Some "Symbol not found")
   <-> n = 0)
  /\ (n <> 0 ->
      r = succeeded filePath old new n
      /\ files (fs w') !! filePath = Some (replaceAll T old new content))
  /\ (n = 0 -> files (fs w') = files (fs w))
  /\ (WordRegex.isWordName old = true ->
      n = Z.of_nat (WordRegex.count old content))
  /\ (rename T "app.py" "data" "userProfile" (worldWith "app.py" scenarioC_before)).1
       = succeeded "app.py" "data" "userProfile" 2
  /\ files (fs (rename T "app.py" "data" "userProfile"
                  (worldWith "app.py" scenarioC_before)).2) !! "app.py"
       = Some scenarioC_after.
Proof.
  intros Hrename Hcount Hfile Hno Hrun.
  assert (Hsame : rename = fallbackRename) by (destruct Hrename; assumption).
  subst rename.
  assert (HC1 : (fallbackRename T "app.py" "data" "userProfile"
                   (worldWith "app.py" scenarioC_before)).1
                = succeeded "app.py" "data" "userProfile" 2)
    by (vm_compute; reflexivity).
  assert (HC2 : files (fs (fallbackRename T "app.py" "data" "userProfile"
                             (worldWith "app.py" scenarioC_before)).2) !! "app.py"
                = Some scenarioC_after)
    by (vm_compute; reflexivity).
  assert (Hword : WordRegex.isWordName old = true ->
                  n = Z.of_nat (WordRegex.count old content)).
  { intros H. rewrite (matchCount_word T old content H) in Hcount. congruence. }
  destruct (fallbackRename_spec T filePath old new content n w Hcount Hfile Hno)
    as (w0 & Hspec & Hfiles).
  rewrite Hspec in Hrun. injection Hrun as <- <-.
  destruct (Z.eqb_spec n 0) as [Hzero|Hzero]; simpl.
  - split; [split; [intros _; exact Hzero | now split] |].
    split; [congruence|]. split; [intros _; exact Hfiles|]. now repeat split.
  - split; [split; [intros [H _]; discriminate | congruence] |].
    split; [|split; [congruence | now repeat split]].
    intros _. split; [reflexivity|]. rewrite Hfiles. now rewrite lookup_insert_eq.
Qed.

(** C5 at the file of Scenario C. *)
Lemma fallbackRename_reports_witness :
  matchCount bareTools "data" scenarioC_before = Ok 2
  /\ noFaultAhead 2 (fs (worldWith "app.py" scenarioC_before)) = true
  /\ WordRegex.count "data" scenarioC_before = 2%nat
  /\ (fallbackGoRename bareTools "app.py" "data" "userProfile"
        (worldWith "app.py" scenarioC_before)).1
     = succeeded "app.py" "data" "userProfile" 2.
Proof.
  split; [reflexivity|]. split; [reflexivity|]. split; [reflexivity|].
  destruct (fallbackRename_reports bareTools fallbackGoRename
              "app.py" "data" "userProfile" scenarioC_before 2
              (worldWith "app.py" scenarioC_before)
              (fallbackGoRename bareTools "app.py" "data" "userProfile"
                 (worldWith "app.py" scenarioC_before)).2
              (fallbackGoRename bareTools "app.py" "data" "userProfile"
                 (worldWith "app.py" scenarioC_before)).1
              (or_intror eq_refl) eq_refl eq_refl eq_refl
              (surjective_pairing _))
    as (_ & Hcount & _).
  exact (proj1 (Hcount ltac:(discriminate))).
Defined.

(** C5 as stated fails on a file that already mentions the new name: the
    one occurrence of data is replaced and [referencesUpdated] is 1, while
    userProfile occurs twice in the file after the substitution. *)
Lemma fallbackRename_counts_counterexample :
  (fallbackPythonRename bareTools "app.py" "data" "userProfile"
     (worldWith "app.py" mentionsNewName)).1
    = succeeded "app.py" "data" "userProfile" 1
  /\ files (fs (fallbackPythonRename bareTools "app.py" "data" "userProfile"
                  (worldWith "app.py" mentionsNewName)).2) !! "app.py"
       = Some "userProfile = userProfile"
  /\ matchCount bareTools "userProfile" "userProfile = userProfile" = Ok 2
  /\ Ok (RenameResult.referencesUpdated
           (fallbackPythonRename bareTools "app.py" "data" "userProfile"
              (worldWith "app.py" mentionsNewName)).1)
       <> matchCount bareTools "userProfile" "userProfile = userProfile".
Proof. repeat split; vm_compute; first [reflexivity | discriminate]. Qed.

(** ** The transaction and the batch at work *)

(** C1 on a machine without tools: the fallback renames the file of
    Scenario C, the syntax check cannot run, and the file is restored; and
    the same on a disk that fails the copy of the restore, where the
    restore of the [catch] clause is what puts the file back. *)
Lemma performSafeRename_conserves_file_witness :
  execKeeps bareTools (backupPathOf "app.py")
  /\ RenameResult.success
       (performSafeRename bareTools "app.py" scenarioB_suggestion python 1 "."
          (worldWith "app.py" scenarioC_before)).1 = false
  /\ (performSafeRename bareTools "app.py" scenarioB_suggestion python 1 "."
        (worldWith "app.py" scenarioC_before)).1
     = RenameResult.mk false "app.py" "data" "userProfile" 2
         (Some "Verification failed after rename")
  /\ files (fs (performSafeRename bareTools "app.py" scenarioB_suggestion
                  python 1 "." (worldWith "app.py" scenarioC_before)).2)
       !! "app.py"
     = files (fs (worldWith "app.py" scenarioC_before)) !! "app.py"
  /\ (performSafeRename bareTools "app.py" scenarioB_suggestion python 1 "."
        (worldFailingFourth "app.py" scenarioC_before)).1
     = failed "app.py" "data" "userProfile" "Error: EIO: i/o error, copyfile"
  /\ files (fs (performSafeRename bareTools "app.py" scenarioB_suggestion
                  python 1 "." (worldFailingFourth "app.py" scenarioC_before)).2)
       !! "app.py"
     = Some scenarioC_before
  /\ (files (fs (performSafeRename bareTools "app.py" scenarioB_suggestion
                   python 1 "." (worldFailingFourth "app.py" scenarioC_before)).2)
        !! "app.py"
      = files (fs (worldFailingFourth "app.py" scenarioC_before)) !! "app.py"
      \/ emergencyRestoreThrew bareTools "app.py" scenarioB_suggestion python 1 "."
           (worldFailingFourth "app.py" scenarioC_before)
           (performSafeRename bareTools "app.py" scenarioB_suggestion python 1 "."
              (worldFailingFourth "app.py" scenarioC_before)).2).
Proof.
  assert (Hkeeps : execKeeps bareTools (backupPathOf "app.py"))
    by (intros command s; reflexivity).
  split; [exact Hkeeps|]. split; [vm_compute; reflexivity|].
  cut ((performSafeRename bareTools "app.py" scenarioB_suggestion python 1 "."
          (worldWith "app.py" scenarioC_before)).1
       = RenameResult.mk false "app.py" "data" "userProfile" 2
           (Some "Verification failed after rename")
       /\ files (fs (performSafeRename bareTools "app.py" scenarioB_suggestion
                       python 1 "." (worldWith "app.py" scenarioC_before)).2)
            !! "app.py"
          = files (fs (worldWith "app.py" scenarioC_before)) !! "app.py").
  { intros [Hresult Hfile]. split; [exact Hresult|]. split; [exact Hfile|].
    split; [vm_compute; reflexivity|]. split; [vm_compute; reflexivity|].
    destruct (performSafeRename_conserves_file bareTools "app.py"
                scenarioB_suggestion python 1 "." Hkeeps
                (worldFailingFourth "app.py" scenarioC_before) _ _
                (surjective_pairing _)) as [Hfailed _].
    apply Hfailed. vm_compute. reflexivity. }
  pose (w0 := worldWith "app.py" scenarioC_before).
  pose (w1 := (copyFile "app.py" (backupPathOf "app.py") w0).2).
  pose (renamed := dispatchRename bareTools "app.py" scenarioB_suggestion
                     python 1 "." w1).
  pose (w3 := (dispatchVerify bareTools "app.py" python "." renamed.2).2).
  destruct (performSafeRename_conserves_file bareTools "app.py"
              scenarioB_suggestion python 1 "." Hkeeps w0 _ _
              (surjective_pairing _)) as [_ Hscenario].
  destruct (Hscenario w1 renamed.2 w3 renamed.1) as (Hr & Hfile & _);
    [vm_compute; reflexivity | apply surjective_pairing | vm_compute; reflexivity
    | vm_compute; reflexivity | vm_compute; reflexivity | ].
  split; [|exact Hfile].
  etransitivity; [exact Hr | vm_compute; reflexivity].
Defined.

(** C2 on two requests, the first of them on a file that does not exist:
    one outcome, and the file of the second request is as it was. *)
Lemma batchRename_fail_fast_witness :
  RenameResult.success
    (performSafeRename bareTools "missing.py" scenarioB_suggestion python 1 "."
       (worldWith "app.py" scenarioC_before)).1 = false
  /\ length (batchRename bareTools [requestOn "missing.py"; requestOn "app.py"] "."
               (worldWith "app.py" scenarioC_before)).1 = 1%nat
  /\ files (fs (batchRename bareTools [requestOn "missing.py"; requestOn "app.py"]
                  "." (worldWith "app.py" scenarioC_before)).2) !! "app.py"
     = Some scenarioC_before.
Proof.
  split; [vm_compute; reflexivity|].
  pose (w0 := worldWith "app.py" scenarioC_before).
  pose (first := performSafeRename bareTools "missing.py" scenarioB_suggestion
                   python 1 "." w0).
  destruct (batchRename_fail_fast bareTools "."
              [requestOn "missing.py"; requestOn "app.py"] w0 _ _
              (surjective_pairing _)) as [Hstops _].
  destruct (Hstops 0%nat first.1 first.2) as (_ & Hlength & Hfs & _);
    [vm_compute; reflexivity | vm_compute; reflexivity | intros j res wj Hj; lia | ].
  split; [exact Hlength|].
  etransitivity; [exact (f_equal (fun s => files s !! "app.py") Hfs)|].
  vm_compute. reflexivity.
Defined.

(** ** Binary64 comparisons *)

Lemma SFcompare_swap (x y : spec_float) :
  SFcompare y x = option_map CompOpp (SFcompare x y).
Proof.
  destruct x as [sx|sx| |sx mx ex], y as [sy|sy| |sy my ey]; simpl;
    try reflexivity;
    try (destruct sx; reflexivity);
    try (destruct sy; reflexivity);
    try (destruct sx, sy; reflexivity).
  f_equal.
  change (PosDef.Pos.compare_cont Eq my mx) with (Pos.compare my mx).
  change (PosDef.Pos.compare_cont Eq mx my) with (Pos.compare mx my).
  rewrite (Z.compare_antisym ex ey), (Pos.compare_antisym mx my).
  destruct sx, sy; simpl; try reflexivity;
    destruct (ex ?= ey)%Z; simpl; try reflexivity;
    destruct (mx ?= my)%positive; reflexivity.
Qed.

(** [x >= k] excludes [x < k], NaN included. *)
Lemma float_ge_not_lt (x k : float) :
  PrimFloat.leb k x = true -> PrimFloat.ltb x k = false.
Proof.
  rewrite FloatAxioms.leb_spec, FloatAxioms.ltb_spec. unfold SFleb, SFltb.
  rewrite (SFcompare_swap (Prim2SF k) (Prim2SF x)).
  destruct (SFcompare (Prim2SF k) (Prim2SF x)) as [[]|]; simpl; congruence.
Qed.

(** Two numbers that are not NaN are ordered. *)
Lemma float_not_lt_ge (x k : float) :
  PrimFloat.eqb x x = true -> PrimFloat.eqb k k = true ->
  PrimFloat.ltb x k = false -> PrimFloat.leb k x = true.
Proof.
  rewrite !FloatAxioms.eqb_spec, FloatAxioms.leb_spec, FloatAxioms.ltb_spec.
  unfold SFeqb, SFleb, SFltb.
  rewrite (SFcompare_swap (Prim2SF k) (Prim2SF x)).
  destruct (Prim2SF x) as [sx|sx| |sx mx ex], (Prim2SF k) as [sk|sk| |sk mk ek];
    simpl; try congruence;
    try (destruct sx; simpl; congruence);
    try (destruct sk; simpl; congruence);
    try (destruct sx, sk; simpl; congruence).
  intros _ _.
  destruct sx, sk; simpl; try congruence;
    destruct (ek ?= ex)%Z; simpl; try congruence;
    destruct (PosDef.Pos.compare_cont Eq mk mx); simpl; congruence.
Qed.

Lemma confidenceInRange_number (c : float) :
  confidenceInRange c = true -> PrimFloat.eqb c c = true.
Proof.
  unfold confidenceInRange. intros H. apply andb_prop in H as [H _].
  revert H. rewrite FloatAxioms.leb_spec, FloatAxioms.eqb_spec.
  unfold SFleb, SFeqb.
  destruct (Prim2SF c) as [s|s| |s m e]; simpl.
  - reflexivity.
  - destruct s; reflexivity.
  - vm_compute. congruence.
  - intros _. destruct s; simpl; rewrite Z.compare_refl;
      change (PosDef.Pos.compare_cont Eq m m) with (Pos.compare m m);
      rewrite Pos.compare_refl; reflexivity.
Qed.

(** ** The safety gate *)

(** C3. For a suggestion whose confidence is in the schema's range from 0
    to 1, [shouldAutoRename] returns true exactly when the confidence is at
    least 0.85, the suggestion is flagged for autofix and it is not flagged
    as public API surface. Whatever the confidence, it returns false for a
    suggestion flagged as public API surface. Scenario B: true at
    confidence 0.95 with the autofix flag and without the public flag,
    false for the same suggestion with the public flag. *)
Theorem shouldAutoRename_rule :
  (forall s : NamingSuggestion,
     confidenceInRange (confidence s) = true ->
     (shouldAutoRename s = true
      <-> PrimFloat.leb 0.85%float (confidence s) = true
          /\ shouldAutofix (safety s) = true
          /\ isApiSurface (safety s) = false))
  /\ (forall s : NamingSuggestion,
        isApiSurface (safety s) = true -> shouldAutoRename s = false)
  /\ shouldAutoRename scenarioB_suggestion = true
  /\ shouldAutoRename scenarioB_public = false.
Proof.
  split; [|split; [|split]].
  - intros s Hrange. unfold shouldAutoRename. split.
    + destruct (PrimFloat.ltb (confidence s) 0.85) eqn:Hlt; [discriminate|].
      destruct (shouldAutofix (safety s)); [|discriminate].
      destruct (isApiSurface (safety s)); [discriminate|].
      intros _. repeat split.
      apply float_not_lt_ge; [now apply confidenceInRange_number | reflexivity | exact Hlt].
    + intros (Hge & -> & ->). now rewrite (float_ge_not_lt _ _ Hge).
  - intros s Hapi. unfold shouldAutoRename. rewrite Hapi.
    destruct (PrimFloat.ltb (confidence s) 0.85); [reflexivity|].
    now destruct (shouldAutofix (safety s)).
  - reflexivity.
  - reflexivity.
Qed.

(** C3 at the suggestion of Scenario B. *)
Lemma shouldAutoRename_rule_witness :
  confidenceInRange (confidence scenarioB_suggestion) = true
  /\ isApiSurface (safety scenarioB_public) = true
  /\ (shouldAutoRename scenarioB_suggestion = true
      <-> PrimFloat.leb 0.85%float (confidence scenarioB_suggestion) = true
          /\ shouldAutofix (safety scenarioB_suggestion) = true
          /\ isApiSurface (safety scenarioB_suggestion) = false)
  /\ shouldAutoRename scenarioB_public = false.
Proof.
  destruct shouldAutoRename_rule as (Hiff & Hpublic & _).
  split; [reflexivity|]. split; [reflexivity|]. split.
  - exact (Hiff scenarioB_suggestion eq_refl).
  - exact (Hpublic scenarioB_public eq_refl).
Defined.

(** ** The suggestion client *)

Lemma breaksInvariant_invalid (s : NamingSuggestion) :
  breaksInvariant s -> isValidSuggestion s = false.
Proof.
  unfold breaksInvariant, isValidSuggestion. intros [H|[H|H]].
  - rewrite H, String.eqb_refl. reflexivity.
  - destruct (String.eqb (oldName s) (newName s)); [reflexivity|].
    destruct (PrimFloat.ltb (confidence s) 0.3); [reflexivity|].
    destruct (_ || _); [reflexivity|]. now rewrite H.
  - destruct (String.eqb (oldName s) (newName s)); [reflexivity|].
    destruct (PrimFloat.ltb (confidence s) 0.3); [reflexivity|].
    apply Nat.ltb_lt in H. rewrite H. now rewrite orb_true_r.
Qed.

Section Client.

Variable X : Services.
Variable config : LLMConfig.t.
Variable context : NamingContext.t.
Variable userPrompt : string.

Let cacheKey : string := getCacheKey X context.

(** How one attempt ends, and what it leaves. *)
Lemma attemptOnce_spec (st st' : ClientState) (out : Attempt) :
  attemptOnce X config context cacheKey userPrompt st = (out, st') ->
  requests st' = S (requests st)
  /\ sleeps st' = sleeps st
  /\ match out with
     | Returns (Some s) =>
         isValidSuggestion s = true
         /\ exists response text,
              chat_create X (requests st) config userPrompt = Ok response
              /\ content response = Some text
              /\ parseNamingSuggestion X text = Some s
              /\ responseCache st' =
                   <[cacheKey := CacheEntry.mk s (Date_now X (clockReads st)) CACHE_TTL]>
                     (responseCache st)
              /\ clockReads st' = S (clockReads st)
              /\ costStats st' = accountFor config response (costStats st)
     | Returns None =>
         (exists response text s,
            chat_create X (requests st) config userPrompt = Ok response
            /\ content response = Some text
            /\ parseNamingSuggestion X text = Some s
            /\ isValidSuggestion s = false)
         /\ responseCache st' = responseCache st
         /\ clockReads st' = clockReads st
         /\ costStats st' = costStats st
     | Throws _ =>
         responseCache st' = responseCache st
         /\ clockReads st' = clockReads st
         /\ costStats st' = costStats st
     end.
Proof.
  unfold attemptOnce, bind, createCompletion.
  destruct (chat_create X (requests st) config userPrompt) as [response|e] eqn:Hcreate.
  - destruct (content response) as [[|c text]|] eqn:Hcontent.
    + intros [= <- <-]. simpl. auto.
    + destruct (parseNamingSuggestion X (String c text)) as [s|] eqn:Hparse.
      * destruct (isValidSuggestion s) eqn:Hvalid; simpl.
        { destruct (usage response) as [u|] eqn:Husage; unfold setStats, ret; simpl;
            intros [= <- <-]; simpl;
            (split; [reflexivity|]); (split; [reflexivity|]);
            (split; [exact Hvalid|]); exists response, (String c text);
            repeat split; try assumption;
            unfold accountFor; rewrite Husage; reflexivity. }
        { intros [= <- <-]. simpl. repeat split.
          exists response, (String c text), s. repeat split; assumption. }
      * intros [= <- <-]. simpl. auto.
    + intros [= <- <-]. simpl. auto.
  - intros [= <- <-]. simpl. auto.
Qed.

(** A response that parses into a suggestion the validation rejects ends
    the attempt with the answer [null]. *)
Lemma attemptOnce_invalid (st : ClientState) (response : ChatCompletion)
    (text : string) (s : NamingSuggestion) :
  chat_create X (requests st) config userPrompt = Ok response ->
  content response = Some text -> text <> EmptyString ->
  parseNamingSuggestion X text = Some s ->
  isValidSuggestion s = false ->
  exists st',
    attemptOnce X config context cacheKey userPrompt st = (Returns None, st')
    /\ requests st' = S (requests st)
    /\ responseCache st' = responseCache st
    /\ costStats st' = costStats st
    /\ sleeps st' = sleeps st.
Proof.
  intros Hcreate Hcontent Htext Hparse Hvalid.
  unfold attemptOnce, bind, createCompletion.
  rewrite Hcreate, Hcontent.
  destruct text as [|c text]; [congruence|].
  rewrite Hparse, Hvalid. simpl. eexists. repeat split.
Qed.

(** What the retry loop leaves: an answer comes with exactly one accounted
    request and one cache entry, no answer leaves cache and statistics as
    they were. *)
Lemma retryLoop_spec (remaining : nat) (attempt : Z) (lastError : option string)
    (st st' : ClientState) (answer : option NamingSuggestion) :
  retryLoop X config context cacheKey userPrompt remaining attempt lastError st
    = (answer, st') ->
  (requests st <= requests st')%nat
  /\ ((0 < remaining)%nat -> (requests st < requests st')%nat)
  /\ clockReads st' = (clockReads st + match answer with Some _ => 1 | None => 0 end)%nat
  /\ match answer with
     | Some s =>
         isValidSuggestion s = true
         /\ exists response,
              (exists k, chat_create X k config userPrompt = Ok response)
              /\ costStats st' = accountFor config response (costStats st)
              /\ responseCache st' =
                   <[cacheKey := CacheEntry.mk s (Date_now X (clockReads st)) CACHE_TTL]>
                     (responseCache st)
     | None =>
         responseCache st' = responseCache st /\ costStats st' = costStats st
     end.
Proof.
  revert attempt lastError st.
  induction remaining as [|remaining IH]; intros attempt lastError st.
  - simpl. unfold bind, clientLogger, ret. intros [= <- <-]. simpl.
    repeat split; try lia.
  - cbn [retryLoop]. unfold bind at 1.
    destruct (attemptOnce X config context cacheKey userPrompt st)
      as [out st1] eqn:Hattempt.
    destruct (attemptOnce_spec _ _ _ Hattempt) as (Hreq & _ & Hout).
    destruct out as [[s|]|error].
    + unfold ret. intros [= <- <-].
      destruct Hout as (Hvalid & response & text & Hcreate & _ & _ & Hcache & Hclock & Hstats).
      repeat split; try lia; try assumption. exists response.
      split; [eexists; exact Hcreate | now split].
    + unfold ret. intros [= <- <-]. destruct Hout as (_ & Hcache & Hclock & Hstats).
      repeat split; try lia; assumption.
    + destruct Hout as (Hcache & Hclock & Hstats).
      unfold bind at 1. unfold clientLogger at 1. unfold bind at 1.
      destruct (attempt <? LLMConfig.maxRetries config); unfold sleep, ret;
        intros Hloop; specialize (IH _ _ _ Hloop); simpl in IH;
        destruct IH as (IH1 & _ & IH3 & IH4);
        (repeat split; try lia);
        (destruct answer as [s|];
         [ destruct IH4 as (Hvalid & response & Hk & Hs & Hc); split; [exact Hvalid|];
           exists response; rewrite Hs, Hc, Hclock, Hcache, Hstats;
           split; [exact Hk | now split]
         | destruct IH4 as [Hc Hs]; rewrite Hc, Hs; split; congruence ]).
Qed.

(** A parsed suggestion that the validation rejects ends the loop at once,
    whatever turn it is: no further request is made. *)
Lemma retryLoop_invalid (remaining : nat) (attempt : Z)
    (lastError : option string) (st : ClientState)
    (response : ChatCompletion) (text : string) (s : NamingSuggestion) :
  chat_create X (requests st) config userPrompt = Ok response ->
  content response = Some text -> text <> EmptyString ->
  parseNamingSuggestion X text = Some s ->
  isValidSuggestion s = false ->
  exists st',
    retryLoop X config context cacheKey userPrompt (S remaining) attempt
      lastError st = (None, st')
    /\ requests st' = S (requests st)
    /\ responseCache st' = responseCache st
    /\ costStats st' = costStats st
    /\ sleeps st' = sleeps st.
Proof.
  intros Hcreate Hcontent Htext Hparse Hvalid.
  destruct (attemptOnce_invalid st response text s Hcreate Hcontent Htext
              Hparse Hvalid) as (st' & Hattempt & H).
  exists st'. split; [|exact H].
  cbn [retryLoop]. unfold bind at 1. now rewrite Hattempt.
Qed.

End Client.

(** ** Cache lookups *)

Lemma getCachedResponse_spec (X : Services) (key : string) (st : ClientState) :
  getCachedResponse X key st =
    match responseCache st !! key with
    | None => (None, st)
    | Some entry =>
        if CacheEntry.ttl entry <? Date_now X (clockReads st) - CacheEntry.timestamp entry
        then (None, evict key st)
        else (Some (CacheEntry.suggestion entry), tickClock st)
    end.
Proof.
  unfold getCachedResponse. destruct (responseCache st !! key) as [entry|]; [|reflexivity].
  unfold bind, Date_now_. simpl.
  now destruct (CacheEntry.ttl entry <? _).
Qed.

(** ** Asking for a suggestion *)

Section Ask.

Variable X : Services.
Variable context : NamingContext.t.

Let cacheKey : string := getCacheKey X context.

Lemma askLLM_hit (config : LLMConfig.t) (st : ClientState) (entry : CacheEntry.t) :
  getLLMConfig X = Ok config ->
  responseCache st !! cacheKey = Some entry ->
  Date_now X (clockReads st) - CacheEntry.timestamp entry <= CacheEntry.ttl entry ->
  askLLM X context st = (Ok (Some (CacheEntry.suggestion entry)), tickClock st).
Proof.
  intros Hconfig Hentry Hlive. unfold askLLM. rewrite Hconfig. unfold bind.
  fold cacheKey. rewrite getCachedResponse_spec, Hentry.
  replace (CacheEntry.ttl entry <? _) with false
    by (symmetry; apply Z.ltb_ge; exact Hlive).
  reflexivity.
Qed.

(** After a lookup that found nothing live, the call is the retry loop. *)
Lemma askLLM_miss (config : LLMConfig.t) (st st0 : ClientState) (prompt : string) :
  getLLMConfig X = Ok config ->
  getCachedResponse X cacheKey st = (None, st0) ->
  buildUserPrompt X context = Ok prompt ->
  askLLM X context st =
    (Ok (retryLoop X config context cacheKey prompt
           (Z.to_nat (LLMConfig.maxRetries config + 1)) 0 None st0).1,
     (retryLoop X config context cacheKey prompt
        (Z.to_nat (LLMConfig.maxRetries config + 1)) 0 None st0).2).
Proof.
  intros Hconfig Hlookup Hprompt. unfold askLLM. rewrite Hconfig. unfold bind.
  fold cacheKey. rewrite Hlookup, Hprompt.
  now destruct (retryLoop _ _ _ _ _ _ _ _ st0).
Qed.

Lemma accountFor_apiCalls (config : LLMConfig.t) (response : ChatCompletion)
    (c : CostStats.t) :
  CostStats.apiCalls (accountFor config response c) = CostStats.apiCalls c + 1.
Proof. unfold accountFor. now destruct (usage response). Qed.

(** An answer of [askLLM] is in the cache when the call returns. *)
Lemma askLLM_answer_cached (st st1 : ClientState) (s : NamingSuggestion) :
  askLLM X context st = (Ok (Some s), st1) ->
  exists entry,
    responseCache st1 !! cacheKey = Some entry
    /\ CacheEntry.suggestion entry = s
    /\ ((requests st < requests st1)%nat -> CacheEntry.ttl entry = CACHE_TTL).
Proof.
  unfold askLLM. destruct (getLLMConfig X) as [config|e]; [|discriminate].
  unfold bind. fold cacheKey. rewrite getCachedResponse_spec.
  assert (Hloop : forall st0 prompt answer st',
            requests st0 = requests st ->
            retryLoop X config context cacheKey prompt
              (Z.to_nat (LLMConfig.maxRetries config + 1)) 0 None st0
              = (answer, st') ->
            (Ok answer, st') = (Ok (Some s), st1) ->
            exists entry,
              responseCache st1 !! cacheKey = Some entry
              /\ CacheEntry.suggestion entry = s
              /\ ((requests st < requests st1)%nat ->
                  CacheEntry.ttl entry = CACHE_TTL)).
  { intros st0 prompt answer st' Hreq Hrun [= -> ->].
    destruct (retryLoop_spec X config context prompt _ _ _ _ _ _ Hrun)
      as (_ & _ & _ & _ & response & _ & _ & Hcache).
    fold cacheKey in Hcache. eexists. split.
    - rewrite Hcache. apply lookup_insert_eq.
    - now split. }
  destruct (responseCache st !! cacheKey) as [entry|] eqn:Hentry.
  - destruct (CacheEntry.ttl entry <? _).
    + destruct (buildUserPrompt X context) as [prompt|e]; [|discriminate].
      destruct (retryLoop _ _ _ _ _ _ _ _ (evict cacheKey st))
        as [answer st'] eqn:Hrun.
      intros H. exact (Hloop (evict cacheKey st) _ _ _ eq_refl Hrun H).
    + unfold ret. intros [= <- <-]. exists entry. simpl.
      repeat split; [assumption|]. lia.
  - destruct (buildUserPrompt X context) as [prompt|e]; [|discriminate].
    destruct (retryLoop _ _ _ _ _ _ _ _ st) as [answer st'] eqn:Hrun.
    intros H. exact (Hloop st _ _ _ eq_refl Hrun H).
Qed.


End Ask.

(** ** Invalid suggestions *)

Section Discard.

Variable X : Services.
Variable context : NamingContext.t.

Let cacheKey : string := getCacheKey X context.

(** C7. A response that parses into a suggestion violating an invariant of
    the data model ([oldName] equal to [newName], [newName] not an
    identifier, or a rationale shorter than 10 characters) is discarded:
    [askLLM] (no live cache entry, the prompt can be built, [maxRetries]
    not negative) returns none after exactly one request, caches nothing
    and accounts nothing; and at whatever turn of the retry loop such a
    response arrives, the loop ends there with none, without another
    request. *)
Theorem askLLM_discards_invalid (config : LLMConfig.t) (st st0 : ClientState)
    (prompt text : string) (response : ChatCompletion) (s : NamingSuggestion) :
  getLLMConfig X = Ok config ->
  getCachedResponse X cacheKey st = (None, st0) ->
  buildUserPrompt X context = Ok prompt ->
  0 <= LLMConfig.maxRetries config ->
  content response = Some text -> text <> EmptyString ->
  parseNamingSuggestion X text = Some s ->
  breaksInvariant s ->
  (chat_create X (requests st) config prompt = Ok response ->
   exists st',
     askLLM X context st = (Ok None, st')
     /\ requests st' = S (requests st)
     /\ responseCache st' !! cacheKey = None
     /\ costStats st' = costStats st)
  /\ (forall remaining attempt lastError (stk : ClientState),
        chat_create X (requests stk) config prompt = Ok response ->
        exists st',
          retryLoop X config context cacheKey prompt (S remaining) attempt
            lastError stk = (None, st')
          /\ requests st' = S (requests stk)
          /\ responseCache st' = responseCache stk
          /\ costStats st' = costStats stk
          /\ sleeps st' = sleeps stk).
Proof.
  intros Hconfig Hlookup Hprompt Hretries Hcontent Htext Hparse Hbreaks.
  pose proof (breaksInvariant_invalid s Hbreaks) as Hinvalid.
  assert (Hloop : forall remaining attempt lastError (stk : ClientState),
            chat_create X (requests stk) config prompt = Ok response ->
            exists st',
              retryLoop X config context cacheKey prompt (S remaining) attempt
                lastError stk = (None, st')
              /\ requests st' = S (requests stk)
              /\ responseCache st' = responseCache stk
              /\ costStats st' = costStats stk
              /\ sleeps st' = sleeps stk).
  { intros remaining attempt lastError stk Hcreate.
    exact (retryLoop_invalid X config context prompt remaining attempt lastError
             stk response text s Hcreate Hcontent Htext Hparse Hinvalid). }
  split; [|exact Hloop].
  intros Hcreate.
  assert (Hst0 : requests st0 = requests st
                 /\ costStats st0 = costStats st
                 /\ responseCache st0 !! cacheKey = None).
  { rewrite getCachedResponse_spec in Hlookup.
    destruct (responseCache st !! cacheKey) as [entry|] eqn:Hentry.
    - destruct (CacheEntry.ttl entry <? _); [|discriminate].
      injection Hlookup as <-. simpl. repeat split. apply lookup_delete_eq.
    - injection Hlookup as <-. now repeat split. }
  destruct Hst0 as (Hreq0 & Hstats0 & Hcache0).
  unfold cacheKey in *.
  rewrite (askLLM_miss X context config st st0 prompt Hconfig Hlookup Hprompt).
  replace (Z.to_nat (LLMConfig.maxRetries config + 1))
    with (S (Z.to_nat (LLMConfig.maxRetries config))) by lia.
  rewrite <- Hreq0 in Hcreate.
  destruct (Hloop (Z.to_nat (LLMConfig.maxRetries config)) 0 None st0 Hcreate)
    as (st' & -> & Hreq & Hcache & Hstats & _).
  exists st'. simpl. repeat split; congruence.
Qed.

End Discard.

(** ** Collected suggestions *)

Lemma isValidSuggestion_confidence (s : NamingSuggestion) :
  PrimFloat.ltb (confidence s) 0.3%float = true -> isValidSuggestion s = false.
Proof.
  intros H. unfold isValidSuggestion. rewrite H.
  now destruct (String.eqb (oldName s) (newName s)).
Qed.

Section Collect.

Variable X : Services.

Lemma collectForReview_passed (contexts : list NamingContext.t)
    (suggestions result : list Collected) (st st' : ClientState) :
  Forall passedThreshold suggestions ->
  collectForReview X contexts suggestions st = (Ok result, st') ->
  Forall passedThreshold result.
Proof.
  revert suggestions st. induction contexts as [|context later IH];
    intros suggestions st Hacc.
  - simpl. unfold ret. now intros [= <- _].
  - cbn [collectForReview]. unfold bind.
    destruct (askLLM X context st) as [[[s|]|e] st1]; [| |discriminate].
    + destruct (PrimFloat.leb 0.3 (confidence s)) eqn:Hge.
      * apply IH. apply Forall_app. split; [exact Hacc|].
        constructor; [|constructor]. split; [exact Hge|].
        now apply float_ge_not_lt.
      * now apply IH.
    + now apply IH.
Qed.

Lemma collectForAutofix_passed (contexts : list NamingContext.t)
    (allSuggestions autofixSuggestions all auto : list Collected)
    (st st' : ClientState) :
  Forall passedThreshold allSuggestions ->
  Forall (fun c => In c allSuggestions /\ shouldAutoRename c.1 = true)
         autofixSuggestions ->
  collectForAutofix X contexts allSuggestions autofixSuggestions st
    = (Ok (all, auto), st') ->
  Forall passedThreshold all
  /\ Forall (fun c => In c all /\ shouldAutoRename c.1 = true) auto.
Proof.
  revert allSuggestions autofixSuggestions st.
  induction contexts as [|context later IH];
    intros allSuggestions autofixSuggestions st Hall Hauto.
  - simpl. unfold ret. intros [= <- <- _]. now split.
  - cbn [collectForAutofix]. unfold bind.
    destruct (askLLM X context st) as [[[s|]|e] st1]; [| |discriminate].
    + destruct (PrimFloat.leb 0.3 (confidence s)) eqn:Hge.
      * assert (Hall' : Forall passedThreshold (allSuggestions ++ [(s, context)])).
        { apply Forall_app. split; [exact Hall|].
          constructor; [|constructor]. split; [exact Hge|].
          now apply float_ge_not_lt. }
        assert (Hauto' : Forall (fun c => In c (allSuggestions ++ [(s, context)])
                                          /\ shouldAutoRename c.1 = true)
                                autofixSuggestions).
        { eapply Forall_impl; [exact Hauto|]. intros c [Hin Hgate].
          split; [|exact Hgate]. apply in_or_app. now left. }
        destruct (shouldAutoRename s) eqn:Hgate.
        { apply IH; [exact Hall'|]. apply Forall_app. split; [exact Hauto'|].
          constructor; [|constructor]. split; [|exact Hgate].
          apply in_or_app. right. now left. }
        { now apply IH. }
      * now apply IH.
    + now apply IH.
Qed.

(** C8. Every suggestion the review and the autofix drivers collect has a
    confidence of at least 0.3, so none has a confidence below 0.3; the
    suggestions collected for autofix are among those collected, which is
    where the safety gate is asked. The validation of the client rejects a
    confidence below 0.3 as well. *)
Theorem collected_pass_threshold (contexts : list NamingContext.t)
    (st : ClientState) :
  (forall suggestions st',
     collectForReview X contexts [] st = (Ok suggestions, st') ->
     Forall passedThreshold suggestions)
  /\ (forall all auto st',
        collectForAutofix X contexts [] [] st = (Ok (all, auto), st') ->
        Forall passedThreshold all
        /\ Forall passedThreshold auto
        /\ Forall (fun c => In c all /\ shouldAutoRename c.1 = true) auto)
  /\ (forall s : NamingSuggestion,
        PrimFloat.ltb (confidence s) 0.3%float = true ->
        isValidSuggestion s = false).
Proof.
  split; [|split].
  - intros suggestions st'. now apply collectForReview_passed.
  - intros all auto st' Hrun.
    destruct (collectForAutofix_passed contexts [] [] all auto st st'
                (List.Forall_nil _) (List.Forall_nil _) Hrun) as [Hall Hauto].
    split; [exact Hall|]. split; [|exact Hauto].
    rewrite Forall_forall in Hall, Hauto |- *.
    intros c Hc. apply Hall. apply list_elem_of_In. apply Hauto in Hc. tauto.
  - exact isValidSuggestion_confidence.
Qed.

End Collect.

(** ** Cost statistics *)

Lemma statsLe_refl (a : CostStats.t) : statsLe a a.
Proof. unfold statsLe. repeat split; try lia. apply Qle_refl. Qed.

Lemma inject_Z_nonneg (z : Z) : 0 <= z -> (0 <= inject_Z z)%Q.
Proof. intros H. unfold Qle. simpl. lia. Qed.

Lemma calculateCost_nonneg (model : string) (inputTokens outputTokens : Z) :
  0 <= inputTokens -> 0 <= outputTokens ->
  (0 <= calculateCost model inputTokens outputTokens)%Q.
Proof.
  intros Hin Hout. unfold calculateCost.
  assert (Hprice : forall p : Q * Q,
            (0 <= fst p)%Q -> (0 <= snd p)%Q ->
            (0 <= inject_Z inputTokens / inject_Z 1000000 * fst p
                  + inject_Z outputTokens / inject_Z 1000000 * snd p)%Q).
  { intros p H1 H2.
    assert (Hshare : forall z, 0 <= z -> (0 <= inject_Z z / inject_Z 1000000)%Q).
    { intros z Hz. apply Qle_shift_div_l; [reflexivity|].
      rewrite Qmult_0_l. now apply inject_Z_nonneg. }
    rewrite <- (Qplus_0_r 0). apply Qplus_le_compat;
      apply Qmult_le_0_compat; auto. }
  unfold MODEL_PRICING.
  repeat match goal with
         | |- context [if ?b then _ else _] => destruct b
         end; apply Hprice; simpl; unfold Qle; simpl; lia.
Qed.

Lemma accountFor_le (X : Services) (config : LLMConfig.t) (k : nat)
    (prompt : string) (response : ChatCompletion) (c : CostStats.t) :
  usageNonNegative X ->
  chat_create X k config prompt = Ok response ->
  statsLe c (accountFor config response c)
  /\ CostStats.cacheHitRate (accountFor config response c) = CostStats.cacheHitRate c.
Proof.
  intros Hnonneg Hcreate. unfold accountFor, statsLe.
  destruct (usage response) as [u|] eqn:Husage; simpl.
  - destruct (Hnonneg k config prompt response u Hcreate Husage) as (H1 & H2 & H3).
    repeat split; try lia.
    rewrite <- (Qplus_0_r (CostStats.estimatedCost c)) at 1.
    apply Qplus_le_compat; [apply Qle_refl|]. now apply calculateCost_nonneg.
  - repeat split; try lia. apply Qle_refl.
Qed.

Section Stats.

Variable X : Services.
Hypothesis tokens_nonneg : usageNonNegative X.

Lemma askLLM_stats (context : NamingContext.t) (st st' : ClientState)
    (answer : Result (option NamingSuggestion)) :
  askLLM X context st = (answer, st') ->
  statsLe (costStats st) (costStats st')
  /\ CostStats.cacheHitRate (costStats st') = CostStats.cacheHitRate (costStats st).
Proof using tokens_nonneg.
  unfold askLLM. destruct (getLLMConfig X) as [config|e].
  - unfold bind. rewrite getCachedResponse_spec.
    assert (Hloop : forall st0 prompt,
              costStats st0 = costStats st ->
              (let '(a, s') :=
                 retryLoop X config context (getCacheKey X context) prompt
                   (Z.to_nat (LLMConfig.maxRetries config + 1)) 0 None st0
               in ret (Ok a) s') = (answer, st') ->
              statsLe (costStats st) (costStats st')
              /\ CostStats.cacheHitRate (costStats st')
                 = CostStats.cacheHitRate (costStats st)).
    { intros st0 prompt Hsame.
      destruct (retryLoop _ _ _ _ _ _ _ _ st0) as [a s'] eqn:Hrun.
      unfold ret. intros [= <- <-].
      destruct (retryLoop_spec X config context prompt _ _ _ _ _ _ Hrun)
        as (_ & _ & _ & Hanswer).
      destruct a as [s|].
      - destruct Hanswer as (_ & response & [k Hk] & -> & _). rewrite Hsame.
        exact (accountFor_le X config k prompt response _ tokens_nonneg Hk).
      - destruct Hanswer as [_ ->]. rewrite Hsame. split; [apply statsLe_refl|reflexivity]. }
    destruct (responseCache st !! getCacheKey X context) as [entry|].
    + destruct (CacheEntry.ttl entry <? _).
      * destruct (buildUserPrompt X context) as [prompt|e].
        { apply Hloop. reflexivity. }
        { unfold ret. intros [= <- <-]. split; [apply statsLe_refl|reflexivity]. }
      * unfold ret. intros [= <- <-]. split; [apply statsLe_refl|reflexivity].
    + destruct (buildUserPrompt X context) as [prompt|e].
      * apply Hloop. reflexivity.
      * unfold ret. intros [= <- <-]. split; [apply statsLe_refl|reflexivity].
  - unfold ret. intros [= <- <-]. split; [apply statsLe_refl|reflexivity].
Qed.

(** C9, as amended. Between two resets, [totalTokens], [estimatedCost] and
    [apiCalls] are accumulated: no call of [askLLM], no cache lookup and no
    reading of the statistics makes one of them smaller, the service
    reporting token counts that are not negative. [cacheHitRate] is not
    accumulated: [askLLM] and the lookups leave it as it is, and every
    reading of the statistics sets it to the number of cache entries over
    [apiCalls] plus that number (0 when that sum is not positive). *)
Theorem costStats_accumulate (st : ClientState) :
  (forall context answer st',
     askLLM X context st = (answer, st') ->
     statsLe (costStats st) (costStats st')
     /\ CostStats.cacheHitRate (costStats st') = CostStats.cacheHitRate (costStats st))
  /\ (forall key found st',
        getCachedResponse X key st = (found, st') ->
        costStats st' = costStats st)
  /\ (forall stats st',
        getCostStats st = (stats, st') ->
        stats = costStats st'
        /\ statsLe (costStats st) stats
        /\ CostStats.cacheHitRate stats = hitRateOf st).
Proof using tokens_nonneg.
  split; [|split].
  - intros context answer st'. apply askLLM_stats.
  - intros key found st'. rewrite getCachedResponse_spec.
    destruct (responseCache st !! key) as [entry|].
    + destruct (CacheEntry.ttl entry <? _); now intros [= _ <-].
    + now intros [= _ <-].
  - intros stats st'. unfold getCostStats, bind, setStats. intros [= <- <-].
    simpl. split; [reflexivity|]. split; [|reflexivity].
    unfold statsLe. simpl. repeat split; try lia. apply Qle_refl.
Qed.

End Stats.

(** ** The client at work *)

Lemma echoServices_usage (tick : Z) : usageNonNegative (echoServices tick).
Proof.
  intros k config prompt response u Hcreate Husage.
  injection Hcreate as <-. injection Husage as <-. simpl. lia.
Defined.


(** C7 on Scenario E: the service proposes to rename temp to temp. *)
Lemma askLLM_discards_invalid_witness :
  parseNamingSuggestion (echoServices 1000) "temp" = Some scenarioE_suggestion
  /\ oldName scenarioE_suggestion = newName scenarioE_suggestion
  /\ exists st',
       askLLM (echoServices 1000) (contextOf "temp") initialClient = (Ok None, st')
       /\ requests st' = 1%nat
       /\ costStats st' = initialCostStats.
Proof.
  split; [reflexivity|]. split; [reflexivity|].
  destruct (askLLM_discards_invalid (echoServices 1000) (contextOf "temp")
              (LLMConfig.mk "key" "gpt-4o-mini" 1000 0.3%float 2)
              initialClient initialClient "temp" "temp"
              (mkChatCompletion (Some "temp") (Some (mkUsage 500 300 800)))
              scenarioE_suggestion)
    as [Hfirst _];
    [ reflexivity | reflexivity | reflexivity | simpl; lia | reflexivity | discriminate
    | reflexivity | left; reflexivity | ].
  destruct (Hfirst eq_refl) as (st' & Hrun & Hreq & _ & Hstats).
  exists st'. split; [exact Hrun|]. split; [exact Hreq | exact Hstats].
Defined.

(** C8 on the contexts of Scenario B and Scenario E. *)
Lemma collected_pass_threshold_witness :
  valueOf (collectForAutofix (echoServices 1000)
             [contextOf "data"; contextOf "temp"] [] []) initialClient
    = Ok ([(scenarioB_suggestion, contextOf "data")],
          [(scenarioB_suggestion, contextOf "data")])
  /\ Forall passedThreshold [(scenarioB_suggestion, contextOf "data")].
Proof.
  split; [vm_compute; reflexivity|].
  destruct (collected_pass_threshold (echoServices 1000)
              [contextOf "data"; contextOf "temp"] initialClient)
    as (_ & Hautofix & _).
  destruct (Hautofix [(scenarioB_suggestion, contextOf "data")]
              [(scenarioB_suggestion, contextOf "data")]
              (after (collectForAutofix (echoServices 1000)
                        [contextOf "data"; contextOf "temp"] [] []) initialClient))
    as (Hall & _); [vm_compute; reflexivity|].
  exact Hall.
Defined.

(** C9 on the first request of a fresh client. *)
Lemma costStats_accumulate_witness :
  usageNonNegative (echoServices 1000)
  /\ statsLe (costStats initialClient)
       (costStats (after (askLLM (echoServices 1000) (contextOf "data"))
                         initialClient)).
Proof.
  split; [exact (echoServices_usage 1000)|].
  destruct (costStats_accumulate (echoServices 1000) (echoServices_usage 1000)
              initialClient) as (Hask & _).
  exact (proj1 (Hask (contextOf "data") _ _ (surjective_pairing _))).
Defined.

(** C9 as stated fails for [cacheHitRate]. With a clock that advances by
    4000 seconds a reading: after a first answered call the statistics read
    a rate of 1/2; the second call for the same context finds its entry
    expired and asks the service again; the statistics then read 1/3. *)
Lemma cacheHitRate_counterexample :
  CostStats.cacheHitRate
    (valueOf getCostStats
       (after (askLLM (echoServices 4000000) (contextOf "data")) initialClient))
    = (1 # 2)%Q
  /\ CostStats.cacheHitRate
       (valueOf getCostStats
          (after (askLLM (echoServices 4000000) (contextOf "data"))
             (after getCostStats
                (after (askLLM (echoServices 4000000) (contextOf "data"))
                       initialClient))))
     = (1 # 3)%Q
  /\ (CostStats.cacheHitRate
        (valueOf getCostStats
           (after (askLLM (echoServices 4000000) (contextOf "data"))
              (after getCostStats
                 (after (askLLM (echoServices 4000000) (contextOf "data"))
                        initialClient))))
      < CostStats.cacheHitRate
          (valueOf getCostStats
             (after (askLLM (echoServices 4000000) (contextOf "data"))
                    initialClient)))%Q.
Proof. repeat split; vm_compute; reflexivity. Qed.

(** ** Giving up on a service that keeps failing *)

Section GivesUp.

Variable X : Services.
Variable config : LLMConfig.t.
Variable context : NamingContext.t.
Variable prompt : string.

Let cacheKey : string := getCacheKey X context.

Lemma attemptOnce_throws (st : ClientState) (e : JsError) :
  attemptError X config prompt (requests st) = Some e ->
  attemptOnce X config context cacheKey prompt st
    = (Throws e, mkClient (responseCache st) (costStats st) (S (requests st))
                          (clockReads st) (sleeps st) (clientLogs st)).
Proof.
  unfold attemptError, attemptOnce, bind, createCompletion, ret.
  destruct (chat_create X (requests st) config prompt) as [response|e'].
  - destruct (content response) as [[|c text]|].
    + now intros [= <-].
    + destruct (parseNamingSuggestion X (String c text)); [discriminate|].
      now intros [= <-].
    + now intros [= <-].
  - now intros [= <-].
Qed.

Lemma retryLoop_gives_up (remaining : nat) (attempt : Z)
    (lastError : option string) (st : ClientState) :
  attempt + Z.of_nat remaining = LLMConfig.maxRetries config + 1 ->
  (forall k, (requests st <= k)%nat -> attemptError X config prompt k <> None) ->
  exists st',
    retryLoop X config context cacheKey prompt remaining attempt lastError st
      = (None, st')
    /\ requests st' = (requests st + remaining)%nat
    /\ sleeps st' = sleeps st ++ backoffsFrom attempt (remaining - 1)
    /\ responseCache st' = responseCache st
    /\ costStats st' = costStats st.
Proof.
  revert attempt lastError st.
  induction remaining as [|remaining IH]; intros attempt lastError st Hturns Hfail.
  - simpl. unfold bind, clientLogger, ret. eexists. split; [reflexivity|].
    simpl. repeat split; [lia|now rewrite app_nil_r].
  - destruct (attemptError X config prompt (requests st)) as [e|] eqn:He;
      [|now destruct (Hfail (requests st) (le_n _))].
    cbn [retryLoop]. unfold bind at 1.
    rewrite (attemptOnce_throws st e He).
    unfold bind at 1. unfold clientLogger at 1. unfold bind at 1.
    destruct remaining as [|remaining].
    + replace (attempt <? LLMConfig.maxRetries config) with false
        by (symmetry; apply Z.ltb_ge; lia).
      simpl. unfold bind, clientLogger, ret. eexists. split; [reflexivity|].
      simpl. repeat split; [lia|now rewrite app_nil_r].
    + replace (attempt <? LLMConfig.maxRetries config) with true
        by (symmetry; apply Z.ltb_lt; lia).
      unfold sleep at 1.
      match goal with
      | |- context [retryLoop _ _ _ _ _ _ _ _ ?s] =>
          destruct (IH (attempt + 1) (Some (message e)) s) as
            (st' & Hrun & Hreq & Hsleeps & Hcache & Hstats)
      end.
      * lia.
      * intros k Hk. apply Hfail. simpl in Hk. lia.
      * exists st'. split; [exact Hrun|]. simpl in *.
        rewrite Hreq, Hsleeps, Hcache, Hstats, Nat.sub_0_r.
        repeat split; [lia|]. now rewrite <- app_assoc.
Qed.

End GivesUp.

(** X1. When every request fails (the service throws, answers with an
    empty text or with a text that is not a suggestion), [askLLM] gives up
    after [maxRetries + 1] requests, having paused 1, 2, 4, ... seconds
    between them ([maxRetries] pauses, none after the last attempt), and
    returns none with cache and statistics as the lookup left them. With a
    negative [maxRetries] it makes no request at all. *)
Theorem askLLM_gives_up (X : Services) (context : NamingContext.t)
    (config : LLMConfig.t) (st st0 : ClientState) (prompt : string) :
  getLLMConfig X = Ok config ->
  getCachedResponse X (getCacheKey X context) st = (None, st0) ->
  buildUserPrompt X context = Ok prompt ->
  (forall k, (requests st <= k)%nat -> attemptError X config prompt k <> None) ->
  exists st',
    askLLM X context st = (Ok None, st')
    /\ requests st' = (requests st + Z.to_nat (LLMConfig.maxRetries config + 1))%nat
    /\ sleeps st' = sleeps st ++ backoffsFrom 0 (Z.to_nat (LLMConfig.maxRetries config))
    /\ responseCache st' = responseCache st0
    /\ costStats st' = costStats st.
Proof.
  intros Hconfig Hlookup Hprompt Hfail.
  rewrite (askLLM_miss X context config st st0 prompt Hconfig Hlookup Hprompt).
  assert (Hst0 : requests st0 = requests st /\ sleeps st0 = sleeps st
                 /\ costStats st0 = costStats st).
  { rewrite getCachedResponse_spec in Hlookup.
    destruct (responseCache st !! getCacheKey X context) as [entry|].
    - destruct (CacheEntry.ttl entry <? _); [|discriminate].
      now injection Hlookup as <-.
    - now injection Hlookup as <-. }
  destruct Hst0 as (Hreq0 & Hsleeps0 & Hstats0).
  destruct (Z.le_gt_cases 0 (LLMConfig.maxRetries config)) as [Hretries|Hnone].
  - destruct (retryLoop_gives_up X config context prompt
                (Z.to_nat (LLMConfig.maxRetries config + 1)) 0 None st0)
      as (st' & Hrun & Hreq & Hsleeps & Hcache & Hstats).
    + lia.
    + intros k Hk. apply Hfail. lia.
    + rewrite Hrun. exists st'. simpl. split; [reflexivity|].
      rewrite Hreq, Hsleeps, Hcache, Hstats, Hreq0, Hsleeps0, Hstats0.
      repeat split.
      replace (Z.to_nat (LLMConfig.maxRetries config + 1) - 1)%nat
        with (Z.to_nat (LLMConfig.maxRetries config)) by lia.
      reflexivity.
  - replace (Z.to_nat (LLMConfig.maxRetries config + 1)) with 0%nat by lia.
    replace (Z.to_nat (LLMConfig.maxRetries config)) with 0%nat by lia.
    simpl. unfold bind, clientLogger, ret. simpl. eexists. split; [reflexivity|].
    simpl. rewrite Hreq0, Hsleeps0, Hstats0, app_nil_r.
    repeat split. lia.
Qed.

(** X1 on a service that is down, with two retries: three requests, pauses
    of one and two seconds. *)
Lemma askLLM_gives_up_witness :
  exists st',
    askLLM downServices (contextOf "data") initialClient = (Ok None, st')
    /\ requests st' = 3%nat
    /\ sleeps st' = [1000; 2000].
Proof.
  destruct (askLLM_gives_up downServices (contextOf "data")
              (LLMConfig.mk "key" "gpt-4o-mini" 1000 0.3%float 2)
              initialClient initialClient "data")
    as (st' & Hrun & Hreq & Hsleeps & _).
  - reflexivity.
  - reflexivity.
  - reflexivity.
  - intros k _. discriminate.
  - exists st'. split; [exact Hrun|]. split; [exact Hreq|exact Hsleeps].
Defined.

(** ** What the cache key leaves out *)

(** X2. The cache key is made of the file, the old name and the
    declaration only. Once [askLLM] has answered for a context, a context
    with the same three texts - whatever its language, usages, neighbours,
    scopes, type information (present or not), pull-request title and body
    and line number - is answered from the cache while the entry is live:
    the same suggestion, no request, only the clock read. *)
Theorem askLLM_shares_key (X : Services) (first second : NamingContext.t)
    (st st1 : ClientState) (s : NamingSuggestion) :
  cacheKeyText second = cacheKeyText first ->
  askLLM X first st = (Ok (Some s), st1) ->
  exists entry,
    responseCache st1 !! getCacheKey X first = Some entry
    /\ (Date_now X (clockReads st1) - CacheEntry.timestamp entry
          <= CacheEntry.ttl entry ->
        askLLM X second st1 = (Ok (Some s), tickClock st1)).
Proof.
  intros Htext Hfirst.
  assert (Hkey : getCacheKey X second = getCacheKey X first).
  { unfold getCacheKey. unfold cacheKeyText in Htext. now rewrite Htext. }
  destruct (askLLM_answer_cached X first st st1 s Hfirst) as (entry & Hentry & <- & _).
  exists entry. split; [exact Hentry|]. intros Hlive.
  assert (Hconfig : exists config, getLLMConfig X = Ok config).
  { unfold askLLM in Hfirst. destruct (getLLMConfig X) as [config|e]; [|discriminate].
    now exists config. }
  destruct Hconfig as [config Hconfig].
  apply (askLLM_hit X second config st1 entry Hconfig); [|exact Hlive].
  now rewrite Hkey.
Qed.

(** X2 at work: the answer for the TypeScript context of Scenario B is
    served to a context built by another pass, which has no type
    information (a miss would throw while building its prompt). *)
Lemma askLLM_shares_key_witness :
  buildUserPrompt (echoServices 1000) (contextElsewhere "data")
    = Throw (mkError "TypeError" "Cannot convert undefined or null to object")
  /\ exists st2,
       askLLM (echoServices 1000) (contextElsewhere "data")
         (after (askLLM (echoServices 1000) (contextOf "data")) initialClient)
         = (Ok (Some scenarioB_suggestion), st2)
       /\ requests st2 = 1%nat.
Proof.
  split; [reflexivity|].
  destruct (askLLM_shares_key (echoServices 1000) (contextOf "data")
              (contextElsewhere "data") initialClient
              (after (askLLM (echoServices 1000) (contextOf "data")) initialClient)
              scenarioB_suggestion)
    as (entry & Hentry & Hlive).
  - reflexivity.
  - vm_compute. reflexivity.
  - assert (Hconcrete :
              responseCache
                (after (askLLM (echoServices 1000) (contextOf "data")) initialClient)
                !! getCacheKey (echoServices 1000) (contextOf "data")
              = Some (CacheEntry.mk scenarioB_suggestion 0 CACHE_TTL))
      by (vm_compute; reflexivity).
    rewrite Hconcrete in Hentry. injection Hentry as <-.
    eexists. split.
    + apply Hlive. vm_compute. discriminate.
    + vm_compute. reflexivity.
Defined.

(** ** What the module's variables satisfy after any calls *)

Lemma entryWellFormed_later (X : Services) (st st' : ClientState)
    (entry : CacheEntry.t) :
  (clockReads st <= clockReads st')%nat ->
  entryWellFormed X st entry -> entryWellFormed X st' entry.
Proof.
  intros Hclock (Hvalid & Httl & reading & Hread & Htime).
  repeat split; try assumption. exists reading. split; [lia|assumption].
Qed.

Lemma clientInvariant_initial (X : Services) : clientInvariant X initialClient.
Proof.
  split.
  - intros key entry. simpl. now rewrite lookup_empty.
  - simpl. lia.
Qed.

Lemma clientInvariant_lookup (X : Services) (key : string)
    (st st0 : ClientState) (found : option NamingSuggestion) :
  clientInvariant X st ->
  getCachedResponse X key st = (found, st0) ->
  clientInvariant X st0
  /\ match found with
     | Some s => isValidSuggestion s = true
     | None => True
     end.
Proof.
  intros [Hcache Hcalls]. rewrite getCachedResponse_spec.
  destruct (responseCache st !! key) as [entry|] eqn:Hentry.
  - destruct (CacheEntry.ttl entry <? _); intros [= <- <-].
    + split; [|exact I]. split; [|exact Hcalls].
      intros key' entry'. simpl. intros Hin.
      apply lookup_delete_Some in Hin as [_ Hin].
      apply (entryWellFormed_later X st); [simpl; lia|]. now apply (Hcache key').
    + split; [|now destruct (Hcache key entry Hentry)].
      split; [|exact Hcalls].
      intros key' entry' Hin. simpl in Hin.
      apply (entryWellFormed_later X st); [simpl; lia|]. now apply (Hcache key').
  - intros [= <- <-]. now split.
Qed.

Lemma clientInvariant_retryLoop (X : Services) (config : LLMConfig.t)
    (context : NamingContext.t) (prompt : string) (remaining : nat)
    (st0 st' : ClientState) (answer : option NamingSuggestion) :
  clientInvariant X st0 ->
  retryLoop X config context (getCacheKey X context) prompt remaining 0 None st0
    = (answer, st') ->
  clientInvariant X st'.
Proof.
  intros [Hcache Hcalls] Hrun.
  destruct (retryLoop_spec X config context prompt _ _ _ _ _ _ Hrun)
    as (Hreq & Hprogress & Hclock & Hanswer).
  destruct answer as [s|].
  - destruct Hanswer as (Hvalid & response & _ & Hstats & Hnew).
    assert (Hturn : (requests st0 < requests st')%nat).
    { apply Hprogress. destruct remaining; [|lia].
      simpl in Hrun. unfold bind, clientLogger, ret in Hrun. discriminate. }
    split.
    + intros key entry. rewrite Hnew. intros Hin.
      apply lookup_insert_Some in Hin as [[_ <-]|[_ Hin]].
      * repeat split; [exact Hvalid|]. exists (clockReads st0).
        split; [lia|reflexivity].
      * apply (entryWellFormed_later X st0); [lia|]. now apply (Hcache key).
    + rewrite Hstats, accountFor_apiCalls. lia.
  - destruct Hanswer as [Hsame Hstats]. split.
    + intros key entry. rewrite Hsame. intros Hin.
      apply (entryWellFormed_later X st0); [lia|]. now apply (Hcache key).
    + rewrite Hstats. lia.
Qed.

Lemma clientInvariant_askLLM (X : Services) (context : NamingContext.t)
    (st st' : ClientState) (answer : Result (option NamingSuggestion)) :
  clientInvariant X st ->
  askLLM X context st = (answer, st') ->
  clientInvariant X st'.
Proof.
  intros Hinv. unfold askLLM.
  destruct (getLLMConfig X) as [config|e]; [|now intros [= _ <-]].
  unfold bind.
  destruct (getCachedResponse X (getCacheKey X context) st) as [found st0] eqn:Hlookup.
  destruct (clientInvariant_lookup X _ st st0 found Hinv Hlookup) as [Hinv0 _].
  destruct found as [s|]; [now intros [= _ <-]|].
  destruct (buildUserPrompt X context) as [prompt|e]; [|now intros [= _ <-]].
  destruct (retryLoop _ _ _ _ _ _ _ _ st0) as [loopAnswer st1] eqn:Hrun.
  intros [= _ <-].
  exact (clientInvariant_retryLoop X config context prompt _ st0 st1 loopAnswer
           Hinv0 Hrun).
Qed.

Lemma clientInvariant_afterCall (X : Services) (st : ClientState) (c : ClientCall) :
  clientInvariant X st -> clientInvariant X (afterCall X st c).
Proof.
  intros Hinv. destruct c as [context| | |]; simpl.
  - destruct (askLLM X context st) as [answer st'] eqn:Hrun.
    exact (clientInvariant_askLLM X context st st' answer Hinv Hrun).
  - destruct Hinv as [Hcache Hcalls]. split; [|exact Hcalls].
    intros key entry Hin. exact (Hcache key entry Hin).
  - destruct Hinv as [Hcache _]. split; [|simpl; lia].
    intros key entry Hin. exact (Hcache key entry Hin).
  - destruct Hinv as [_ Hcalls]. split; [|exact Hcalls].
    intros key entry. simpl. now rewrite lookup_empty.
Qed.

Lemma clientInvariant_afterCalls (X : Services) (calls : list ClientCall) :
  clientInvariant X (afterCalls X calls).
Proof.
  unfold afterCalls.
  assert (Hfrom : forall st, clientInvariant X st ->
                             clientInvariant X (fold_left (afterCall X) calls st)).
  { induction calls as [|c calls IH]; intros st Hinv; [exact Hinv|].
    simpl. apply IH. now apply clientInvariant_afterCall. }
  apply Hfrom, clientInvariant_initial.
Qed.

Lemma isValidSuggestion_inv (s : NamingSuggestion) :
  isValidSuggestion s = true ->
  oldName s <> newName s
  /\ PrimFloat.ltb (confidence s) 0.3%float = false
  /\ (10 <= String.length (rationale s))%nat
  /\ validIdentifier (newName s) = true.
Proof.
  unfold isValidSuggestion.
  destruct (String.eqb_spec (oldName s) (newName s)) as [|Hnames]; [discriminate|].
  destruct (PrimFloat.ltb (confidence s) 0.3); [discriminate|].
  destruct (String.eqb (rationale s) EmptyString); [discriminate|]. simpl.
  destruct (Nat.ltb_spec (String.length (rationale s)) 10); [discriminate|].
  destruct (validIdentifier (newName s)); [|discriminate].
  intros _. repeat split; assumption.
Qed.

(** X3. Whatever calls of the module's functions were made since it was
    loaded, a suggestion that [askLLM] returns - fresh from the service or
    out of the cache - passes [isValidSuggestion]: its names differ, its
    confidence is not below 0.3, its rationale has at least 10 code units
    and its new name is an identifier. The cache never holds anything
    else. *)
Theorem askLLM_answers_valid (X : Services) (calls : list ClientCall)
    (context : NamingContext.t) (s : NamingSuggestion) (st' : ClientState) :
  askLLM X context (afterCalls X calls) = (Ok (Some s), st') ->
  isValidSuggestion s = true
  /\ oldName s <> newName s
  /\ PrimFloat.ltb (confidence s) 0.3%float = false
  /\ (10 <= String.length (rationale s))%nat
  /\ validIdentifier (newName s) = true.
Proof.
  intros Hrun.
  pose proof (clientInvariant_askLLM X context _ st' _
                (clientInvariant_afterCalls X calls) Hrun) as [Hcache _].
  destruct (askLLM_answer_cached X context _ st' s Hrun) as (entry & Hentry & <- & _).
  destruct (Hcache _ entry Hentry) as (Hvalid & _).
  split; [exact Hvalid|]. now apply isValidSuggestion_inv.
Qed.

(** X3 on the answer that the second of two calls for the context of
    Scenario B takes from the cache. *)
Lemma askLLM_answers_valid_witness :
  isValidSuggestion scenarioB_suggestion = true
  /\ oldName scenarioB_suggestion <> newName scenarioB_suggestion.
Proof.
  destruct (askLLM_answers_valid (echoServices 1000)
              [CallAskLLM (contextOf "data"); CallGetCostStats]
              (contextOf "data") scenarioB_suggestion
              (tickClock (afterCalls (echoServices 1000)
                            [CallAskLLM (contextOf "data"); CallGetCostStats])))
    as (Hvalid & Hnames & _).
  - vm_compute. reflexivity.
  - split; [exact Hvalid|exact Hnames].
Defined.

(** ** What the statistics report *)

Lemma hitRate_range (calls size : Z) :
  0 <= calls -> 0 <= size ->
  let rate := if 0 <? calls + size
              then (inject_Z size / inject_Z (calls + size))%Q else 0%Q in
  (0 <= rate)%Q /\ (rate <= 1)%Q
  /\ ((rate == 0)%Q <-> size = 0)
  /\ ((rate == 1)%Q <-> calls = 0 /\ 0 < size).
Proof.
  intros Hcalls Hsize. simpl.
  destruct (Z.ltb_spec 0 (calls + size)) as [Hpos|Hzero].
  - destruct (calls + size) as [|total|total] eqn:Htotal; try lia.
    unfold Qdiv, Qinv, Qmult, Qle, Qeq, inject_Z. simpl.
    rewrite !Z.mul_1_r. repeat split; try lia.
  - unfold Qle, Qeq. simpl. repeat split; try lia.
Qed.

(** X4. Whatever calls were made since the module was loaded, [apiCalls]
    lies between 0 and the number of requests sent, and the [cacheHitRate]
    that [getCostStats] reports is the share of cache entries in entries
    plus [apiCalls]: a number between 0 and 1 that is 0 exactly when the
    cache is empty and 1 exactly when the cache is not empty and [apiCalls]
    is 0 (as after a reset), whether or not any call was answered from the
    cache. *)
Theorem getCostStats_reports (X : Services) (calls : list ClientCall) :
  let st := afterCalls X calls in
  let stats := (getCostStats st).1 in
  0 <= CostStats.apiCalls stats <= Z.of_nat (requests st)
  /\ (0 <= CostStats.cacheHitRate stats)%Q
  /\ (CostStats.cacheHitRate stats <= 1)%Q
  /\ ((CostStats.cacheHitRate stats == 0)%Q <-> responseCache st = ∅)
  /\ ((CostStats.cacheHitRate stats == 1)%Q
      <-> CostStats.apiCalls stats = 0 /\ responseCache st <> ∅).
Proof.
  intros st stats.
  destruct (clientInvariant_afterCalls X calls) as [_ Hcalls]. fold st in Hcalls.
  assert (Hsize : 0 <= Z.of_nat (size (responseCache st))) by lia.
  destruct (hitRate_range (CostStats.apiCalls (costStats st))
              (Z.of_nat (size (responseCache st))) (proj1 Hcalls) Hsize)
    as (Hlow & Hhigh & Hnone & Hall).
  subst stats. unfold getCostStats, bind, setStats. simpl.
  split; [exact Hcalls|]. split; [exact Hlow|]. split; [exact Hhigh|].
  split.
  - rewrite Hnone. rewrite <- (map_size_empty_iff (responseCache st)). lia.
  - rewrite Hall.
    assert (Hiff : 0 < Z.of_nat (size (responseCache st)) <-> responseCache st <> ∅).
    { rewrite <- (map_size_empty_iff (responseCache st)). lia. }
    now rewrite Hiff.
Qed.

(** ** The rename transaction when it succeeds *)

Lemma rollbackAfterError_fails (b f : string) (s : NamingSuggestion)
    (e : JsError) (w w' : World) (r : RenameResult.t) :
  rollbackAfterError b f s e w = (r, w') -> RenameResult.success r = false.
Proof.
  unfold rollbackAfterError, bind, ret.
  destruct (restoreBackup b f w) as [[[]|e'] w1].
  - now intros [= <- _].
  - unfold logger. now intros [= <- _].
Qed.

(** X5. A call of [performSafeRename] that reports success made the
    backup, got this very outcome from the backend of the language, saw
    the verification pass and deleted the backup: when it returns there is
    no file at [filePath.backup] - a file that was there before the call
    has been overwritten and deleted. *)
Theorem performSafeRename_success (T : Tools) (filePath : string)
    (suggestion : NamingSuggestion) (language : LanguageType)
    (lineNumber : Z) (projectRoot : string) (w w' : World) (r : RenameResult.t) :
  performSafeRename T filePath suggestion language lineNumber projectRoot w
    = (r, w') ->
  RenameResult.success r = true ->
  files (fs w') !! backupPathOf filePath = None
  /\ exists w1 w2 w3,
       copyFile filePath (backupPathOf filePath) w = (Ok tt, w1)
       /\ dispatchRename T filePath suggestion language lineNumber projectRoot w1
            = (r, w2)
       /\ dispatchVerify T filePath language projectRoot w2 = (true, w3)
       /\ unlink (backupPathOf filePath) w3 = (Ok tt, w').
Proof.
  unfold performSafeRename. cbv zeta. unfold bind at 1.
  destruct (copyFile filePath (backupPathOf filePath) w) as [[[]|e] w1] eqn:Hcopy.
  - unfold bind at 1.
    destruct (dispatchRename T filePath suggestion language lineNumber projectRoot w1)
      as [result w2] eqn:Hrename.
    destruct (RenameResult.success result) eqn:Hdone; simpl.
    + unfold bind at 1.
      destruct (dispatchVerify T filePath language projectRoot w2)
        as [[] w3] eqn:Hverify; simpl.
      * unfold bind at 1.
        destruct (unlink (backupPathOf filePath) w3) as [[[]|e] w4] eqn:Hunlink.
        { unfold ret. intros [= <- <-] _. split.
          - unfold unlink, liftFS in Hunlink.
            destruct (fs_unlink (backupPathOf filePath) (fs w3)) as [res s] eqn:Hfs.
            injection Hunlink as -> <-. simpl.
            exact (fs_unlink_ok _ _ _ Hfs).
          - now exists w1, w2, w3. }
        { intros Hrun Htrue.
          rewrite (rollbackAfterError_fails _ _ _ _ _ _ _ Hrun) in Htrue.
          discriminate. }
      * unfold bind at 1, logger at 1. unfold bind at 1.
        destruct (restoreBackup _ _ _) as [[[]|e] w4].
        { unfold ret. intros [= <- _]. discriminate. }
        { intros Hrun Htrue.
          rewrite (rollbackAfterError_fails _ _ _ _ _ _ _ Hrun) in Htrue.
          discriminate. }
    + unfold bind at 1.
      destruct (restoreBackup _ _ _) as [[[]|e] w4].
      * unfold ret. intros [= <- _]. congruence.
      * intros Hrun Htrue.
        rewrite (rollbackAfterError_fails _ _ _ _ _ _ _ Hrun) in Htrue.
        discriminate.
  - unfold bind, logger, ret. intros [= <- _]. discriminate.
Qed.

(** X5 on a working tree that holds app.py and a file app.py.backup kept
    by hand: after the rename of data the latter is gone. *)
Lemma performSafeRename_success_witness :
  files (fs (worldWithBackup "app.py" scenarioC_before)) !! "app.py.backup"
    = Some "kept by hand"
  /\ files (fs (performSafeRename checkingTools "app.py" scenarioB_suggestion
                  python 1 "." (worldWithBackup "app.py" scenarioC_before)).2)
       !! "app.py.backup" = None.
Proof.
  split; [vm_compute; reflexivity|].
  destruct (performSafeRename_success checkingTools "app.py" scenarioB_suggestion
              python 1 "." (worldWithBackup "app.py" scenarioC_before)
              (performSafeRename checkingTools "app.py" scenarioB_suggestion
                 python 1 "." (worldWithBackup "app.py" scenarioC_before)).2
              (performSafeRename checkingTools "app.py" scenarioB_suggestion
                 python 1 "." (worldWithBackup "app.py" scenarioC_before)).1)
    as [Hgone _].
  - now destruct (performSafeRename _ _ _ _ _ _ _).
  - vm_compute. reflexivity.
  - exact Hgone.
Defined.

(** ** The line the Go renamer is given *)

Lemma indexOf_includes (s sub : string) :
  (Str.indexOf s sub + 1 =? 0) = false -> Str.includes s sub = true.
Proof.
  induction s as [|c rest IH]; cbn [Str.indexOf Str.includes].
  - destruct (String.prefix sub EmptyString); [reflexivity|discriminate].
  - destruct (String.prefix sub (String c rest)); [reflexivity|]. cbv zeta.
    rewrite orb_false_l.
    destruct (Z.ltb_spec (Str.indexOf rest sub) 0) as [Hneg|Hpos];
      [discriminate|].
    intros _. apply IH. apply Z.eqb_neq. lia.
Qed.

Lemma caught_fails {A : Type} (level : LogLevel) (msg : string)
    (failure : RenameResult.t) (w w' : World) (r : RenameResult.t) :
  (run logger level msg in ret failure) w = (r, w') ->
  RenameResult.success failure = false ->
  RenameResult.success r = false.
Proof. unfold bind, logger, ret. now intros [= <- _]. Qed.

(** X6. With gopls installed, [renameGoSymbol] reports success only if
    the file could be read, [lineNumber] is one of its lines (counted from
    1) and that line contains the old name; gopls is then asked to rename
    at the column of the first place where the old name occurs in the line
    as a substring, whole word or not. *)
Theorem renameGoSymbol_checks_line (T : Tools)
    (filePath oldName newName : string) (lineNumber : Z) (projectRoot : string)
    (w w1 w' : World) (out : ExecOutput) (r : RenameResult.t) :
  execAsync T GoplsProbe w = (Ok out, w1) ->
  renameGoSymbol T filePath oldName newName lineNumber projectRoot w = (r, w') ->
  RenameResult.success r = true ->
  exists content line w2 renamed w3,
    readFile filePath w1 = (Ok content, w2)
    /\ 1 <= lineNumber <= Z.of_nat (length (Str.split "010" content))
    /\ Str.split "010" content !! Z.to_nat (lineNumber - 1) = Some line
    /\ Str.includes line oldName = true
    /\ execAsync T (GoplsRename projectRoot filePath lineNumber
                      (Str.indexOf line oldName + 1) newName) w2
         = (Ok renamed, w3).
Proof.
  intros Hprobe. unfold renameGoSymbol. cbv zeta. unfold bind at 1.
  rewrite Hprobe. unfold bind at 1.
  destruct (readFile filePath w1) as [[content|e] w2] eqn:Hread.
  2: { intros Hrun Htrue.
       now rewrite (caught_fails (A:=unit) _ _ _ _ _ _ Hrun eq_refl) in Htrue. }
  destruct (Z.ltb_spec (Z.of_nat (length (Str.split "010" content))) lineNumber)
    as [Hlong|Hshort].
  { intros Hrun Htrue.
    now rewrite (caught_fails (A:=unit) _ _ _ _ _ _ Hrun eq_refl) in Htrue. }
  destruct (Z.leb_spec lineNumber 0) as [Hlow|Hhigh].
  { intros Hrun Htrue.
    now rewrite (caught_fails (A:=unit) _ _ _ _ _ _ Hrun eq_refl) in Htrue. }
  destruct (Str.split "010" content !! Z.to_nat (lineNumber - 1)) as [line|] eqn:Hline.
  2: { intros Hrun Htrue.
       now rewrite (caught_fails (A:=unit) _ _ _ _ _ _ Hrun eq_refl) in Htrue. }
  destruct (Str.indexOf line oldName + 1 =? 0) eqn:Hcolumn.
  { intros Hrun Htrue.
    now rewrite (caught_fails (A:=unit) _ _ _ _ _ _ Hrun eq_refl) in Htrue. }
  unfold bind at 1.
  destruct (execAsync T (GoplsRename projectRoot filePath lineNumber
                           (Str.indexOf line oldName + 1) newName) w2)
    as [[renamed|e] w3] eqn:Hrename.
  2: { intros Hrun Htrue.
       now rewrite (caught_fails (A:=unit) _ _ _ _ _ _ Hrun eq_refl) in Htrue. }
  intros _ _. exists content, line, w2, renamed, w3.
  split; [reflexivity|]. split; [lia|]. split; [exact Hline|].
  split; [now apply indexOf_includes|exact Hrename].
Qed.

(** X6 on a Go file whose second line declares data. *)
Lemma renameGoSymbol_checks_line_witness :
  RenameResult.success
    (renameGoSymbol goplsTools "main.go" "data" "userProfile" 2 "."
       (worldWith "main.go" goSource)).1 = true
  /\ exists line,
       Str.split "010" goSource !! 1%nat = Some line
       /\ Str.includes line "data" = true.
Proof.
  split; [vm_compute; reflexivity|].
  destruct (renameGoSymbol_checks_line goplsTools "main.go" "data" "userProfile"
              2 "." (worldWith "main.go" goSource) (worldWith "main.go" goSource)
              (renameGoSymbol goplsTools "main.go" "data" "userProfile" 2 "."
                 (worldWith "main.go" goSource)).2
              (mkExecOutput EmptyString EmptyString)
              (renameGoSymbol goplsTools "main.go" "data" "userProfile" 2 "."
                 (worldWith "main.go" goSource)).1)
    as (content & line & w2 & renamed & w3 & Hread & _ & Hline & Hincludes & _).
  - reflexivity.
  - now destruct (renameGoSymbol _ _ _ _ _ _ _).
  - vm_compute. reflexivity.
  - vm_compute in Hread. injection Hread as <- _.
    exists line. split; [exact Hline|exact Hincludes].
Defined.

(** ** The fallback renamers leave no old name behind *)

Lemma boundary_run (name s : string) :
  forallb Str.isWordChar (list_ascii_of_string name) = true ->
  String.prefix name s
  && negb (WordRegex.isWordAt (String.get (String.length name) s))
  = String.eqb (wordRun s) name.
Proof.
  revert s. induction name as [|a name IH]; intros s Hword.
  - rewrite prefix_empty. destruct s as [|c rest]; simpl; [reflexivity|].
    now destruct (Str.isWordChar c).
  - simpl in Hword. apply andb_prop in Hword as [Ha Hword].
    destruct s as [|c rest]; simpl; [reflexivity|].
    destruct (ascii_dec a c) as [<-|Hother].
    + rewrite Ha. simpl. rewrite Ascii.eqb_refl. now apply IH.
    + destruct (Str.isWordChar c); simpl; [|reflexivity].
      destruct (Ascii.eqb_spec c a) as [->|_]; [contradiction|reflexivity].
Qed.

Lemma wordRun_app (pre s : string) :
  forallb Str.isWordChar (list_ascii_of_string pre) = true ->
  wordRun (pre +:+ s) = pre +:+ wordRun s.
Proof.
  induction pre as [|c pre IH]; simpl; [reflexivity|].
  intros H. apply andb_prop in H as [-> H]. now rewrite IH.
Qed.

Lemma wordRun_dropped (s : string) :
  wordRun (dropUnits (String.length (wordRun s)) s) = EmptyString.
Proof.
  induction s as [|c rest IH]; simpl; [reflexivity|].
  destruct (Str.isWordChar c) eqn:Hc; simpl; [exact IH|now rewrite Hc].
Qed.

Lemma append_empty_r (s : string) : s +:+ EmptyString = s.
Proof.
  induction s as [|c rest IH]; [reflexivity|].
  change (String c rest +:+ EmptyString) with (String c (rest +:+ EmptyString)).
  now rewrite IH.
Qed.

Lemma lastUnit_word (c : ascii) (s : string) :
  Str.isWordChar c = true ->
  forallb Str.isWordChar (list_ascii_of_string s) = true ->
  Str.isWordChar (lastUnit c s) = true.
Proof.
  revert c. induction s as [|d rest IH]; intros c Hc; simpl; [now intros _|].
  intros H. apply andb_prop in H as [Hd H]. now apply IH.
Qed.

Lemma isWordName_plain (name : string) :
  forallb Str.isWordChar (list_ascii_of_string name) = true ->
  Str.includes name "$" = false.
Proof.
  induction name as [|c rest IH]; [reflexivity|].
  cbn [list_ascii_of_string forallb Str.includes].
  intros H. apply andb_prop in H as [Hc H]. rewrite (IH H), orb_false_r.
  destruct (String.prefix "$" (String c rest)) eqn:E; [|reflexivity].
  apply prefix_cons_inv in E as (r & [= -> _] & _). discriminate.
Qed.

(** The pattern of a name made of word characters matches where a run of
    word characters starts that is the name. *)
Lemma matchesAt_wordRun (name : string) (prev : option ascii) (s : string) :
  WordRegex.isWordName name = true ->
  WordRegex.matchesAt name prev s
  = negb (WordRegex.isWordAt prev) && String.eqb (wordRun s) name.
Proof.
  unfold WordRegex.isWordName. intros H. apply andb_prop in H as [_ H].
  unfold WordRegex.matchesAt. rewrite <- andb_assoc.
  now rewrite (boundary_run name s H).
Qed.

(** No match starts inside a run of word characters. *)
Lemma countFrom_word_prefix (name pre s : string) (p : ascii) :
  forallb Str.isWordChar (list_ascii_of_string pre) = true ->
  Str.isWordChar p = true ->
  WordRegex.countFrom name (Some p) (pre +:+ s)
  = WordRegex.countFrom name (Some (lastUnit p pre)) s.
Proof.
  revert p. induction pre as [|c pre IH]; intros p Hpre Hp; [reflexivity|].
  simpl in Hpre. apply andb_prop in Hpre as [Hc Hpre].
  change (String c pre +:+ s) with (String c (pre +:+ s)).
  cbn [WordRegex.countFrom lastUnit].
  unfold WordRegex.matchesAt at 1. cbn [WordRegex.isWordAt]. rewrite Hp.
  cbn [negb andb]. now apply IH.
Qed.

Lemma countFrom_over_word_of (name word s : string) (prev' : option ascii) :
  WordRegex.isWordName word = true ->
  exists p,
    Str.isWordChar p = true
    /\ WordRegex.countFrom name prev' (word +:+ s)
       = ((if WordRegex.matchesAt name prev' (word +:+ s) then 1 else 0)
          + WordRegex.countFrom name (Some p) s)%nat.
Proof.
  unfold WordRegex.isWordName. intros H. apply andb_prop in H as [Hfull Hchars].
  destruct word as [|c word]; [discriminate|].
  simpl in Hchars. apply andb_prop in Hchars as [Hc Hchars].
  exists (lastUnit c word). split; [now apply lastUnit_word|].
  change (String c word +:+ s) with (String c (word +:+ s)).
  cbn [WordRegex.countFrom].
  now rewrite (countFrom_word_prefix name word s c Hchars Hc).
Qed.

Section WordRenames.

Variables old new : string.
Hypothesis old_word : WordRegex.isWordName old = true.
Hypothesis new_word : WordRegex.isWordName new = true.
Hypothesis renames : old <> new.

Lemma old_chars : forallb Str.isWordChar (list_ascii_of_string old) = true.
Proof using old_word.
  unfold WordRegex.isWordName in old_word. now apply andb_prop in old_word as [_ H].
Qed.

Lemma new_chars : forallb Str.isWordChar (list_ascii_of_string new) = true.
Proof using new_word.
  unfold WordRegex.isWordName in new_word. now apply andb_prop in new_word as [_ H].
Qed.

(** The pattern matches where a run of word characters starts that is the
    name. *)
Lemma matchesAt_run (prev : option ascii) (s : string) :
  WordRegex.matchesAt old prev s
  = negb (WordRegex.isWordAt prev) && String.eqb (wordRun s) old.
Proof using old_word. exact (matchesAt_wordRun old prev s old_word). Qed.

(** After a word character, and after the code units of a match, the
    substitution copies the run of word characters it is in. *)
Lemma wordRun_replaceFrom (s : string) (skip : nat) (prev : option ascii) :
  match skip with
  | O => WordRegex.isWordAt prev = true
  | S _ => (skip <= String.length (wordRun s))%nat
  end ->
  wordRun (WordRegex.replaceFrom old new skip prev s) = wordRun (dropUnits skip s).
Proof using old_word.
  revert skip prev. induction s as [|c rest IH]; intros skip prev Hready.
  - now destruct skip.
  - destruct skip as [|skip].
    + cbn [WordRegex.replaceFrom dropUnits]. rewrite matchesAt_run, Hready.
      cbn [negb andb wordRun].
      destruct (Str.isWordChar c) eqn:Hc; [|reflexivity].
      f_equal. apply (IH 0%nat). exact Hc.
    + cbn [WordRegex.replaceFrom dropUnits]. apply IH.
      simpl in Hready. destruct (Str.isWordChar c) eqn:Hc; simpl in Hready; [|lia].
      destruct skip; [exact Hc|lia].
Qed.


Lemma countFrom_over_word (word s : string) (prev' : option ascii) :
  WordRegex.isWordName word = true ->
  exists p,
    Str.isWordChar p = true
    /\ WordRegex.countFrom old prev' (word +:+ s)
       = ((if WordRegex.matchesAt old prev' (word +:+ s) then 1 else 0)
          + WordRegex.countFrom old (Some p) s)%nat.
Proof. apply countFrom_over_word_of. Qed.

Lemma countFrom_replaceFrom (s : string) (skip : nat) (prev prev' : option ascii) :
  match skip with
  | O => WordRegex.isWordAt prev' = WordRegex.isWordAt prev
  | S _ => WordRegex.isWordAt prev' = true
           /\ (skip <= String.length (wordRun s))%nat
  end ->
  WordRegex.countFrom old prev' (WordRegex.replaceFrom old new skip prev s) = 0%nat.
Proof using old_word new_word renames.
  revert skip prev prev'. induction s as [|c rest IH]; intros skip prev prev' Hready.
  - now destruct skip.
  - destruct skip as [|skip].
    + cbn [WordRegex.replaceFrom]. rewrite matchesAt_run.
      destruct (negb (WordRegex.isWordAt prev) && String.eqb (wordRun (String c rest)) old)
        eqn:Hmatch.
      * apply andb_prop in Hmatch as [Hprev Hrun].
        apply String.eqb_eq in Hrun.
        assert (Hc : Str.isWordChar c = true).
        { simpl in Hrun. destruct (Str.isWordChar c); [reflexivity|].
          unfold WordRegex.isWordName in old_word. rewrite <- Hrun in old_word.
          discriminate. }
        assert (Hlen : String.length old = S (String.length (wordRun rest))).
        { rewrite <- Hrun. simpl. now rewrite Hc. }
        assert (Hskip : match (String.length old - 1)%nat with
                        | O => WordRegex.isWordAt (Some c) = true
                        | S _ => (String.length old - 1
                                  <= String.length (wordRun rest))%nat
                        end).
        { destruct (String.length old - 1)%nat eqn:E; [exact Hc|lia]. }
        destruct (countFrom_over_word new
                    (WordRegex.replaceFrom old new (String.length old - 1)
                       (Some c) rest) prev' new_word)
          as (p & Hp & ->).
        rewrite IH.
        2: { destruct (String.length old - 1)%nat eqn:E.
             - simpl. now rewrite Hc.
             - split; [exact Hp|lia]. }
        rewrite Nat.add_0_r.
        rewrite matchesAt_run, wordRun_app by exact new_chars.
        rewrite (wordRun_replaceFrom rest _ (Some c) Hskip).
        replace (dropUnits (String.length old - 1) rest)
          with (dropUnits (String.length (wordRun (String c rest))) (String c rest)).
        2: { simpl. rewrite Hc. simpl. f_equal. lia. }
        rewrite wordRun_dropped, append_empty_r.
        destruct (String.eqb_spec new old) as [Hsame|_];
          [now destruct renames|].
        now rewrite andb_false_r.
      * cbn [WordRegex.countFrom].
        rewrite (IH 0%nat (Some c) (Some c) eq_refl), Nat.add_0_r.
        rewrite matchesAt_run, Hready.
        replace (wordRun (String c (WordRegex.replaceFrom old new 0 (Some c) rest)))
          with (wordRun (String c rest)).
        { now rewrite Hmatch. }
        simpl. destruct (Str.isWordChar c) eqn:Hc; [|reflexivity].
        f_equal. symmetry. apply (wordRun_replaceFrom rest 0%nat). exact Hc.
    + cbn [WordRegex.replaceFrom]. apply IH.
      destruct Hready as [Hprev' Hrun]. simpl in Hrun.
      destruct (Str.isWordChar c) eqn:Hc; simpl in Hrun; [|lia].
      destruct skip; [simpl; now rewrite Hc|split; [exact Hprev'|lia]].
Qed.

Lemma countFrom_after_word (name : string) (p c : ascii) (rest : string) :
  Str.isWordChar p = true ->
  WordRegex.countFrom name (Some p) (String c rest)
  = WordRegex.countFrom name (Some c) rest.
Proof.
  intros Hp. cbn [WordRegex.countFrom]. unfold WordRegex.matchesAt.
  cbn [WordRegex.isWordAt]. now rewrite Hp.
Qed.

(** The occurrences of the new name after the substitution are those of
    the old name and those of the new name before it. *)
Lemma countFrom_new_replaceFrom (s : string) (skip : nat)
    (prev prev' : option ascii) :
  match skip with
  | O => WordRegex.isWordAt prev' = WordRegex.isWordAt prev
  | S _ => WordRegex.isWordAt prev' = true
           /\ WordRegex.isWordAt prev = true
           /\ (skip <= String.length (wordRun s))%nat
  end ->
  WordRegex.countFrom new prev' (WordRegex.replaceFrom old new skip prev s)
  = (WordRegex.countFrom old prev s + WordRegex.countFrom new prev s)%nat.
Proof using old_word new_word renames.
  revert skip prev prev'. induction s as [|c rest IH]; intros skip prev prev' Hready.
  - now destruct skip.
  - destruct skip as [|skip].
    + cbn [WordRegex.replaceFrom WordRegex.countFrom].
      rewrite (matchesAt_wordRun new prev _ new_word), matchesAt_run.
      destruct (negb (WordRegex.isWordAt prev)) eqn:Hprev; cbn [andb].
      * destruct (String.eqb_spec (wordRun (String c rest)) old) as [Hrun|Hrun].
        { assert (Hc : Str.isWordChar c = true).
          { simpl in Hrun. destruct (Str.isWordChar c); [reflexivity|].
            unfold WordRegex.isWordName in old_word. rewrite <- Hrun in old_word.
            discriminate. }
          assert (Hlen : String.length old = S (String.length (wordRun rest))).
          { rewrite <- Hrun. simpl. now rewrite Hc. }
          assert (Hskip : match (String.length old - 1)%nat with
                          | O => WordRegex.isWordAt (Some c) = true
                          | S _ => (String.length old - 1
                                    <= String.length (wordRun rest))%nat
                          end).
          { destruct (String.length old - 1)%nat eqn:E; [exact Hc|lia]. }
          destruct (countFrom_over_word_of new new
                      (WordRegex.replaceFrom old new (String.length old - 1)
                         (Some c) rest) prev' new_word)
            as (p & Hp & ->).
          rewrite IH.
          2: { destruct (String.length old - 1)%nat eqn:E.
               - simpl. now rewrite Hc.
               - repeat split; [exact Hp|exact Hc|lia]. }
          rewrite (matchesAt_wordRun new prev' _ new_word), wordRun_app
            by exact new_chars.
          rewrite (wordRun_replaceFrom rest _ (Some c) Hskip).
          replace (dropUnits (String.length old - 1) rest)
            with (dropUnits (String.length (wordRun (String c rest))) (String c rest)).
          2: { simpl. rewrite Hc. simpl. f_equal. lia. }
          rewrite wordRun_dropped, append_empty_r, String.eqb_refl, Hready, Hprev.
          rewrite Hrun.
          destruct (String.eqb_spec old new) as [Hsame|_]; [now destruct renames|].
          simpl. lia. }
        { cbn [WordRegex.countFrom].
          rewrite (IH 0%nat (Some c) (Some c) eq_refl).
          rewrite (matchesAt_wordRun new prev' _ new_word), Hready, Hprev.
          replace (wordRun (String c (WordRegex.replaceFrom old new 0 (Some c) rest)))
            with (wordRun (String c rest)).
          { cbn [andb]. lia. }
          simpl. destruct (Str.isWordChar c) eqn:Hc; [|reflexivity].
          f_equal. symmetry. apply (wordRun_replaceFrom rest 0%nat). exact Hc. }
      * cbn [WordRegex.countFrom].
        rewrite (IH 0%nat (Some c) (Some c) eq_refl).
        rewrite (matchesAt_wordRun new prev' _ new_word), Hready, Hprev.
        cbn [andb]. lia.
    + destruct Hready as (Hprev' & Hprev & Hrun). simpl in Hrun.
      destruct (Str.isWordChar c) eqn:Hc; simpl in Hrun; [|lia].
      cbn [WordRegex.replaceFrom].
      destruct prev as [p|]; [|discriminate].
      rewrite !(countFrom_after_word _ p c rest Hprev).
      apply IH.
      destruct skip; [simpl; now rewrite Hc|].
      repeat split; [exact Hprev'|exact Hc|lia].
Qed.

Lemma count_new_replace (content : string) :
  WordRegex.count new (WordRegex.replace old new content)
  = (WordRegex.count old content + WordRegex.count new content)%nat.
Proof using old_word new_word renames.
  unfold WordRegex.count, WordRegex.replace.
  now apply (countFrom_new_replaceFrom content 0%nat None None).
Qed.

Lemma count_replace (content : string) :
  WordRegex.count old (WordRegex.replace old new content) = 0%nat.
Proof using old_word new_word renames.
  unfold WordRegex.count, WordRegex.replace.
  now apply (countFrom_replaceFrom content 0%nat None None).
Qed.

End WordRenames.

Lemma readFile_ok (path content : string) (w w1 : World) :
  readFile path w = (Ok content, w1) -> files (fs w) !! path = Some content.
Proof.
  unfold readFile, liftFS, fs_readFile.
  pose proof (nextFault_files (fs w)) as Hfiles.
  destruct (nextFault (fs w)) as [[d|] s]; simpl in *; [discriminate|].
  rewrite <- Hfiles. destruct (files s !! path); [|discriminate].
  now intros [= <- _].
Qed.

Lemma writeFile_ok (path content : string) (w w' : World) :
  writeFile path content w = (Ok tt, w') -> files (fs w') !! path = Some content.
Proof.
  unfold writeFile, liftFS, fs_writeFile.
  destruct (nextFault (fs w)) as [[d|] s]; [discriminate|].
  intros [= <-]. simpl. apply lookup_insert_eq.
Qed.

(** A fallback rename that succeeded read the file, found matches and
    wrote the substituted text. *)
Lemma fallbackRename_succeeded (T : Tools) (filePath old new : string)
    (w w' : World) (r : RenameResult.t) :
  fallbackRename T filePath old new w = (r, w') ->
  RenameResult.success r = true ->
  exists before n,
    files (fs w) !! filePath = Some before
    /\ matchCount T old before = Ok n
    /\ r = succeeded filePath old new n
    /\ files (fs w') !! filePath = Some (replaceAll T old new before).
Proof.
  unfold fallbackRename. cbv zeta. unfold bind at 1.
  destruct (readFile filePath w) as [[before|e] w1] eqn:Hread;
    [|unfold ret; intros [= <- _]; discriminate].
  destruct (matchCount T old before) as [n|e] eqn:Hcount;
    [|unfold ret; intros [= <- _]; discriminate].
  destruct (n =? 0); [unfold ret; intros [= <- _]; discriminate|].
  unfold bind.
  destruct (writeFile filePath (replaceAll T old new before) w1)
    as [[[]|e] w2] eqn:Hwrite; [|unfold ret; intros [= <- _]; discriminate].
  unfold ret. intros [= <- <-] _. exists before, n.
  split; [exact (readFile_ok _ _ _ _ Hread)|]. split; [exact Hcount|].
  split; [reflexivity|]. exact (writeFile_ok _ _ _ _ Hwrite).
Qed.

Lemma replaceAll_word (T : Tools) (old new content : string) :
  WordRegex.isWordName old = true -> WordRegex.isWordName new = true ->
  replaceAll T old new content = WordRegex.replace old new content.
Proof.
  intros Hold Hnew. unfold replaceAll, WordRegex.isPlainReplacement.
  rewrite Hold. unfold WordRegex.isWordName in Hnew.
  apply andb_prop in Hnew as [_ Hnew]. now rewrite (isWordName_plain new Hnew).
Qed.

(** X7. A fallback rename (Python or Go) between two different names made
    of word characters that reports success has left no whole-word
    occurrence of the old name in the file; run again on the file it
    reports "Symbol not found" and changes nothing. *)
Theorem fallbackRename_leaves_no_old_name (T : Tools)
    (filePath old new : string) (w w' : World) (r : RenameResult.t) :
  WordRegex.isWordName old = true ->
  WordRegex.isWordName new = true ->
  old <> new ->
  fallbackRename T filePath old new w = (r, w') ->
  RenameResult.success r = true ->
  exists after,
    files (fs w') !! filePath = Some after
    /\ WordRegex.count old after = 0%nat
    /\ (noFaultAhead 1 (fs w') = true ->
        exists w'',
          fallbackRename T filePath old new w'
            = (failed filePath old new "Symbol not found", w'')
          /\ files (fs w'') = files (fs w')).
Proof.
  intros Hold Hnew Hnames Hrun Hdone.
  destruct (fallbackRename_succeeded T filePath old new w w' r Hrun Hdone)
    as (before & n & _ & _ & _ & Hafter).
  rewrite (replaceAll_word T old new before Hold Hnew) in Hafter.
  exists (WordRegex.replace old new before).
  split; [exact Hafter|].
  pose proof (count_replace old new Hold Hnew Hnames before) as Hnone.
  split; [exact Hnone|].
  intros Hno. unfold fallbackRename. cbv zeta. unfold bind at 1.
  destruct (readFile_works 0 _ _ _ Hafter Hno) as (w1 & -> & Hfiles & _).
  rewrite (matchCount_word T old _ Hold), Hnone. simpl.
  exists w1. split; [reflexivity|exact Hfiles].
Qed.

(** X7 on Scenario C. *)
Lemma fallbackRename_leaves_no_old_name_witness :
  exists after,
    files (fs (fallbackRename bareTools "app.py" "data" "userProfile"
                 (worldWith "app.py" scenarioC_before)).2) !! "app.py"
      = Some after
    /\ WordRegex.count "data" after = 0%nat.
Proof.
  destruct (fallbackRename_leaves_no_old_name bareTools "app.py" "data" "userProfile"
              (worldWith "app.py" scenarioC_before)
              (fallbackRename bareTools "app.py" "data" "userProfile"
                 (worldWith "app.py" scenarioC_before)).2
              (fallbackRename bareTools "app.py" "data" "userProfile"
                 (worldWith "app.py" scenarioC_before)).1)
    as (after & Hafter & Hnone & _).
  - reflexivity.
  - reflexivity.
  - discriminate.
  - now destruct (fallbackRename _ _ _ _ _).
  - vm_compute. reflexivity.
  - exists after. split; [exact Hafter|exact Hnone].
Defined.

(** X8. After a fallback rename between two different names made of word
    characters that reports success, the whole-word occurrences of the new
    name in the file are [referencesUpdated] (the occurrences of the old
    name that were replaced) plus the occurrences of the new name that the
    file had before: [referencesUpdated] is the count of the new name
    afterwards exactly when the file did not mention the new name. *)
Theorem fallbackRename_new_name_count (T : Tools)
    (filePath old new : string) (w w' : World) (r : RenameResult.t) :
  WordRegex.isWordName old = true ->
  WordRegex.isWordName new = true ->
  old <> new ->
  fallbackRename T filePath old new w = (r, w') ->
  RenameResult.success r = true ->
  exists before after,
    files (fs w) !! filePath = Some before
    /\ files (fs w') !! filePath = Some after
    /\ RenameResult.referencesUpdated r = Z.of_nat (WordRegex.count old before)
    /\ Z.of_nat (WordRegex.count new after)
       = RenameResult.referencesUpdated r + Z.of_nat (WordRegex.count new before).
Proof.
  intros Hold Hnew Hnames Hrun Hdone.
  destruct (fallbackRename_succeeded T filePath old new w w' r Hrun Hdone)
    as (before & n & Hbefore & Hcount & -> & Hafter).
  rewrite (replaceAll_word T old new before Hold Hnew) in Hafter.
  rewrite (matchCount_word T old before Hold) in Hcount. injection Hcount as <-.
  exists before, (WordRegex.replace old new before).
  split; [exact Hbefore|]. split; [exact Hafter|]. split; [reflexivity|].
  rewrite (count_new_replace old new Hold Hnew Hnames before). simpl. lia.
Qed.

(** X8 on a file that mentions the new name: one occurrence replaced, two
    occurrences of the new name afterwards. *)
Lemma fallbackRename_new_name_count_witness :
  exists after,
    files (fs (fallbackRename bareTools "app.py" "data" "userProfile"
                 (worldWith "app.py" mentionsNewName)).2) !! "app.py"
      = Some after
    /\ RenameResult.referencesUpdated
         (fallbackRename bareTools "app.py" "data" "userProfile"
            (worldWith "app.py" mentionsNewName)).1 = 1
    /\ Z.of_nat (WordRegex.count "userProfile" after) = 2.
Proof.
  destruct (fallbackRename_new_name_count bareTools "app.py" "data" "userProfile"
              (worldWith "app.py" mentionsNewName)
              (fallbackRename bareTools "app.py" "data" "userProfile"
                 (worldWith "app.py" mentionsNewName)).2
              (fallbackRename bareTools "app.py" "data" "userProfile"
                 (worldWith "app.py" mentionsNewName)).1)
    as (before & after & Hbefore & Hafter & Hrefs & Hcount).
  - reflexivity.
  - reflexivity.
  - discriminate.
  - now destruct (fallbackRename _ _ _ _ _).
  - vm_compute. reflexivity.
  - exists after. split; [exact Hafter|].
    vm_compute in Hbefore. injection Hbefore as <-.
    split; [exact Hrefs|]. rewrite Hcount, Hrefs. reflexivity.
Defined.

(** ** The extension of a path *)

Lemma split_no_separator (sep : ascii) (s : string) :
  Str.includes s (String sep EmptyString) = false -> Str.split sep s = [s].
Proof.
  induction s as [|c rest IH]; [reflexivity|].
  cbn [Str.includes Str.split]. intros H. apply orb_false_elim in H as [Hhead Hrest].
  destruct (Ascii.eqb_spec c sep) as [->|_].
  - cbn [String.prefix] in Hhead. destruct (ascii_dec sep sep); [|contradiction].
    now rewrite prefix_empty in Hhead.
  - now rewrite (IH Hrest).
Qed.

Lemma split_last_segment (sep : ascii) (base ext : string) :
  Str.includes ext (String sep EmptyString) = false ->
  exists first others,
    Str.split sep (base +:+ String sep ext) = first :: others
    /\ last others = Some ext.
Proof.
  intros Hext. induction base as [|c base (first & others & IH & Hlast)].
  - change (EmptyString +:+ String sep ext) with (String sep ext).
    cbn [Str.split]. rewrite Ascii.eqb_refl, (split_no_separator sep ext Hext).
    now exists EmptyString, [ext].
  - change (String c base +:+ String sep ext) with (String c (base +:+ String sep ext)).
    cbn [Str.split]. rewrite IH.
    destruct (Ascii.eqb c sep).
    + exists EmptyString, (first :: others). split; [reflexivity|].
      destruct others; [discriminate|exact Hlast].
    + now exists (String c first), others.
Qed.

Lemma lowerChar_idempotent (c : ascii) :
  Str.lowerChar (Str.lowerChar c) = Str.lowerChar c.
Proof. destruct c as [[] [] [] [] [] [] [] []]; reflexivity. Qed.

Lemma toLowerCase_idempotent (s : string) :
  Str.toLowerCase (Str.toLowerCase s) = Str.toLowerCase s.
Proof.
  induction s as [|c rest IH]; simpl; [reflexivity|].
  now rewrite lowerChar_idempotent, IH.
Qed.

Lemma lowerChar_dot (c : ascii) :
  Ascii.eqb (Str.lowerChar c) "." = Ascii.eqb c ".".
Proof. destruct c as [[] [] [] [] [] [] [] []]; reflexivity. Qed.

Lemma toLowerCase_no_dot (s : string) :
  Str.includes s "." = false -> Str.includes (Str.toLowerCase s) "." = false.
Proof.
  induction s as [|c rest IH]; [intros _; reflexivity|].
  cbn [Str.includes Str.toLowerCase]. intros H.
  apply orb_false_elim in H as [Hhead Hrest]. rewrite (IH Hrest), orb_false_r.
  destruct (String.prefix "." (String (Str.lowerChar c) (Str.toLowerCase rest)))
    eqn:E; [|reflexivity].
  apply prefix_cons_inv in E as (r & [= Hc _] & _).
  assert (Hdot : c = "."%char).
  { apply Ascii.eqb_eq. rewrite <- lowerChar_dot, Hc. apply Ascii.eqb_refl. }
  subst c. cbn [String.prefix] in Hhead.
  destruct (ascii_dec "." "."); [|contradiction]. now rewrite prefix_empty in Hhead.
Qed.

Lemma extensionOf_no_dot (ext : string) :
  Str.includes ext "." = false -> extensionOf ext = Some (Str.toLowerCase ext).
Proof.
  intros H. unfold extensionOf. now rewrite (split_no_separator "." ext H).
Qed.

(** X9. [detectLanguage] looks at the text after the last dot of the path
    only, whatever the case of its letters: a path [base.ext], [ext]
    without a dot, is detected as [ext] itself is, and as [ext] in lower
    case is - so .d.ts and .TEST.JS are TypeScript and JavaScript, and a
    path without any dot is its own extension (a file named go is taken
    for Go). *)
Theorem detectLanguage_last_dot (base ext : string) :
  Str.includes ext "." = false ->
  detectLanguage (base +:+ "." +:+ ext) = detectLanguage ext
  /\ detectLanguage ext = detectLanguage (Str.toLowerCase ext)
  /\ extensionOf (base +:+ "." +:+ ext) = Some (Str.toLowerCase ext).
Proof.
  intros Hext.
  change (base +:+ "." +:+ ext) with (base +:+ String "." ext).
  assert (Hlast : extensionOf (base +:+ String "." ext) = Some (Str.toLowerCase ext)).
  { unfold extensionOf.
    destruct (split_last_segment "." base ext Hext) as (first & others & -> & Hlast).
    destruct others as [|second others]; [discriminate|].
    change (last (first :: second :: others)) with (last (second :: others)).
    now rewrite Hlast. }
  unfold detectLanguage.
  rewrite Hlast, (extensionOf_no_dot ext Hext).
  rewrite (extensionOf_no_dot _ (toLowerCase_no_dot ext Hext)).
  now rewrite toLowerCase_idempotent.
Qed.

(** X9 on a declaration file in upper case, and on a file named go. *)
Lemma detectLanguage_last_dot_witness :
  detectLanguage "types/Index.D.TS" = Some typescript
  /\ detectLanguage "bin/.go" = detectLanguage "go".
Proof.
  destruct (detectLanguage_last_dot "types/Index.D" "TS") as (Hpath & _);
    [reflexivity|].
  destruct (detectLanguage_last_dot "bin/" "go") as (Hgo & _); [reflexivity|].
  split; [transitivity (detectLanguage "TS"); [exact Hpath|reflexivity]|exact Hgo].
Defined.

(** ** What the diff parser records *)

Lemma hunk_header_not_marked (line : string) :
  Str.startsWith line "@@" = true ->
  isAddedLine line = false /\ isDeletedLine line = false.
Proof.
  unfold Str.startsWith. intros H. apply prefix_cons_inv in H as (rest & -> & _).
  split; reflexivity.
Qed.

Lemma added_not_deleted (line : string) :
  isAddedLine line = true -> isDeletedLine line = false.
Proof.
  unfold isAddedLine, isDeletedLine, Str.startsWith. intros H.
  apply andb_prop in H as [H _]. apply prefix_cons_inv in H as (rest & -> & _).
  reflexivity.
Qed.

(** One line inside a hunk: what it adds to the two records. *)
Lemma walkLine_in_hunk (st : Walk.t) (line : string) :
  Walk.inHunk st = true ->
  Walk.inHunk (walkLine st line) = true
  /\ Walk.additions (walkLine st line)
     = Walk.additions st
       ++ (if isAddedLine line
           then [DiffLine.mk (Walk.currentLine st) (Str.substring1 line)] else [])
  /\ Walk.deletions (walkLine st line)
     = Walk.deletions st
       ++ (if isDeletedLine line
           then [DiffLine.mk (Walk.currentLine st) (Str.substring1 line)] else []).
Proof.
  intros Hin. unfold walkLine.
  destruct (Str.startsWith line "@@") eqn:Hat.
  - destruct (hunk_header_not_marked line Hat) as [-> ->].
    destruct (matchPlusDigits line); simpl; rewrite !app_nil_r; now repeat split.
  - rewrite Hin. cbn [negb]. fold (isAddedLine line). fold (isDeletedLine line).
    destruct (isAddedLine line) eqn:Hadd.
    + rewrite (added_not_deleted line Hadd). simpl. rewrite app_nil_r.
      now repeat split.
    + destruct (isDeletedLine line); simpl; rewrite ?app_nil_r.
      * now repeat split.
      * destruct (Str.startsWith line " "); simpl; now repeat split.
Qed.

Lemma walkLines_in_hunk (lines : list string) (st : Walk.t) :
  Walk.inHunk st = true ->
  map DiffLine.content (Walk.additions (walkLines lines st))
  = map DiffLine.content (Walk.additions st)
    ++ map Str.substring1 (List.filter isAddedLine lines)
  /\ map DiffLine.content (Walk.deletions (walkLines lines st))
     = map DiffLine.content (Walk.deletions st)
       ++ map Str.substring1 (List.filter isDeletedLine lines).
Proof.
  revert st. induction lines as [|line lines IH]; intros st Hin.
  - simpl. now rewrite !app_nil_r.
  - destruct (walkLine_in_hunk st line Hin) as (Hin' & Hadd & Hdel).
    unfold walkLines in *. cbn [fold_left List.filter].
    destruct (IH (walkLine st line) Hin') as [-> ->].
    rewrite Hadd, Hdel, !map_app, <- !app_assoc.
    split; f_equal.
    + now destruct (isAddedLine line).
    + now destruct (isDeletedLine line).
Qed.

Lemma walkLines_from_first_header (lines : list string) (st : Walk.t) :
  Walk.inHunk st = false ->
  map DiffLine.content (Walk.additions (walkLines lines st))
  = map DiffLine.content (Walk.additions st)
    ++ map Str.substring1 (List.filter isAddedLine (afterFirstHunkHeader lines))
  /\ map DiffLine.content (Walk.deletions (walkLines lines st))
     = map DiffLine.content (Walk.deletions st)
       ++ map Str.substring1 (List.filter isDeletedLine (afterFirstHunkHeader lines)).
Proof.
  revert st. induction lines as [|line lines IH]; intros st Hout.
  - simpl. now rewrite !app_nil_r.
  - cbn [afterFirstHunkHeader]. unfold walkLines in *. cbn [fold_left].
    destruct (isHunkHeader line) eqn:Hhead.
    + unfold isHunkHeader in Hhead. apply andb_prop in Hhead as [Hat Hdigits].
      destruct (matchPlusDigits line) as [digits|] eqn:Hfield; [|discriminate].
      assert (Hstep : walkLine st line
                      = Walk.mk (Str.parseDigits digits) true
                          (Walk.additions st) (Walk.deletions st)).
      { unfold walkLine. now rewrite Hat, Hfield. }
      rewrite Hstep.
      exact (walkLines_in_hunk lines
               (Walk.mk (Str.parseDigits digits) true
                  (Walk.additions st) (Walk.deletions st)) eq_refl).
    + rewrite (walkLine_outside_hunk st line Hout Hhead). now apply IH.
Qed.

(** X10. The additions [parseDiff] records are the lines of the diff that
    follow the first accepted hunk header and start with [+] but not with
    [+++], each once, in the order of the diff and without its first code
    unit; the deletions are those that start with [-] but not with [---].
    Nothing else is recorded, and no such line is left out. *)
Theorem parseDiff_records_marked_lines (diffText filePath : string)
    (d : PRDiff.t) :
  parseDiff diffText filePath = Some d ->
  map DiffLine.content (PRDiff.additions d)
  = map Str.substring1
      (List.filter isAddedLine (afterFirstHunkHeader (Str.split "010" diffText)))
  /\ map DiffLine.content (PRDiff.deletions d)
     = map Str.substring1
         (List.filter isDeletedLine (afterFirstHunkHeader (Str.split "010" diffText))).
Proof.
  unfold parseDiff. destruct (detectLanguage filePath); [|discriminate].
  intros [= <-]. cbn [PRDiff.additions PRDiff.deletions].
  exact (walkLines_from_first_header _ Walk.start eq_refl).
Qed.

(** X10 on Scenario A. *)
Lemma parseDiff_records_marked_lines_witness :
  exists d,
    parseDiff scenarioA_diff "test.ts" = Some d
    /\ map DiffLine.content (PRDiff.additions d) = ["const data = fetchUser();"]
    /\ map DiffLine.content (PRDiff.deletions d) = [].
Proof.
  eexists. split; [vm_compute; reflexivity|].
  destruct (parseDiff_records_marked_lines scenarioA_diff "test.ts" _ eq_refl)
    as [Hadd Hdel].
  split; [exact Hadd|exact Hdel].
Defined.

(** ** Modifications *)





(** ** Matching by derivatives *)

Lemma matches_Void (s : string) : Regex.matches Regex.Void s = false.
Proof. induction s as [|c rest IH]; [reflexivity|exact IH]. Qed.

Lemma matches_Seq_Void (r : Regex.t) (s : string) :
  Regex.matches (Regex.Seq Regex.Void r) s = false.
Proof. induction s as [|c rest IH]; [reflexivity|exact IH]. Qed.

Lemma matches_Alt (r1 r2 : Regex.t) (s : string) :
  Regex.matches (Regex.Alt r1 r2) s = Regex.matches r1 s || Regex.matches r2 s.
Proof.
  revert r1 r2. induction s as [|c rest IH]; intros r1 r2; [reflexivity|].
  simpl. apply IH.
Qed.

Lemma matches_Seq_Eps (r : Regex.t) (s : string) :
  Regex.matches (Regex.Seq Regex.Eps r) s = Regex.matches r s.
Proof.
  destruct s as [|c rest]; [reflexivity|].
  simpl. now rewrite matches_Alt, matches_Seq_Void.
Qed.

Lemma matches_Seq_Class (p : ascii -> bool) (r : Regex.t) (s : string) :
  Regex.matches (Regex.Seq (Regex.Class p) r) s =
    match s with
    | EmptyString => false
    | String c rest => p c && Regex.matches r rest
    end.
Proof.
  destruct s as [|c rest]; [reflexivity|]. simpl.
  destruct (p c); [apply matches_Seq_Eps|apply matches_Seq_Void].
Qed.

Lemma matches_Star_Class (p : ascii -> bool) (s : string) :
  Regex.matches (Regex.Star (Regex.Class p)) s
  = forallb p (list_ascii_of_string s).
Proof.
  induction s as [|c rest IH]; [reflexivity|]. simpl.
  destruct (p c); [now rewrite matches_Seq_Eps|apply matches_Seq_Void].
Qed.

Lemma matches_Star_Any (s : string) : Regex.matches (Regex.Star Regex.Any) s = true.
Proof.
  unfold Regex.Any. rewrite matches_Star_Class.
  induction s as [|c rest IH]; [reflexivity|exact IH].
Qed.

(** Sequence distributes over alternation, and is associative. *)
Lemma matches_Seq_Alt (r1 r2 r : Regex.t) (s : string) :
  Regex.matches (Regex.Seq (Regex.Alt r1 r2) r) s
  = Regex.matches (Regex.Seq r1 r) s || Regex.matches (Regex.Seq r2 r) s.
Proof.
  revert r1 r2. induction s as [|c rest IH]; intros r1 r2.
  - simpl. now destruct (Regex.nullable r1), (Regex.nullable r2), (Regex.nullable r).
  - simpl.
    destruct (Regex.nullable r1), (Regex.nullable r2); simpl;
      rewrite ?matches_Alt, IH;
      destruct (Regex.matches (Regex.Seq (Regex.deriv c r1) r) rest),
               (Regex.matches (Regex.Seq (Regex.deriv c r2) r) rest),
               (Regex.matches (Regex.deriv c r) rest); reflexivity.
Qed.

Lemma matches_Seq_assoc (r1 r2 r3 : Regex.t) (s : string) :
  Regex.matches (Regex.Seq (Regex.Seq r1 r2) r3) s
  = Regex.matches (Regex.Seq r1 (Regex.Seq r2 r3)) s.
Proof.
  revert r1 r2 r3. induction s as [|c rest IH]; intros r1 r2 r3.
  - simpl. now rewrite andb_assoc.
  - simpl.
    destruct (Regex.nullable r1), (Regex.nullable r2); simpl;
      rewrite ?matches_Alt, ?matches_Seq_Alt, ?matches_Alt, ?IH;
      try reflexivity; now rewrite ?orb_assoc.
Qed.

(** A literal at the start of a pattern consumes itself. *)
Lemma matches_Seq_LitI (p : string) (r : Regex.t) (s : string) :
  Regex.matches (Regex.Seq (Regex.LitI p) r) s =
    match p, s with
    | EmptyString, _ => Regex.matches r s
    | String _ _, EmptyString => false
    | String a p', String c rest =>
        Ascii.eqb (Str.lowerChar c) (Str.lowerChar a)
        && Regex.matches (Regex.Seq (Regex.LitI p') r) rest
    end.
Proof.
  destruct p as [|a p']; simpl Regex.LitI.
  - apply matches_Seq_Eps.
  - rewrite matches_Seq_assoc. unfold Regex.ChrI. now rewrite matches_Seq_Class.
Qed.

(** [/^p/i], for a text [p] in lower case, asks whether the name in lower
    case starts with [p]. *)
Lemma testStart_LitI (p s : string) :
  forallb (fun c => Ascii.eqb (Str.lowerChar c) c) (list_ascii_of_string p) = true ->
  Regex.testStart (Regex.LitI p) s = Str.startsWith (Str.toLowerCase s) p.
Proof.
  unfold Regex.testStart, Str.startsWith. revert s.
  induction p as [|a p IH]; intros s Hlower.
  - rewrite matches_Seq_LitI, matches_Star_Any. now rewrite prefix_empty.
  - simpl in Hlower. apply andb_prop in Hlower as [Ha Hlower].
    apply Ascii.eqb_eq in Ha.
    rewrite matches_Seq_LitI. destruct s as [|c rest]; [reflexivity|].
    rewrite (IH rest Hlower), Ha. simpl.
    destruct (ascii_dec a (Str.lowerChar c)) as [->|Hother].
    + now rewrite Ascii.eqb_refl.
    + destruct (Ascii.eqb_spec (Str.lowerChar c) a) as [Hsame|_]; [|reflexivity].
      now destruct Hother.
Qed.

Lemma prefix_one (a c : ascii) (rest : string) :
  String.prefix (String a EmptyString) (String c rest) = Ascii.eqb a c.
Proof.
  cbn [String.prefix]. destruct (ascii_dec a c) as [->|Hother].
  - now rewrite prefix_empty, Ascii.eqb_refl.
  - symmetry. now apply Ascii.eqb_neq.
Qed.

Lemma lowerChar_underscore (c : ascii) :
  Ascii.eqb "_" (Str.lowerChar c) = Ascii.eqb "_" c.
Proof. destruct c as [[] [] [] [] [] [] [] []]; reflexivity. Qed.

Lemma testStart_Lit_underscore (s : string) :
  Regex.testStart (Regex.Lit "_") s = Str.startsWith (Str.toLowerCase s) "_".
Proof.
  unfold Regex.testStart, Str.startsWith. simpl Regex.Lit.
  rewrite matches_Seq_assoc. unfold Regex.Chr. rewrite matches_Seq_Class.
  destruct s as [|c rest]; [reflexivity|].
  rewrite matches_Seq_Eps, matches_Star_Any, andb_true_r.
  cbn [Str.toLowerCase]. now rewrite prefix_one, lowerChar_underscore.
Qed.

(** ** Which symbols are reviewed *)

Lemma skipPatterns_spec (name : string) :
  existsb (fun pattern => Regex.testStart pattern name) skipPatterns
  = hasSkippedPrefix name.
Proof.
  unfold skipPatterns, hasSkippedPrefix, skippedPrefixes. cbn [existsb].
  rewrite !testStart_LitI by reflexivity.
  now rewrite testStart_Lit_underscore.
Qed.

Lemma snake_case_matches (name : string) :
  isSnakeName name = true -> Regex.testWhole snake_case name = true.
Proof.
  unfold isSnakeName, Regex.testWhole, snake_case.
  rewrite matches_Seq_Class. destruct name as [|c rest]; [discriminate|].
  now rewrite matches_Star_Class.
Qed.

Lemma SCREAMING_SNAKE_CASE_matches (name : string) :
  isScreamingName name = true -> Regex.testWhole SCREAMING_SNAKE_CASE name = true.
Proof.
  unfold isScreamingName, Regex.testWhole, SCREAMING_SNAKE_CASE.
  rewrite matches_Seq_Class. destruct name as [|c rest]; [discriminate|].
  now rewrite matches_Star_Class.
Qed.

(** X12. A name of five or more code units that is written in lower case
    (a lower-case letter, then lower-case letters, digits and underscores)
    or in upper case (likewise) is never reviewed, whatever its
    declaration: the test for generic names comes after the test for
    well-formed names, so value, result, output, input and param, which
    the list of generic names holds, are never reviewed in these forms. *)
Theorem shouldReviewSymbol_skips_conventional (name declaration : string) :
  (5 <= String.length name)%nat ->
  isSnakeName name = true \/ isScreamingName name = true ->
  shouldReviewSymbol name declaration = false.
Proof.
  intros Hlong Hform. unfold shouldReviewSymbol.
  destruct (Nat.leb_spec (String.length name) 2) as [|_]; [reflexivity|].
  cbv zeta.
  replace (5 <=? String.length name)%nat with true
    by (symmetry; now apply Nat.leb_le).
  unfold wellFormedPatterns. cbn [existsb].
  destruct Hform as [Hsnake|Hscreaming].
  - rewrite (snake_case_matches name Hsnake). now rewrite !orb_true_r.
  - rewrite (SCREAMING_SNAKE_CASE_matches name Hscreaming).
    now rewrite !orb_true_r.
Qed.

(** X12 on the generic name value, declared as a constant. *)
Lemma shouldReviewSymbol_skips_conventional_witness :
  In "value" genericNames
  /\ shouldReviewSymbol "value" "const value = compute();" = false.
Proof.
  split; [vm_compute; tauto|].
  apply (shouldReviewSymbol_skips_conventional "value" "const value = compute();").
  - simpl. lia.
  - left. reflexivity.
Defined.

(** X13. A name of three or four code units is reviewed unless, letters
    taken in either case, it starts with an underscore or is test, mock,
    stub or fake, or its declaration mentions both import and type:
    whether it is well formed, and whether it is a generic name, makes no
    difference. Names of one or two code units are never reviewed. *)
Theorem shouldReviewSymbol_short (name declaration : string) :
  ((String.length name <= 2)%nat ->
   shouldReviewSymbol name declaration = false)
  /\ ((3 <= String.length name <= 4)%nat ->
      shouldReviewSymbol name declaration
      = negb (hasSkippedPrefix name) && negb (looksLikeTypeImport declaration)).
Proof.
  unfold shouldReviewSymbol. split.
  - intros Hshort. now replace (String.length name <=? 2)%nat with true
      by (symmetry; now apply Nat.leb_le).
  - intros [Hlow Hhigh].
    replace (String.length name <=? 2)%nat with false
      by (symmetry; apply Nat.leb_gt; lia).
    cbv zeta.
    replace (5 <=? String.length name)%nat with false
      by (symmetry; apply Nat.leb_gt; lia).
    rewrite andb_false_r, skipPatterns_spec.
    fold (looksLikeTypeImport declaration).
    replace (String.length name <? 5)%nat with true
      by (symmetry; apply Nat.ltb_lt; lia).
    destruct (hasSkippedPrefix name); [reflexivity|].
    destruct (looksLikeTypeImport declaration); [reflexivity|].
    now destruct (existsb _ genericNames).
Qed.

(** X13 on url, Mock and id. *)
Lemma shouldReviewSymbol_short_witness :
  shouldReviewSymbol "url" "const url = base;" = true
  /\ shouldReviewSymbol "Mock" "const Mock = create();" = false
  /\ shouldReviewSymbol "id" "const id = next();" = false.
Proof.
  destruct (shouldReviewSymbol_short "url" "const url = base;") as [_ Hurl].
  destruct (shouldReviewSymbol_short "Mock" "const Mock = create();") as [_ Hmock].
  destruct (shouldReviewSymbol_short "id" "const id = next();") as [Hid _].
  split; [|split].
  - rewrite Hurl by (simpl; lia). reflexivity.
  - rewrite Hmock by (simpl; lia). reflexivity.
  - apply Hid. simpl. lia.
Defined.

(** ** The deduplication marker *)

Lemma prefix_app (p s : string) : String.prefix p (p +:+ s) = true.
Proof.
  induction p as [|c p IH]; [apply prefix_empty|].
  change (String c p +:+ s) with (String c (p +:+ s)). cbn [String.prefix].
  destruct (ascii_dec c c); [exact IH|contradiction].
Qed.

Lemma includes_prefix (s sub : string) :
  String.prefix sub s = true -> Str.includes s sub = true.
Proof. intros H. destruct s; cbn [Str.includes]; now rewrite H. Qed.

Lemma includes_later (c : ascii) (s sub : string) :
  Str.includes s sub = true -> Str.includes (String c s) sub = true.
Proof. intros H. cbn [Str.includes]. rewrite H. apply orb_true_r. Qed.

Lemma includes_app_l (pre s sub : string) :
  Str.includes s sub = true -> Str.includes (pre +:+ s) sub = true.
Proof.
  intros H. induction pre as [|c pre IH]; [exact H|].
  change (String c pre +:+ s) with (String c (pre +:+ s)).
  now apply includes_later.
Qed.

Lemma substring_prefix (n : nat) (s : string) :
  String.length (String.substring 0 n s) = n ->
  String.prefix (String.substring 0 n s) s = true.
Proof.
  revert s. induction n as [|n IH]; intros s.
  - intros _. destruct s; reflexivity.
  - destruct s as [|c rest]; [discriminate|]. simpl. intros [= Hlen].
    destruct (ascii_dec c c); [now apply IH|contradiction].
Qed.

Lemma dropUnits_app (p s : string) : dropUnits (String.length p) (p +:+ s) = s.
Proof.
  induction p as [|c p IH]; [reflexivity|].
  change (String c p +:+ s) with (String c (p +:+ s)). exact IH.
Qed.

Lemma substring_app (h s : string) :
  String.substring 0 (String.length h) (h +:+ s) = h.
Proof.
  induction h as [|c h IH]; [now destruct s|].
  change (String c h +:+ s) with (String c (h +:+ s)). simpl. now rewrite IH.
Qed.

Lemma prefix_split (p s : string) :
  String.prefix p s = true -> exists rest, s = p +:+ rest.
Proof.
  revert s. induction p as [|c p IH]; intros s H.
  - now exists s.
  - apply prefix_cons_inv in H as (rest & -> & H).
    destruct (IH rest H) as [tail ->]. now exists tail.
Qed.

Lemma prefix_same_app (p h s : string) :
  String.prefix (p +:+ h) (p +:+ s) = String.prefix h s.
Proof.
  induction p as [|c p IH]; [reflexivity|].
  change (String c p +:+ ?x) with (String c (p +:+ x)). cbn [String.prefix].
  destruct (ascii_dec c c); [exact IH|contradiction].
Qed.

(** The pattern matches where a marker stands, and captures its hash. *)
Lemma markerAt_marker (hash rest : string) :
  String.length hash = 8%nat ->
  forallb isHexDigit (list_ascii_of_string hash) = true ->
  markerAt ("<!-- ai-naming-bot:" +:+ hash +:+ " -->" +:+ rest) = Some hash.
Proof.
  intros Hlen Hhex. unfold markerAt. rewrite prefix_app.
  change 27%nat with (String.length "<!-- ai-naming-bot:" + 8)%nat.
  change 19%nat with (String.length "<!-- ai-naming-bot:").
  assert (Hhash : String.substring (String.length "<!-- ai-naming-bot:") 8
                    ("<!-- ai-naming-bot:" +:+ hash +:+ " -->" +:+ rest) = hash).
  { change (String.substring 0 8 (hash +:+ " -->" +:+ rest) = hash).
    rewrite <- Hlen at 1. apply substring_app. }
  rewrite Hhash, Hlen, Hhex.
  assert (Hdrop : dropUnits (String.length "<!-- ai-naming-bot:" + 8)
                    ("<!-- ai-naming-bot:" +:+ hash +:+ " -->" +:+ rest)
                  = " -->" +:+ rest).
  { change (dropUnits 8 (hash +:+ " -->" +:+ rest) = " -->" +:+ rest).
    rewrite <- Hlen. apply dropUnits_app. }
  rewrite Hdrop, prefix_app. reflexivity.
Qed.

(** The text a match captured stands in the body, after the name of the
    bot. *)
Lemma markerAt_includes (s hash : string) :
  markerAt s = Some hash -> Str.includes s ("ai-naming-bot:" +:+ hash) = true.
Proof.
  unfold markerAt.
  destruct (String.prefix "<!-- ai-naming-bot:" s) eqn:Hstart; [|discriminate].
  destruct (Nat.eqb_spec (String.length (String.substring 19 8 s)) 8)
    as [Hlen|]; [|discriminate].
  destruct (forallb isHexDigit _); [|discriminate].
  destruct (String.prefix " -->" _); [|discriminate].
  intros [= <-].
  apply prefix_split in Hstart as [rest ->].
  change (String.substring 19 8 ("<!-- ai-naming-bot:" +:+ rest))
    with (String.substring 0 8 rest) in *.
  change ("<!-- ai-naming-bot:" +:+ rest)
    with ("<!-- " +:+ "ai-naming-bot:" +:+ rest).
  apply includes_app_l, includes_prefix.
  rewrite prefix_same_app. now apply substring_prefix.
Qed.

Lemma firstMarker_includes (s hash : string) :
  firstMarker s = Some hash -> Str.includes s ("ai-naming-bot:" +:+ hash) = true.
Proof.
  induction s as [|c rest IH]; cbn [firstMarker].
  - destruct (markerAt EmptyString) eqn:E; [|discriminate].
    intros [= <-]. now apply markerAt_includes.
  - destruct (markerAt (String c rest)) eqn:E.
    + intros [= <-]. now apply markerAt_includes.
    + intros H. apply includes_later. now apply IH.
Qed.

Lemma firstMarker_exists (head hash rest : string) :
  String.length hash = 8%nat ->
  forallb isHexDigit (list_ascii_of_string hash) = true ->
  exists found,
    firstMarker (head +:+ "<!-- ai-naming-bot:" +:+ hash +:+ " -->" +:+ rest)
    = Some found.
Proof.
  intros Hlen Hhex. induction head as [|c head IH].
  - exists hash. change (EmptyString +:+ ?s) with s.
    destruct (String.append _ _) eqn:E; cbn [firstMarker];
      rewrite <- E, (markerAt_marker hash rest Hlen Hhex); reflexivity.
  - change (String c head +:+ ?s) with (String c (head +:+ s)).
    cbn [firstMarker]. destruct (markerAt _); [now eexists|exact IH].
Qed.

(** A text that stops at a line feed starts with the literal only if the
    part before the line feed does. *)
Lemma prefix_until_newline (p x tail : string) :
  forallb (fun a => negb (Ascii.eqb a "010")) (list_ascii_of_string p) = true ->
  String.prefix p (x +:+ String "010" tail) = String.prefix p x.
Proof.
  revert x. induction p as [|a p IH]; intros x Hp.
  - now rewrite !prefix_empty.
  - simpl in Hp. apply andb_prop in Hp as [Ha Hp].
    destruct x as [|c x].
    + change (EmptyString +:+ ?s) with s. cbn [String.prefix].
      destruct (ascii_dec a "010") as [->|_]; [discriminate|reflexivity].
    + change (String c x +:+ ?s) with (String c (x +:+ s)). cbn [String.prefix].
      destruct (ascii_dec a c); [now apply IH|reflexivity].
Qed.

Lemma firstMarker_after_head (head tail : string) :
  Str.includes head "<!-- ai-naming-bot:" = false ->
  firstMarker (head +:+ String "010" tail) = firstMarker tail.
Proof.
  induction head as [|c head IH].
  - intros _. change (EmptyString +:+ ?s) with s. cbn [firstMarker].
    now destruct tail.
  - cbn [Str.includes]. intros H. apply orb_false_elim in H as [Hhere Hlater].
    change (String c head +:+ ?s) with (String c (head +:+ s)).
    cbn [firstMarker]. unfold markerAt at 1.
    change (String c (head +:+ String "010" tail))
      with (String c head +:+ String "010" tail).
    rewrite prefix_until_newline by reflexivity. rewrite Hhere.
    change (String c head +:+ String "010" tail)
      with (String c (head +:+ String "010" tail)).
    now apply IH.
Qed.

Lemma append_assoc (a b c : string) : (a +:+ b) +:+ c = a +:+ b +:+ c.
Proof.
  induction a as [|x a IH]; [reflexivity|].
  change ((String x a +:+ b) +:+ c) with (String x ((a +:+ b) +:+ c)).
  now rewrite IH.
Qed.

(** X14. Deduplication goes by the marker at the end of a formatted
    comment, the digest being hexadecimal. A formatted comment, with or
    without the note of an applied rename before it, is a duplicate
    whenever the existing comments hold one with the same body. And when
    the texts before the marker do not themselves contain the start of a
    marker, the comment is a duplicate exactly when an existing comment
    contains the bot's name followed by the hash of file path, old name
    and new name: line, confidence, rationale, alternatives and the
    suggested change make no difference. *)
Theorem isCommentDuplicate_formatted (F : Formatter)
    (suggestion : NamingSuggestion) (filePath : string) (lineNumber : Z)
    (includeAutofix : bool) (note : string)
    (existingComments : list ExistingComment.t) :
  hexDigests F ->
  let comment :=
    formatSuggestionComment F suggestion filePath lineNumber includeAutofix in
  ReviewComment.hash comment
    = generateCommentHash F filePath (oldName suggestion) (newName suggestion)
  /\ ((exists earlier,
         In earlier existingComments
         /\ ExistingComment.body earlier = note +:+ ReviewComment.body comment) ->
      isCommentDuplicate (note +:+ ReviewComment.body comment) existingComments
      = true)
  /\ (Str.includes (note +:+ bodyBeforeMarker F suggestion includeAutofix)
        "<!-- ai-naming-bot:" = false ->
      isCommentDuplicate (note +:+ ReviewComment.body comment) existingComments
      = existsb (fun earlier =>
                   Str.includes (ExistingComment.body earlier)
                     ("ai-naming-bot:" +:+ ReviewComment.hash comment))
                existingComments).
Proof.
  intros Hhex comment.
  destruct (Hhex (filePath +:+ ":" +:+ oldName suggestion +:+ ":"
                  +:+ newName suggestion)) as [Hlen Hdigits].
  fold (generateCommentHash F filePath (oldName suggestion) (newName suggestion))
    in Hlen, Hdigits.
  set (hash := generateCommentHash F filePath (oldName suggestion)
                 (newName suggestion)) in *.
  assert (Hbody : note +:+ ReviewComment.body comment
                  = (note +:+ bodyBeforeMarker F suggestion includeAutofix)
                    +:+ String "010"
                          ("<!-- ai-naming-bot:" +:+ hash +:+ " -->" +:+ EmptyString)).
  { subst comment. cbn [formatSuggestionComment ReviewComment.body]. fold hash.
    now rewrite append_assoc. }
  split; [reflexivity|]. split.
  - intros (earlier & Hin & Hsame). unfold isCommentDuplicate.
    destruct (firstMarker (note +:+ ReviewComment.body comment)) as [found|] eqn:Hfound.
    + apply existsb_exists. exists earlier. split; [exact Hin|].
      rewrite Hsame. now apply firstMarker_includes.
    + rewrite Hbody in Hfound.
      destruct (firstMarker_exists
                  ((note +:+ bodyBeforeMarker F suggestion includeAutofix)
                   +:+ String "010" EmptyString) hash EmptyString Hlen Hdigits)
        as [found Hsome].
      rewrite append_assoc in Hsome.
      change (String "010" EmptyString +:+ ?s) with (String "010" s) in Hsome.
      congruence.
  - intros Hclean. unfold isCommentDuplicate.
    rewrite Hbody, (firstMarker_after_head _ _ Hclean).
    assert (Hfirst : firstMarker ("<!-- ai-naming-bot:" +:+ hash +:+ " -->"
                                  +:+ EmptyString) = Some hash).
    { destruct (firstMarker_exists EmptyString hash EmptyString Hlen Hdigits)
        as [found Hsome].
      change (EmptyString +:+ ?s) with s in Hsome.
      destruct (String.append "<!-- ai-naming-bot:" _) eqn:E in Hsome |- *;
        cbn [firstMarker] in *;
        rewrite <- E, (markerAt_marker hash EmptyString Hlen Hdigits) in *;
        reflexivity. }
    rewrite Hfirst. reflexivity.
Qed.

(** X14 at work: the comment of an applied rename at line 7, for a
    suggestion with another safety analysis, is a duplicate of the comment
    a review posted for the same file and names at line 3. *)
Lemma isCommentDuplicate_formatted_witness :
  isCommentDuplicate
    (autofixedNote
     +:+ ReviewComment.body
           (formatSuggestionComment plainFormatter scenarioB_public "app.ts" 7 true))
    [earlierComment] = true.
Proof.
  destruct (isCommentDuplicate_formatted plainFormatter scenarioB_public "app.ts" 7
              true autofixedNote [earlierComment]) as (_ & _ & Hmarker).
  - intros data. split; reflexivity.
  - rewrite Hmarker by (vm_compute; reflexivity). vm_compute. reflexivity.
Defined.

(** ** The summary *)

Lemma float_nan_compare (c k : float) :
  PrimFloat.eqb c c = false ->
  PrimFloat.leb k c = false /\ PrimFloat.ltb c k = false.
Proof.
  rewrite FloatAxioms.eqb_spec, FloatAxioms.leb_spec, FloatAxioms.ltb_spec.
  unfold SFeqb, SFleb, SFltb.
  destruct (Prim2SF c) as [s|s| |s m e]; simpl.
  - discriminate.
  - destruct s; discriminate.
  - intros _. now destruct (Prim2SF k) as [sk|sk| |sk mk ek].
  - destruct s; simpl; rewrite Z.compare_refl;
      change (PosDef.Pos.compare_cont Eq m m) with (Pos.compare m m);
      rewrite Pos.compare_refl; discriminate.
Qed.

(** At least 0.8 is at least 0.5. *)
Lemma float_high_above_medium (c : float) :
  PrimFloat.leb 0.8%float c = true -> PrimFloat.leb 0.5%float c = true.
Proof.
  rewrite !FloatAxioms.leb_spec. unfold SFleb.
  replace (Prim2SF 0.8%float)
    with (S754_finite false 7205759403792794 (-53)) by (vm_compute; reflexivity).
  replace (Prim2SF 0.5%float)
    with (S754_finite false 4503599627370496 (-53)) by (vm_compute; reflexivity).
  destruct (Prim2SF c) as [s|s| |s m e]; cbn [SFcompare]; try congruence.
  destruct s; [congruence|].
  destruct (Z.compare_spec (-53) e) as [<-|Hlt|Hgt]; [|easy|easy].
  change (PosDef.Pos.compare_cont Eq ?a ?b) with (Pos.compare a b).
  destruct (Pos.compare_spec 7205759403792794 m) as [<-|Hlt|Hgt].
  - intros _. vm_compute. reflexivity.
  - intros _.
    destruct (Pos.compare_spec 4503599627370496 m) as [Heq|_|Hgt'];
      [reflexivity|reflexivity|].
    exfalso. pose proof (Pos.lt_trans _ _ _ Hlt Hgt') as Hcontra.
    vm_compute in Hcontra. discriminate.
  - discriminate.
Qed.

(** A confidence falls into one bucket, or is not a number. *)
Lemma one_bucket (c : float) :
  ((if PrimFloat.leb 0.8%float c then 1 else 0)
   + (if PrimFloat.leb 0.5%float c && PrimFloat.ltb c 0.8%float then 1 else 0)
   + (if PrimFloat.ltb c 0.5%float then 1 else 0)
   + (if negb (isNumber c) then 1 else 0))%nat = 1%nat.
Proof.
  unfold isNumber. destruct (PrimFloat.eqb c c) eqn:Hnumber.
  - assert (Hlt : forall k, PrimFloat.eqb k k = true ->
                            PrimFloat.ltb c k = negb (PrimFloat.leb k c)).
    { intros k Hk. destruct (PrimFloat.leb k c) eqn:Hle.
      - now apply float_ge_not_lt.
      - destruct (PrimFloat.ltb c k) eqn:Hlt; [reflexivity|].
        rewrite (float_not_lt_ge c k Hnumber Hk Hlt) in Hle. discriminate. }
    rewrite (Hlt 0.8%float eq_refl), (Hlt 0.5%float eq_refl).
    destruct (PrimFloat.leb 0.8%float c) eqn:Hhigh.
    + now rewrite (float_high_above_medium c Hhigh).
    + now destruct (PrimFloat.leb 0.5%float c).
  - destruct (float_nan_compare c 0.8%float Hnumber) as [-> ->].
    destruct (float_nan_compare c 0.5%float Hnumber) as [-> ->].
    reflexivity.
Qed.

(** X15. The three counts of the summary and the suggestions whose
    confidence is not a number add up to the number of suggestions: a
    confidence that is a number is counted in exactly one of high (at least
    0.8), medium (at least 0.5 and below 0.8) and low (below 0.5), and one
    that is not a number in none. *)
Theorem formatSummaryComment_counts (suggestions : list NamingSuggestion) :
  (highConfidence suggestions + mediumConfidence suggestions
   + lowConfidence suggestions
   + length (List.filter (fun s => negb (isNumber (confidence s))) suggestions))%nat
  = length suggestions.
Proof.
  unfold highConfidence, mediumConfidence, lowConfidence.
  induction suggestions as [|s suggestions IH]; [reflexivity|].
  cbn [List.filter length].
  pose proof (one_bucket (confidence s)) as Hone.
  destruct (PrimFloat.leb 0.8%float (confidence s)),
           (PrimFloat.leb 0.5%float (confidence s) && PrimFloat.ltb (confidence s) 0.8%float),
           (PrimFloat.ltb (confidence s) 0.5%float),
           (negb (isNumber (confidence s)));
    cbn [length] in *; lia.
Qed.

(** ** Identifiers of the added code *)

Lemma addIdentifier_spec (identifiers : list string) (name : string) :
  NoDup identifiers ->
  NoDup (addIdentifier identifiers name)
  /\ forall x, In x (addIdentifier identifiers name) <-> In x identifiers \/ x = name.
Proof.
  intros Hdistinct. unfold addIdentifier.
  destruct (existsb (String.eqb name) identifiers) eqn:Hthere.
  - split; [exact Hdistinct|]. intros x. split; [now left|].
    intros [Hin| ->]; [exact Hin|].
    apply existsb_exists in Hthere as (y & Hy & Hsame).
    apply String.eqb_eq in Hsame. now subst y.
  - split.
    + apply NoDup_app. split; [exact Hdistinct|]. split.
      * intros x Hx [<-|[]]%list_elem_of_In.
        assert (Hcontra : existsb (String.eqb name) identifiers = true).
        { apply existsb_exists. exists name. split.
          - now apply list_elem_of_In.
          - apply String.eqb_refl. }
        congruence.
      * apply NoDup_singleton.
    + intros x. rewrite in_app_iff. simpl. intuition congruence.
Qed.

Lemma keepIdentifier_spec (names identifiers : list string) :
  NoDup identifiers ->
  NoDup (fold_left keepIdentifier names identifiers)
  /\ forall x,
       In x (fold_left keepIdentifier names identifiers)
       <-> In x identifiers
           \/ (In x names /\ (1 < String.length x)%nat /\ isCommonKeyword x = false).
Proof.
  revert identifiers. induction names as [|name names IH]; intros identifiers Hdistinct.
  - split; [exact Hdistinct|]. intros x. simpl. tauto.
  - cbn [fold_left].
    assert (Hstep : NoDup (keepIdentifier identifiers name)
                    /\ forall x, In x (keepIdentifier identifiers name)
                                 <-> In x identifiers
                                     \/ (x = name /\ (1 < String.length x)%nat
                                         /\ isCommonKeyword x = false)).
    { unfold keepIdentifier.
      destruct (Nat.ltb_spec 1 (String.length name)) as [Hlong|Hshort]; simpl.
      - destruct (isCommonKeyword name) eqn:Hkeyword; simpl.
        + split; [exact Hdistinct|]. intros x. split; [now left|].
          intros [Hin|(-> & _ & Hnot)]; [exact Hin|congruence].
        + destruct (addIdentifier_spec identifiers name Hdistinct) as [Hnodup Hin].
          split; [exact Hnodup|]. intros x. rewrite Hin. split.
          * intros [H| ->]; [now left|now right].
          * intros [H|(-> & _)]; [now left|now right].
      - split; [exact Hdistinct|]. intros x. split; [now left|].
        intros [Hin|(-> & Hlong & _)]; [exact Hin|lia]. }
    destruct Hstep as [Hnodup Hin].
    destruct (IH _ Hnodup) as [Hnodup' Hin'].
    split; [exact Hnodup'|]. intros x. rewrite Hin', Hin. simpl.
    split.
    + intros [[H|(-> & H)]|(H & H')]; auto.
    + intros [H|([<-|H] & H')]; auto.
Qed.

Lemma extractIdentifiers_spec (E : Engine) (code : string)
    (language : LanguageType) :
  NoDup (extractIdentifiers E code language)
  /\ forall name,
       In name (extractIdentifiers E code language)
       <-> (exists pattern,
              In pattern (patternsOf language)
              /\ In name (exec_captures E pattern code))
           /\ (1 < String.length name)%nat
           /\ isCommonKeyword name = false.
Proof.
  unfold extractIdentifiers.
  assert (Hfold : forall patterns identifiers,
            NoDup identifiers ->
            NoDup (fold_left (fun identifiers pattern =>
                                fold_left keepIdentifier
                                  (exec_captures E pattern code) identifiers)
                             patterns identifiers)
            /\ forall x,
                 In x (fold_left (fun identifiers pattern =>
                                    fold_left keepIdentifier
                                      (exec_captures E pattern code) identifiers)
                                 patterns identifiers)
                 <-> In x identifiers
                     \/ ((exists pattern,
                            In pattern patterns
                            /\ In x (exec_captures E pattern code))
                         /\ (1 < String.length x)%nat
                         /\ isCommonKeyword x = false)).
  { induction patterns as [|pattern patterns IH]; intros identifiers Hdistinct.
    - split; [exact Hdistinct|]. intros x. simpl. split; [now left|].
      intros [H|((pattern & [] & _) & _)]. exact H.
    - cbn [fold_left].
      destruct (keepIdentifier_spec (exec_captures E pattern code) identifiers
                  Hdistinct) as [Hnodup Hin].
      destruct (IH _ Hnodup) as [Hnodup' Hin'].
      split; [exact Hnodup'|]. intros x. rewrite Hin', Hin. split.
      + intros [[H|(H & Hlong & Hkey)]|((p & Hp & Hx) & Hlong & Hkey)].
        * now left.
        * right. split; [|now split]. exists pattern. split; [now left|exact H].
        * right. split; [|now split]. exists p. split; [now right|exact Hx].
      + intros [H|((p & [<-|Hp] & Hx) & Hlong & Hkey)].
        * left. now left.
        * left. right. now repeat split.
        * right. split; [|now split]. now exists p. }
  destruct (Hfold (patternsOf language) [] (NoDup_nil_2 (A:=string))) as [Hnodup Hin].
  split; [exact Hnodup|].
  intros name. rewrite Hin. simpl. tauto.
Qed.

(** X16. [extractIdentifiers] returns a list without repetition that
    holds exactly the names captured by one of the three patterns of the
    language that have more than one code unit and, put in lower case, are
    not among the common keywords: a name such as Default, Get, New or
    Public is dropped like the keyword itself. *)
Theorem extractIdentifiers_set (E : Engine) (code : string)
    (language : LanguageType) :
  NoDup (extractIdentifiers E code language)
  /\ (forall name,
        In name (extractIdentifiers E code language)
        <-> (exists pattern,
               In pattern (patternsOf language)
               /\ In name (exec_captures E pattern code))
            /\ (1 < String.length name)%nat
            /\ existsb (String.eqb (Str.toLowerCase name)) keywords = false)
  /\ isCommonKeyword "Default" = true.
Proof.
  destruct (extractIdentifiers_spec E code language) as [Hnodup Hin].
  split; [exact Hnodup|]. split; [|reflexivity]. exact Hin.
Qed.

(** ** Symbol information for Python and Go *)

Lemma append_cons (c : ascii) (a b : string) :
  String c a +:+ b = String c (a +:+ b).
Proof. reflexivity. Qed.

Lemma append_nil (b : string) : EmptyString +:+ b = b.
Proof. reflexivity. Qed.

(** What a sequence matches splits into what its two parts match. *)
Lemma matches_Seq_split (r1 r2 : Regex.t) (s : string) :
  Regex.matches (Regex.Seq r1 r2) s = true
  <-> exists s1 s2, s = s1 +:+ s2
                    /\ Regex.matches r1 s1 = true /\ Regex.matches r2 s2 = true.
Proof.
  revert r1. induction s as [|c rest IH]; intros r1.
  - cbn [Regex.matches Regex.nullable]. rewrite andb_true_iff. split.
    + intros [H1 H2]. now exists EmptyString, EmptyString.
    + intros (s1 & s2 & Heq & H1 & H2).
      destruct s1 as [|d s1]; [|discriminate].
      destruct s2 as [|d s2]; [|discriminate]. now split.
  - cbn [Regex.matches Regex.deriv]. destruct (Regex.nullable r1) eqn:Hnull.
    + rewrite matches_Alt, orb_true_iff, IH. split.
      * intros [(s1 & s2 & -> & H1 & H2)|H].
        -- now exists (String c s1), s2.
        -- exists EmptyString, (String c rest). now repeat split.
      * intros (s1 & s2 & Heq & H1 & H2). destruct s1 as [|d s1].
        -- right. rewrite append_nil in Heq. now subst s2.
        -- left. rewrite append_cons in Heq. injection Heq as <- ->.
           now exists s1, s2.
    + rewrite IH. split.
      * intros (s1 & s2 & -> & H1 & H2). now exists (String c s1), s2.
      * intros (s1 & s2 & Heq & H1 & H2). destruct s1 as [|d s1].
        -- cbn [Regex.matches] in H1. congruence.
        -- rewrite append_cons in Heq. injection Heq as <- ->.
           now exists s1, s2.
Qed.

(** A pattern is found in a text when it matches a part of it. *)
Lemma test_split (r : Regex.t) (s : string) :
  Regex.test r s = true
  <-> exists before found after,
        s = before +:+ found +:+ after /\ Regex.matches r found = true.
Proof.
  unfold Regex.test. rewrite matches_Seq_split. split.
  - intros (before & s2 & -> & _ & H).
    apply matches_Seq_split in H as (found & after & -> & H & _).
    now exists before, found, after.
  - intros (before & found & after & -> & H).
    exists before, (found +:+ after). split; [reflexivity|].
    split; [apply matches_Star_Any|].
    apply matches_Seq_split. exists found, after.
    split; [reflexivity|]. split; [exact H|apply matches_Star_Any].
Qed.

Lemma matches_Eps (s : string) : Regex.matches Regex.Eps s = true -> s = EmptyString.
Proof.
  destruct s as [|c rest]; [reflexivity|].
  cbn [Regex.matches Regex.deriv]. now rewrite matches_Void.
Qed.

Lemma matches_Class (p : ascii -> bool) (s : string) :
  Regex.matches (Regex.Class p) s = true ->
  exists c, s = String c EmptyString /\ p c = true.
Proof.
  destruct s as [|c rest]; [discriminate|].
  cbn [Regex.matches Regex.deriv]. destruct (p c) eqn:Hp.
  - intros ->%matches_Eps. now exists c.
  - now rewrite matches_Void.
Qed.

Lemma hasInk_app (a b : string) : hasInk (a +:+ b) = hasInk a || hasInk b.
Proof.
  unfold hasInk. induction a as [|c a IH]; [reflexivity|].
  rewrite append_cons. cbn [list_ascii_of_string existsb].
  now rewrite IH, orb_assoc.
Qed.

Lemma inked_Seq_l (r1 r2 : Regex.t) : inked r1 -> inked (Regex.Seq r1 r2).
Proof.
  intros H s (s1 & s2 & -> & H1 & _)%matches_Seq_split.
  rewrite hasInk_app, (H _ H1). reflexivity.
Qed.

Lemma inked_Seq_r (r1 r2 : Regex.t) : inked r2 -> inked (Regex.Seq r1 r2).
Proof.
  intros H s (s1 & s2 & -> & _ & H2)%matches_Seq_split.
  rewrite hasInk_app, (H _ H2). apply orb_true_r.
Qed.

Lemma inked_Chr (c : ascii) : Regex.space c = false -> inked (Regex.Chr c).
Proof.
  intros Hink s (d & -> & Hd)%matches_Class.
  apply Ascii.eqb_eq in Hd. subst d. unfold hasInk. simpl. now rewrite Hink.
Qed.

Lemma inked_Lit (c : ascii) (rest : string) :
  Regex.space c = false -> inked (Regex.Lit (String c rest)).
Proof. intros Hink. apply inked_Seq_l, inked_Chr, Hink. Qed.

Lemma test_inked (r : Regex.t) (s : string) :
  inked r -> Regex.test r s = true -> hasInk s = true.
Proof.
  intros H (before & found & after & -> & Hfound)%test_split.
  rewrite !hasInk_app, (H _ Hfound). now rewrite orb_true_r.
Qed.

Lemma declaresIn_python_inked (symbolName line : string) :
  declaresIn pythonPatterns symbolName line = true -> hasInk line = true.
Proof.
  unfold declaresIn, pythonPatterns. cbn [existsb fst].
  rewrite !orb_true_iff. intros [H|[H|[H|H]]]; [| | |discriminate];
    revert H; apply test_inked.
  - now apply inked_Seq_l, inked_Lit.
  - now apply inked_Seq_l, inked_Lit.
  - now apply inked_Seq_r, inked_Seq_r, inked_Chr.
Qed.

Lemma declaresIn_go_inked (symbolName line : string) :
  declaresIn goPatterns symbolName line = true -> hasInk line = true.
Proof.
  unfold declaresIn, goPatterns. cbn [existsb fst].
  rewrite !orb_true_iff. intros [H|[H|[H|H]]]; [| | |discriminate];
    revert H; apply test_inked; now apply inked_Seq_l, inked_Lit.
Qed.

Lemma trimStart_hasInk (s : string) : hasInk (trimStart s) = hasInk s.
Proof.
  unfold hasInk. induction s as [|c rest IH]; [reflexivity|].
  cbn [trimStart]. destruct (Regex.space c) eqn:Hspace.
  - rewrite IH. cbn [list_ascii_of_string existsb]. now rewrite Hspace.
  - reflexivity.
Qed.

Lemma trimEnd_empty (s : string) : trimEnd s = EmptyString <-> hasInk s = false.
Proof.
  unfold hasInk. induction s as [|c rest IH]; [easy|].
  cbn [trimEnd list_ascii_of_string existsb].
  destruct (trimEnd rest) as [|d kept] eqn:Hrest.
  - destruct IH as [IH _]. rewrite (IH eq_refl), orb_false_r.
    destruct (Regex.space c); easy.
  - split; [discriminate|]. intros [_ H]%orb_false_iff.
    destruct IH as [_ IH]. now specialize (IH H).
Qed.

Lemma trim_empty (s : string) : trim s = EmptyString <-> hasInk s = false.
Proof. unfold trim. now rewrite trimEnd_empty, trimStart_hasInk. Qed.

Lemma anyMatch_word (E : Engine) (patterns : string -> list (Regex.t * string))
    (symbolName line : string) :
  isWordText symbolName = true ->
  anyMatch (List.map (fun pattern => lineMatches E symbolName pattern line)
              (patterns symbolName))
  = Ok (declaresIn patterns symbolName line).
Proof.
  intros Hword. unfold declaresIn.
  induction (patterns symbolName) as [|pattern later IH]; [reflexivity|].
  cbn [List.map anyMatch existsb]. unfold lineMatches at 1.
  unfold isWordText in Hword. now rewrite Hword, IH.
Qed.

Lemma findDeclaration_none (d : string -> bool) (lines : list string) (i : Z) :
  (forall line, In line lines -> d line = false) ->
  findDeclaration (fun line => Ok (d line)) lines i = Ok (EmptyString, 0).
Proof.
  revert i. induction lines as [|line later IH]; intros i Hnone; [reflexivity|].
  cbn [findDeclaration]. rewrite (Hnone line (or_introl eq_refl)).
  apply IH. intros other Hother. apply Hnone. now right.
Qed.

Lemma findDeclaration_first (d : string -> bool) (lines : list string) (i : Z) :
  (exists line, In line lines /\ d line = true) ->
  exists k line,
    lines !! k = Some line /\ d line = true
    /\ (forall j earlier, (j < k)%nat -> lines !! j = Some earlier ->
                          d earlier = false)
    /\ findDeclaration (fun line => Ok (d line)) lines i
       = Ok (trim line, i + Z.of_nat k + 1).
Proof.
  revert i. induction lines as [|line later IH]; intros i (found & Hin & Hfound).
  - destruct Hin.
  - cbn [findDeclaration]. destruct (d line) eqn:Hline.
    + exists 0%nat, line. repeat split; [exact Hline|lia|f_equal; f_equal; lia].
    + destruct Hin as [->|Hin]; [congruence|].
      destruct (IH (i + 1) (ex_intro _ found (conj Hin Hfound)))
        as (k & l & Hk & Hl & Hearlier & Hrun).
      exists (S k), l. repeat split; [exact Hk|exact Hl| |].
      * intros [|j] earlier Hj Hat.
        -- injection Hat as <-. exact Hline.
        -- apply (Hearlier j); [lia|exact Hat].
      * rewrite Hrun. f_equal. f_equal. lia.
Qed.

Lemma findUsages_after (symbolName : string) (lineNumber : Z)
    (lines : list string) (i : Z) (usages : list string) :
  lineNumber - 1 < i ->
  findUsages symbolName lineNumber lines i usages
  = usages ++ take (5 - length usages)
                (List.map trim
                   (List.filter (fun line => Str.includes line symbolName) lines)).
Proof.
  revert i usages. induction lines as [|line later IH]; intros i usages Hpast.
  - cbn [findUsages List.filter List.map]. now rewrite take_nil, app_nil_r.
  - cbn [findUsages List.filter].
    destruct (Z.eqb_spec i (lineNumber - 1)) as [->|_]; [lia|].
    destruct (Str.includes line symbolName) eqn:Hin; cbn [andb].
    + destruct (Nat.ltb_spec (length usages) 5) as [Hroom|Hfull].
      * rewrite IH by lia. rewrite length_app. cbn [length List.map].
        replace (5 - length usages)%nat with (S (5 - (length usages + 1)))%nat by lia.
        cbn [take]. now rewrite <- app_assoc.
      * rewrite IH by lia.
        replace (5 - length usages)%nat with 0%nat by lia. now rewrite !take_0.
    + apply IH. lia.
Qed.

Lemma findUsages_before (symbolName : string) (lineNumber : Z)
    (lines : list string) (i : Z) (k : nat) (usages : list string) :
  lineNumber - 1 = i + Z.of_nat k ->
  findUsages symbolName lineNumber lines i usages
  = usages ++ take (5 - length usages)
                (List.map trim
                   (List.filter (fun line => Str.includes line symbolName)
                      (delete k lines))).
Proof.
  revert i k usages. induction lines as [|line later IH]; intros i k usages Hk.
  - cbn [findUsages]. destruct k; cbn; now rewrite take_nil, app_nil_r.
  - cbn [findUsages]. destruct k as [|k].
    + destruct (Z.eqb_spec i (lineNumber - 1)) as [_|Hne]; [|lia].
      cbn [delete list_delete]. apply findUsages_after. lia.
    + destruct (Z.eqb_spec i (lineNumber - 1)) as [Heq|_]; [lia|].
      change (delete (S k) (line :: later)) with (line :: delete k later).
      cbn [List.filter].
      destruct (Str.includes line symbolName) eqn:Hin; cbn [andb].
      * destruct (Nat.ltb_spec (length usages) 5) as [Hroom|Hfull].
        -- rewrite (IH (i + 1) k) by lia. rewrite length_app. cbn [length List.map].
           replace (5 - length usages)%nat
             with (S (5 - (length usages + 1)))%nat by lia.
           cbn [take]. now rewrite <- app_assoc.
        -- rewrite (IH (i + 1) k) by lia.
           replace (5 - length usages)%nat with 0%nat by lia.
           now rewrite !take_0.
      * apply (IH (i + 1) k). lia.
Qed.

Lemma extractByLines_describes (E : Engine)
    (patterns : string -> list (Regex.t * string))
    (symbolName fileContent : string) :
  isWordText symbolName = true ->
  (forall line, declaresIn patterns symbolName line = true -> hasInk line = true) ->
  exists result,
    extractByLines E patterns symbolName fileContent = Ok result
    /\ describes patterns symbolName (Str.split "010" fileContent) result.
Proof.
  intros Hword Hink. unfold extractByLines.
  set (lines := Str.split "010" fileContent).
  assert (Hdeclares :
    findDeclaration
      (fun line => anyMatch (List.map (fun pattern =>
                                         lineMatches E symbolName pattern line)
                               (patterns symbolName))) lines 0
    = findDeclaration (fun line => Ok (declaresIn patterns symbolName line))
        lines 0).
  { generalize 0. induction lines as [|line later IH]; intros i; [reflexivity|].
    cbn [findDeclaration]. rewrite anyMatch_word by exact Hword.
    destruct (declaresIn patterns symbolName line); [reflexivity|apply IH]. }
  rewrite Hdeclares.
  destruct (existsb (declaresIn patterns symbolName) lines) eqn:Hsome.
  - apply existsb_exists in Hsome.
    destruct (findDeclaration_first (declaresIn patterns symbolName) lines 0 Hsome)
      as (k & line & Hk & Hline & Hearlier & ->).
    assert (Hdeclaration : trim line <> EmptyString).
    { intros Hblank%trim_empty. rewrite (Hink line Hline) in Hblank. discriminate. }
    apply String.eqb_neq in Hdeclaration. rewrite Hdeclaration.
    eexists. split; [reflexivity|]. cbn [describes].
    exists k, line. repeat split; [exact Hk|exact Hline|exact Hearlier| |].
    + rewrite (findUsages_before symbolName _ lines 0 k []) by lia.
      now replace (0 + Z.of_nat k + 1) with (Z.of_nat k + 1) by lia.
    + now apply String.eqb_neq.
  - rewrite findDeclaration_none.
    + exists None. split; [reflexivity|]. cbn [describes].
      intros line Hin. destruct (declaresIn patterns symbolName line) eqn:Hline;
        [|reflexivity].
      assert (Hcontra : existsb (declaresIn patterns symbolName) lines = true)
        by (apply existsb_exists; now exists line).
      congruence.
    + intros line Hin.
      destruct (declaresIn patterns symbolName line) eqn:Hline; [|reflexivity].
      assert (Hcontra : existsb (declaresIn patterns symbolName) lines = true)
        by (apply existsb_exists; now exists line).
      congruence.
Qed.

(** X17. For a name made of word characters, [extractPythonSymbolInfo] and
    [extractGoSymbolInfo] never throw. They return [null] exactly when no
    line of the file has a match of one of the three patterns of the
    language; otherwise the declaration is the first such line, trimmed
    (never empty), [lineNumber] is its index plus one, and the usages are
    the first five of the other lines that contain the name as a
    substring, trimmed, in file order. *)
Theorem extractSymbolInfo_by_lines (E : Engine)
    (filePath symbolName fileContent : string) :
  isWordText symbolName = true ->
  exists python go,
    extractPythonSymbolInfo E filePath symbolName fileContent = Ok python
    /\ describes pythonPatterns symbolName (Str.split "010" fileContent) python
    /\ extractGoSymbolInfo E filePath symbolName fileContent = Ok go
    /\ describes goPatterns symbolName (Str.split "010" fileContent) go.
Proof.
  intros Hword.
  destruct (extractByLines_describes E pythonPatterns symbolName fileContent Hword
              (declaresIn_python_inked symbolName)) as (python & Hpython & Hp).
  destruct (extractByLines_describes E goPatterns symbolName fileContent Hword
              (declaresIn_go_inked symbolName)) as (go & Hgo & Hg).
  now exists python, go.
Qed.

Lemma extractSymbolInfo_by_lines_witness :
  isWordText "total" = true
  /\ exists python go,
       extractPythonSymbolInfo quietEngine "app.py" "total" pythonSource = Ok python
       /\ describes pythonPatterns "total" (Str.split "010" pythonSource) python
       /\ extractGoSymbolInfo quietEngine "app.py" "total" pythonSource = Ok go
       /\ describes goPatterns "total" (Str.split "010" pythonSource) go.
Proof.
  split; [reflexivity|].
  apply (extractSymbolInfo_by_lines quietEngine "app.py" "total" pythonSource).
  reflexivity.
Defined.

(** ** The entry points *)

Lemma hasLabel_In (pr : PullRequest.t) (label : string) :
  hasLabel pr label = true <-> In label (PullRequest.labels pr).
Proof.
  unfold hasLabel. rewrite existsb_exists. split.
  - intros (x & Hin & Heq). apply String.eqb_eq in Heq. now subst x.
  - intros Hin. exists label. split; [exact Hin|apply String.eqb_refl].
Qed.

(** X18. Whatever the platform and the state, a run of [runAutofix]
    either was told of a pull request that is not from a fork and carries
    the label auto-naming-fix, or it changed no file of the working tree,
    left the suggestion client untouched and sent GitHub nothing but the
    request for the pull request and the notice on a fork at line 1 of
    README.md: missing variables, a missing token, a failed request, a
    fork and a missing label all end the run before anything is renamed
    or committed. *)
Theorem runAutofix_gate (P : Platform) (a : App) :
  gateOpen P a
  \/ (fs (world (runAutofix P a).2) = fs (world a)
      /\ client (runAutofix P a).2 = client a
      /\ exists calls,
           sentSince a (runAutofix P a).2 calls
           /\ forallb beforeTheGate calls = true).
Proof.
  assert (Hstill : forall a' : App,
            fs (world a') = fs (world a) -> client a' = client a ->
            github a' = github a ->
            fs (world a') = fs (world a) /\ client a' = client a
            /\ exists calls, sentSince a a' calls
                             /\ forallb beforeTheGate calls = true).
  { intros a' Hworld Hclient Hgithub. split; [exact Hworld|].
    split; [exact Hclient|].
    exists []. unfold sentSince. now rewrite app_nil_r. }
  assert (Hasked : forall (a' : App) owner repo prNumber,
            fs (world a') = fs (world a) -> client a' = client a ->
            github a' = github a ++ [PullsGet owner repo prNumber] ->
            fs (world a') = fs (world a) /\ client a' = client a
            /\ exists calls, sentSince a a' calls
                             /\ forallb beforeTheGate calls = true).
  { intros a' owner repo prNumber Hworld Hclient Hgithub.
    split; [exact Hworld|]. split; [exact Hclient|].
    now exists [PullsGet owner repo prNumber]. }
  unfold runAutofix.
  cbv beta iota zeta delta [reported bindResult bind ret fst snd].
  destruct (readContext P "Missing required environment variables")
    as [[[owner repo] prNumber]|e] eqn:Hcontext.
  2: { right. now apply Hstill. }
  destruct (createOctokit P) as [[]|e] eqn:Htoken.
  2: { right. now apply Hstill. }
  cbv beta iota zeta delta [getPullRequest request bindResult bind ret fst snd].
  destruct (pulls_get (octokit P) (github a) owner repo prNumber)
    as [data|e] eqn:Hget.
  2: { right. now apply (Hasked _ owner repo prNumber). }
  unfold isForkPR. cbn [PullRequest.isFork].
  destruct (PullData.head_repo_fork data) as [[|]|] eqn:Hfork;
    cbn [default from_option id].
  - right.
    cbv beta iota zeta delta [postReviewComment log liftIO logger request bind ret].
    cbn [fst snd world client github fs].
    destruct (pulls_createReviewComment (octokit P)
                (github a ++ [PullsGet owner repo prNumber]) owner repo prNumber
                "README.md" 1 forkNotice);
      cbn [fst snd world client github fs];
      (split; [reflexivity|]; split; [reflexivity|];
       exists [PullsGet owner repo prNumber;
               PullsCreateReviewComment owner repo prNumber "README.md" 1 forkNotice];
       split; [unfold sentSince; cbn [github]; now rewrite <- app_assoc|]);
      reflexivity.
  - destruct (hasLabel _ AUTOFIX_LABEL) eqn:Hlabel; cbn [negb].
    + left. apply hasLabel_In in Hlabel. cbn [PullRequest.labels] in Hlabel.
      exists owner, repo, prNumber, data. rewrite Hfork. now repeat split.
    + right. now apply (Hasked _ owner repo prNumber).
  - destruct (hasLabel _ AUTOFIX_LABEL) eqn:Hlabel; cbn [negb].
    + left. apply hasLabel_In in Hlabel. cbn [PullRequest.labels] in Hlabel.
      exists owner, repo, prNumber, data. rewrite Hfork. now repeat split.
    + right. now apply (Hasked _ owner repo prNumber).
Qed.

(** *** What the parts of a run keep *)

Section Keeps.

Variable R : App -> App -> Prop.
Variable allowed : OctokitCall -> bool.
Hypothesis R_refl : forall a, R a a.
Hypothesis R_trans : forall a b c, R a b -> R b c -> R a c.
Hypothesis R_logs :
  forall a w', fs w' = fs (world a) -> R a (mkApp w' (client a) (github a)).
Hypothesis R_request :
  forall a call, allowed call = true ->
                 R a (mkApp (world a) (client a) (github a ++ [call])).
Hypothesis allowed_reads : forall call, readCall call = true -> allowed call = true.

Lemma Keeps_ret {A : Type} (x : A) : Keeps R (ret x).
Proof. intros a. apply R_refl. Qed.

Lemma Keeps_bind {A B : Type} (m : Run A) (k : A -> Run B) :
  Keeps R m -> (forall x, Keeps R (k x)) -> Keeps R (bind m k).
Proof.
  intros Hm Hk a. unfold bind. specialize (Hm a).
  destruct (m a) as [x a1]. exact (R_trans _ _ _ Hm (Hk x a1)).
Qed.

Lemma Keeps_bindResult {A B : Type} (m : Run (Result A))
    (k : A -> Run (Result B)) :
  Keeps R m -> (forall x, Keeps R (k x)) -> Keeps R (bindResult m k).
Proof.
  intros Hm Hk. apply Keeps_bind; [exact Hm|].
  intros [x|e]; [apply Hk|apply Keeps_ret].
Qed.

Lemma Keeps_liftIO {A : Type} (m : IO A) :
  (forall w, fs (m w).2 = fs w) -> Keeps R (liftIO m).
Proof.
  intros Hm a. unfold liftIO. specialize (Hm (world a)).
  destruct (m (world a)) as [x w]. now apply R_logs.
Qed.

Lemma Keeps_log (level : LogLevel) (msg : string) : Keeps R (log level msg).
Proof. apply Keeps_liftIO. reflexivity. Qed.

Lemma Keeps_request {A : Type} (call : OctokitCall)
    (answer : list OctokitCall -> Result A) :
  allowed call = true -> Keeps R (request call answer).
Proof. intros Hallowed a. now apply R_request. Qed.

Lemma Keeps_getPullRequest (P : Platform) (owner repo : string) (prNumber : Z) :
  allowed (PullsGet owner repo prNumber) = true ->
  Keeps R (getPullRequest P owner repo prNumber).
Proof.
  intros Hallowed. apply Keeps_bindResult; [now apply Keeps_request|].
  intros pr. apply Keeps_ret.
Qed.

Lemma Keeps_postReviewComment (P : Platform) (owner repo : string) (prNumber : Z)
    (path : string) (line : Z) (body : string) :
  allowed (PullsCreateReviewComment owner repo prNumber path line body) = true ->
  Keeps R (postReviewComment P owner repo prNumber path line body).
Proof.
  intros Hallowed. apply Keeps_bind; [now apply Keeps_request|].
  intros [[]|error]; [apply Keeps_ret|].
  apply Keeps_bind; [apply Keeps_log|intros _; apply Keeps_ret].
Qed.

Lemma Keeps_getExistingComments (P : Platform) (owner repo : string)
    (prNumber : Z) :
  allowed (PullsListReviewComments owner repo prNumber) = true ->
  Keeps R (getExistingComments P owner repo prNumber).
Proof.
  intros Hallowed. apply Keeps_bind; [now apply Keeps_request|].
  intros [comments|error]; [apply Keeps_ret|].
  apply Keeps_bind; [apply Keeps_log|intros _; apply Keeps_ret].
Qed.

Lemma extractSymbolInfo_fs (P : Platform) (filePath symbolName fileContent : string)
    (language : LanguageType) (w : World) :
  fs (extractSymbolInfo P filePath symbolName fileContent language w).2 = fs w.
Proof.
  unfold extractSymbolInfo, extractTsSymbolInfo, logger, bind, ret.
  destruct language; try reflexivity;
    now destruct (ts_symbolInfo P filePath symbolName fileContent).
Qed.

Lemma Keeps_contextsOfIdentifiers (P : Platform) (pr : PullRequest.t)
    (filename : string) (language : LanguageType) (fileContent : string)
    (identifiers : list string) (contexts : list NamingContext.t) :
  Keeps R (contextsOfIdentifiers P pr filename language fileContent identifiers
             contexts).
Proof.
  revert contexts. induction identifiers as [|identifier later IH]; intros contexts.
  - apply Keeps_ret.
  - cbn [contextsOfIdentifiers]. apply Keeps_bindResult.
    + apply Keeps_liftIO. apply extractSymbolInfo_fs.
    + intros [symbolInfo|]; [|apply IH].
      destruct (negb _); apply IH.
Qed.

Lemma Keeps_contextsOfFiles (P : Platform) (pr : PullRequest.t)
    (files : list PullFile.t) (contexts : list NamingContext.t) :
  Keeps R (contextsOfFiles P pr files contexts).
Proof.
  revert contexts. induction files as [|file later IH]; intros contexts.
  - apply Keeps_ret.
  - cbn [contextsOfFiles]. destruct (String.eqb _ "removed"); [apply IH|].
    destruct (parseDiff _ _) as [diff|]; [|apply IH].
    apply Keeps_bind; [now apply Keeps_request, allowed_reads|].
    intros [[content|]|error].
    + apply Keeps_bindResult; [apply Keeps_contextsOfIdentifiers|].
      intros built. apply IH.
    + apply Keeps_bind; [apply Keeps_log|intros _; apply IH].
    + apply Keeps_bind; [apply Keeps_log|intros _; apply IH].
Qed.

Lemma Keeps_buildContextsFromPR (P : Platform) (pr : PullRequest.t) :
  Keeps R (buildContextsFromPR P pr).
Proof.
  apply Keeps_bindResult; [now apply Keeps_request, allowed_reads|].
  intros files. apply Keeps_contextsOfFiles.
Qed.

Lemma Keeps_reported (label : string) (body : Run (Result unit)) :
  Keeps R body -> Keeps R (reported label body).
Proof.
  intros Hbody. apply Keeps_bind; [exact Hbody|].
  intros [[]|error]; [apply Keeps_ret|].
  apply Keeps_bind; [apply Keeps_log|intros _; apply Keeps_ret].
Qed.

Hypothesis R_client :
  forall a c, R a (mkApp (world a) c (github a)).
Hypothesis allowed_review :
  forall call, reviewCall call = true -> allowed call = true.

Lemma Keeps_liftClient {A : Type} (m : Client A) : Keeps R (liftClient m).
Proof.
  intros a. unfold liftClient. destruct (m (client a)) as [x c]. apply R_client.
Qed.

Lemma Keeps_postInlineComments (P : Platform) (owner repo : string) (prNumber : Z)
    (existingComments : list ExistingComment.t) (suggestions : list Collected)
    (postedCount : Z) :
  Keeps R (postInlineComments P owner repo prNumber existingComments suggestions
             postedCount).
Proof.
  revert postedCount.
  induction suggestions as [|[suggestion context] later IH]; intros postedCount.
  - apply Keeps_ret.
  - cbn [postInlineComments]. cbv zeta. destruct (isCommentDuplicate _ _); [apply IH|].
    apply Keeps_bind; [now apply Keeps_postReviewComment, allowed_review|].
    intros [[]|error]; [apply IH|].
    apply Keeps_bind; [apply Keeps_log|intros _; apply IH].
Qed.

Lemma Keeps_runReview (P : Platform) : Keeps R (runReview P).
Proof.
  apply Keeps_reported.
  apply Keeps_bindResult; [apply Keeps_ret|]. intros [[owner repo] prNumber].
  apply Keeps_bindResult; [apply Keeps_ret|]. intros _.
  apply Keeps_bindResult; [now apply Keeps_getPullRequest, allowed_review|].
  intros pr.
  apply Keeps_bindResult; [apply Keeps_buildContextsFromPR|].
  intros [|first others]; [apply Keeps_ret|].
  apply Keeps_bind; [now apply Keeps_getExistingComments, allowed_review|].
  intros existingComments.
  apply Keeps_bindResult; [apply Keeps_liftClient|].
  intros [|collected suggestions].
  - now apply Keeps_postReviewComment, allowed_review.
  - apply Keeps_bind; [apply Keeps_postInlineComments|]. intros postedCount.
    apply Keeps_bind; [apply Keeps_liftClient|]. intros stats. apply Keeps_ret.
Qed.

End Keeps.

Lemma within_refl (allowed : OctokitCall -> bool) (a : App) : within allowed a a.
Proof.
  split; [reflexivity|]. exists []. split; [|reflexivity].
  unfold sentSince. now rewrite app_nil_r.
Qed.

Lemma within_trans (allowed : OctokitCall -> bool) (a b c : App) :
  within allowed a b -> within allowed b c -> within allowed a c.
Proof.
  intros [Hfs (calls & Hsent & Hallowed)] [Hfs' (calls' & Hsent' & Hallowed')].
  split; [congruence|]. exists (calls ++ calls'). split.
  - unfold sentSince in *. now rewrite Hsent', Hsent, app_assoc.
  - rewrite forallb_app. now rewrite Hallowed, Hallowed'.
Qed.

Lemma within_logs (allowed : OctokitCall -> bool) (a : App) (w' : World) :
  fs w' = fs (world a) -> within allowed a (mkApp w' (client a) (github a)).
Proof.
  intros Hfs. split; [exact Hfs|]. exists []. split; [|reflexivity].
  unfold sentSince. cbn. now rewrite app_nil_r.
Qed.

Lemma within_request (allowed : OctokitCall -> bool) (a : App)
    (call : OctokitCall) :
  allowed call = true ->
  within allowed a (mkApp (world a) (client a) (github a ++ [call])).
Proof.
  intros Hallowed. split; [reflexivity|]. exists [call]. split; [reflexivity|].
  cbn. now rewrite Hallowed.
Qed.

Lemma within_client (allowed : OctokitCall -> bool) (a : App) (c : ClientState) :
  within allowed a (mkApp (world a) c (github a)).
Proof.
  split; [reflexivity|]. exists []. split; [|reflexivity].
  unfold sentSince. cbn. now rewrite app_nil_r.
Qed.

Lemma readCall_reviewCall (call : OctokitCall) :
  readCall call = true -> reviewCall call = true.
Proof. now destruct call. Qed.

(** X20. Whatever the platform and the state, a run of [runReview]
    leaves every file of the working tree as it was and sends GitHub only
    requests that read the pull request, its files, their contents and
    the review comments, or post a review comment: it creates no blob,
    tree or commit and moves no branch. *)
Theorem runReview_read_only (P : Platform) (a : App) :
  fs (world (runReview P a).2) = fs (world a)
  /\ exists calls,
       sentSince a (runReview P a).2 calls
       /\ forallb reviewCall calls = true
       /\ existsb writesRepository calls = false.
Proof.
  destruct (Keeps_runReview (within reviewCall) reviewCall
              (within_refl reviewCall) (within_trans reviewCall)
              (within_logs reviewCall) (within_request reviewCall)
              readCall_reviewCall (within_client reviewCall)
              (fun call H => H) P a) as [Hfs (calls & Hsent & Hallowed)].
  split; [exact Hfs|]. exists calls. split; [exact Hsent|].
  split; [exact Hallowed|].
  clear Hsent. induction calls as [|call calls IH]; [reflexivity|].
  cbn [forallb] in Hallowed. apply andb_true_iff in Hallowed as [Hcall Hcalls].
  cbn [existsb]. rewrite (IH Hcalls).
  now destruct call.
Qed.

(** *** The contexts of a pull request *)

Lemma contextsOfIdentifiers_built (P : Platform) (pr : PullRequest.t)
    (filename : string) (language : LanguageType) (fileContent : string)
    (Q : NamingContext.t -> Prop) (identifiers : list string) :
  (forall identifier info,
     In identifier identifiers ->
     shouldReviewSymbol identifier (SymbolInfo.declaration info) = true ->
     Q (NamingContext.mk filename language identifier
          (SymbolInfo.declaration info) (SymbolInfo.usages info)
          (SymbolInfo.neighbors info) (SymbolInfo.enclosingScopes info)
          (Some (SymbolInfo.types info)) (PullRequest.title pr)
          (PullRequest.body pr) (SymbolInfo.lineNumber info))) ->
  forall contexts a built,
    Forall Q contexts ->
    (contextsOfIdentifiers P pr filename language fileContent identifiers contexts
       a).1 = Ok built ->
    Forall Q built.
Proof.
  induction identifiers as [|identifier later IH]; intros Hnew contexts a built Hold.
  - cbn. now intros [= <-].
  - cbn [contextsOfIdentifiers]. unfold bindResult at 1, bind.
    destruct (liftIO _ a) as [[[info|]|e] a1]; cbn [fst snd ret].
    + destruct (shouldReviewSymbol identifier (SymbolInfo.declaration info))
        eqn:Hreview; cbn [negb].
      * apply IH.
        -- intros other info' Hin. apply Hnew. now right.
        -- apply Forall_app. split; [exact Hold|].
           apply Forall_cons. split; [|apply Forall_nil_2].
           apply Hnew; [now left|exact Hreview].
      * apply IH; [|exact Hold]. intros other info' Hin. apply Hnew. now right.
    + apply IH; [|exact Hold]. intros other info' Hin. apply Hnew. now right.
    + discriminate.
Qed.

Lemma contextsOfFiles_all (P : Platform) (pr : PullRequest.t)
    (Q : NamingContext.t -> Prop) (files : list PullFile.t) :
  (forall file diff identifier info,
     In file files ->
     PullFile.status file <> "removed" ->
     parseDiff (default EmptyString (PullFile.patch file)) (PullFile.filename file)
     = Some diff ->
     In identifier
        (extractIdentifiers (engine P)
           (join newline (List.map DiffLine.content (PRDiff.additions diff)))
           (PRDiff.language diff)) ->
     shouldReviewSymbol identifier (SymbolInfo.declaration info) = true ->
     Q (NamingContext.mk (PullFile.filename file) (PRDiff.language diff) identifier
          (SymbolInfo.declaration info) (SymbolInfo.usages info)
          (SymbolInfo.neighbors info) (SymbolInfo.enclosingScopes info)
          (Some (SymbolInfo.types info)) (PullRequest.title pr)
          (PullRequest.body pr) (SymbolInfo.lineNumber info))) ->
  forall contexts a built,
    Forall Q contexts ->
    (contextsOfFiles P pr files contexts a).1 = Ok built ->
    Forall Q built.
Proof.
  induction files as [|file later IH]; intros Hnew contexts a built Hold.
  - cbn. now intros [= <-].
  - assert (Hlater : forall contexts a built,
              Forall Q contexts ->
              (contextsOfFiles P pr later contexts a).1 = Ok built ->
              Forall Q built).
    { apply IH. intros other diff identifier info Hin. apply Hnew. now right. }
    cbn [contextsOfFiles].
    destruct (String.eqb_spec (PullFile.status file) "removed") as [|Hstatus];
      [now apply Hlater|].
    destruct (parseDiff _ _) as [diff|] eqn:Hdiff; [|now apply Hlater].
    unfold bind at 1. destruct (request _ _ a) as [[[content|]|e] a1].
    + unfold bindResult at 1, bind at 1.
      destruct (contextsOfIdentifiers _ _ _ _ _ _ _ a1) as [[found|e] a2] eqn:Hfound;
        cbn [fst snd ret]; [|discriminate].
      apply Hlater.
      eapply (contextsOfIdentifiers_built P pr _ _ _ Q);
        [|exact Hold|now rewrite Hfound].
      intros identifier info Hin Hreview.
      apply (Hnew file diff identifier info); try assumption. now left.
    + unfold bind at 1. destruct (log _ _ a1). now apply Hlater.
    + unfold bind at 1. destruct (log _ _ a1). now apply Hlater.
Qed.

Lemma shouldReviewSymbol_long (name declaration : string) :
  shouldReviewSymbol name declaration = true -> (3 <= String.length name)%nat.
Proof.
  unfold shouldReviewSymbol.
  destruct (Nat.leb_spec (String.length name) 2); [discriminate|lia].
Qed.

(** X21. The contexts [buildContextsFromPR] returns are all built from the
    files GitHub listed: each is for a file that is not removed and whose
    language is supported, and for an identifier that [extractIdentifiers]
    found in the lines the file adds and that [shouldReviewSymbol]
    accepts with the declaration found; so its name has at least three
    code units and is no common keyword, it carries the title and body of
    the pull request, and it has type information, so that
    [buildUserPrompt] does not throw on it. *)
Theorem buildContextsFromPR_contexts (P : Platform) (pr : PullRequest.t)
    (a : App) (contexts : list NamingContext.t) :
  (buildContextsFromPR P pr a).1 = Ok contexts ->
  exists files,
    pulls_listFiles (octokit P) (github a) (PullRequest.owner pr)
      (PullRequest.repo pr) (PullRequest.number pr) = Ok files
    /\ Forall (fun context =>
                 builtFrom P pr files context
                 /\ detectLanguage (NamingContext.file context)
                    = Some (NamingContext.language context)
                 /\ (3 <= String.length (NamingContext.oldName context))%nat
                 /\ isCommonKeyword (NamingContext.oldName context) = false
                 /\ exists prompt,
                      buildUserPrompt (services P) context = Ok prompt)
              contexts.
Proof.
  unfold buildContextsFromPR, bindResult at 1, bind at 1, request.
  destruct (pulls_listFiles _ _ _ _ _) as [files|e] eqn:Hfiles;
    cbn [fst snd ret]; [|discriminate].
  intros Hbuilt. exists files. split; [reflexivity|].
  pose proof (contextsOfFiles_all P pr
                (fun context => builtFrom P pr files context
                                /\ NamingContext.types context <> None) files)
    as Hall.
  eapply Hall in Hbuilt; [|clear Hall Hbuilt|apply Forall_nil_2].
  2: { intros file diff identifier info Hin Hstatus Hdiff Hidentifier Hreview.
       split; [|discriminate]. exists file, diff. cbn. now repeat split. }
  clear Hall. rename Hbuilt into Hall.
  rewrite Forall_forall in Hall |- *. intros context Hin.
  destruct (Hall context Hin) as [Hfrom Htypes]. clear Hall.
  split; [exact Hfrom|].
  destruct Hfrom as (file & diff & Hfile & Hstatus & Hdiff & Hpath & Hlanguage
                     & Hidentifier & Hreview & _).
  split; [|split; [|split]].
  - rewrite Hpath, Hlanguage. unfold parseDiff in Hdiff.
    destruct (detectLanguage (PullFile.filename file)) as [language|]; [|discriminate].
    injection Hdiff as <-. reflexivity.
  - exact (shouldReviewSymbol_long _ _ Hreview).
  - now apply extractIdentifiers_spec in Hidentifier.
  - unfold buildUserPrompt. destruct (NamingContext.types context); [|congruence].
    now eexists.
Qed.

Lemma extractSymbolInfo_ok (P : Platform) (filePath symbolName fileContent : string)
    (language : LanguageType) (w : World) :
  (language = python \/ language = go -> isWordText symbolName = true) ->
  exists found,
    (extractSymbolInfo P filePath symbolName fileContent language w).1 = Ok found.
Proof.
  intros Hword. unfold extractSymbolInfo, extractTsSymbolInfo, bind, ret.
  destruct language.
  - destruct (ts_symbolInfo P filePath symbolName fileContent); now eexists.
  - destruct (ts_symbolInfo P filePath symbolName fileContent); now eexists.
  - destruct (extractByLines_describes (engine P) pythonPatterns symbolName
                fileContent (Hword (or_introl eq_refl))
                (declaresIn_python_inked symbolName)) as (found & Hfound & _).
    exists found. exact Hfound.
  - destruct (extractByLines_describes (engine P) goPatterns symbolName
                fileContent (Hword (or_intror eq_refl))
                (declaresIn_go_inked symbolName)) as (found & Hfound & _).
    exists found. exact Hfound.
Qed.

Lemma contextsOfIdentifiers_ok (P : Platform) (pr : PullRequest.t)
    (filename : string) (language : LanguageType) (fileContent : string)
    (identifiers : list string) :
  (forall identifier, In identifier identifiers ->
                      language = python \/ language = go ->
                      isWordText identifier = true) ->
  forall contexts a,
  exists built,
    (contextsOfIdentifiers P pr filename language fileContent identifiers contexts
       a).1 = Ok built.
Proof.
  induction identifiers as [|identifier later IH]; intros Hwords contexts a.
  - now eexists.
  - assert (Hlater : forall contexts a, exists built,
              (contextsOfIdentifiers P pr filename language fileContent later
                 contexts a).1 = Ok built).
    { apply IH. intros other Hin. apply Hwords. now right. }
    cbn [contextsOfIdentifiers]. unfold bindResult at 1, bind, liftIO.
    destruct (extractSymbolInfo_ok P filename identifier fileContent language
                (world a) (Hwords identifier (or_introl eq_refl)))
      as (found & Hfound).
    destruct (extractSymbolInfo P filename identifier fileContent language (world a))
      as [outcome w]. cbn [fst] in Hfound. subst outcome.
    destruct found as [info|]; [|apply Hlater].
    destruct (negb _); apply Hlater.
Qed.

Lemma contextsOfFiles_ok (P : Platform) (pr : PullRequest.t)
    (files : list PullFile.t) :
  capturesWords (engine P) ->
  forall contexts a,
  exists built, (contextsOfFiles P pr files contexts a).1 = Ok built.
Proof.
  intros Hcaptures.
  induction files as [|file later IH]; intros contexts a.
  - now eexists.
  - cbn [contextsOfFiles].
    destruct (String.eqb _ "removed"); [apply IH|].
    destruct (parseDiff _ _) as [diff|]; [|apply IH].
    unfold bind at 1. destruct (request _ _ a) as [[[content|]|e] a1].
    + unfold bindResult at 1, bind at 1.
      destruct (contextsOfIdentifiers_ok P pr (PullFile.filename file)
                  (PRDiff.language diff) (from_base64 P content)
                  (extractIdentifiers (engine P)
                     (join newline (List.map DiffLine.content (PRDiff.additions diff)))
                     (PRDiff.language diff))) with (contexts := contexts) (a := a1)
        as (found & Hfound).
      { intros identifier Hin Hlanguage.
        apply extractIdentifiers_spec in Hin as ((pattern & Hpattern & Hin) & _).
        apply (Hcaptures pattern
                 (join newline (List.map DiffLine.content (PRDiff.additions diff)))
                 identifier); [|exact Hin].
        apply in_app_iff. destruct Hlanguage as [Hl|Hl]; rewrite Hl in Hpattern;
          [now left|now right]. }
      destruct (contextsOfIdentifiers _ _ _ _ _ _ _ a1) as [outcome a2].
      cbn [fst] in Hfound. subst outcome. apply IH.
    + unfold bind at 1. destruct (log _ _ a1). apply IH.
    + unfold bind at 1. destruct (log _ _ a1). apply IH.
Qed.

(** X22. [buildContextsFromPR] only reads: it leaves the files of the
    working tree and the suggestion client as they were and sends GitHub
    nothing but the request for the list of files and requests for
    contents. With an engine that captures names of word characters for
    the Python and Go patterns, it throws exactly when the request for the
    list of files does, and then that error: a file whose content cannot
    be fetched, or has none, is passed over. *)
Theorem buildContextsFromPR_reads (P : Platform) (pr : PullRequest.t) (a : App) :
  capturesWords (engine P) ->
  fs (world (buildContextsFromPR P pr a).2) = fs (world a)
  /\ client (buildContextsFromPR P pr a).2 = client a
  /\ (exists calls,
        sentSince a (buildContextsFromPR P pr a).2 calls
        /\ forallb readCall calls = true)
  /\ forall e,
       (buildContextsFromPR P pr a).1 = Throw e
       <-> pulls_listFiles (octokit P) (github a) (PullRequest.owner pr)
             (PullRequest.repo pr) (PullRequest.number pr) = Throw e.
Proof.
  intros Hcaptures.
  assert (Hkeeps : Keeps (fun a a' => within readCall a a' /\ sameClient a a')
                     (buildContextsFromPR P pr)).
  { apply (Keeps_buildContextsFromPR _ readCall).
    - intros a0. split; [apply within_refl|reflexivity].
    - intros a0 b c [Hab Hab'] [Hbc Hbc']. split.
      + exact (within_trans _ _ _ _ Hab Hbc).
      + unfold sameClient in *. congruence.
    - intros a0 w' Hfs. split; [now apply within_logs|reflexivity].
    - intros a0 call Hallowed. split; [now apply within_request|reflexivity].
    - auto. }
  destruct (Hkeeps a) as [[Hfs Hcalls] Hclient].
  split; [exact Hfs|]. split; [exact Hclient|]. split; [exact Hcalls|].
  intros e. unfold buildContextsFromPR, bindResult at 1, bind at 1, request.
  destruct (pulls_listFiles _ _ _ _ _) as [files|e'] eqn:Hfiles; cbn [fst snd ret].
  - destruct (contextsOfFiles_ok P pr files Hcaptures []
                (mkApp (world a) (client a)
                   (github a ++ [PullsListFiles (PullRequest.owner pr)
                                   (PullRequest.repo pr) (PullRequest.number pr)])))
      as (built & Hbuilt).
    rewrite Hbuilt. split; discriminate.
  - split; intros [= ->]; reflexivity.
Qed.

Lemma buildContextsFromPR_contexts_witness :
  exists files,
    pulls_listFiles (octokit (hosted None [])) (github startApp)
      (PullRequest.owner tmpPull) (PullRequest.repo tmpPull)
      (PullRequest.number tmpPull) = Ok files
    /\ Forall (fun context =>
                 builtFrom (hosted None []) tmpPull files context
                 /\ detectLanguage (NamingContext.file context)
                    = Some (NamingContext.language context)
                 /\ (3 <= String.length (NamingContext.oldName context))%nat
                 /\ isCommonKeyword (NamingContext.oldName context) = false
                 /\ exists prompt,
                      buildUserPrompt (services (hosted None [])) context
                      = Ok prompt)
              [tmpContext].
Proof.
  apply (buildContextsFromPR_contexts (hosted None []) tmpPull startApp [tmpContext]).
  vm_compute. reflexivity.
Defined.

Lemma assignmentEngine_capturesWords : capturesWords assignmentEngine.
Proof.
  intros pattern code name _. destruct pattern; cbn; try easy.
  destruct (Str.includes code "tmp ="); [|easy]. now intros [<-|[]].
Qed.

Lemma buildContextsFromPR_reads_witness :
  fs (world (buildContextsFromPR (hosted None []) tmpPull startApp).2)
  = fs (world startApp)
  /\ client (buildContextsFromPR (hosted None []) tmpPull startApp).2
     = client startApp
  /\ (exists calls,
        sentSince startApp (buildContextsFromPR (hosted None []) tmpPull startApp).2
          calls
        /\ forallb readCall calls = true)
  /\ forall e,
       (buildContextsFromPR (hosted None []) tmpPull startApp).1 = Throw e
       <-> pulls_listFiles (octokit (hosted None [])) (github startApp)
             (PullRequest.owner tmpPull) (PullRequest.repo tmpPull)
             (PullRequest.number tmpPull) = Throw e.
Proof.
  apply (buildContextsFromPR_reads (hosted None []) tmpPull startApp).
  exact assignmentEngine_capturesWords.
Defined.

(** X19. On a pull request from a fork, whatever its labels, [runAutofix]
    sends two requests, for the pull request and for the notice at line 1
    of README.md, changes no file and leaves the suggestion client as it
    was; it returns if the notice was accepted and throws the error of
    the refusal otherwise. *)
Theorem runAutofix_fork (P : Platform) (a : App) (owner repo : string)
    (prNumber : Z) (data : PullData.t) :
  readContext P "Missing required environment variables"
  = Ok (owner, repo, prNumber) ->
  createOctokit P = Ok tt ->
  pulls_get (octokit P) (github a) owner repo prNumber = Ok data ->
  PullData.head_repo_fork data = Some true ->
  (runAutofix P a).1
  = pulls_createReviewComment (octokit P)
      (github a ++ [PullsGet owner repo prNumber]) owner repo prNumber
      "README.md" 1 forkNotice
  /\ sentSince a (runAutofix P a).2
       [PullsGet owner repo prNumber;
        PullsCreateReviewComment owner repo prNumber "README.md" 1 forkNotice]
  /\ fs (world (runAutofix P a).2) = fs (world a)
  /\ client (runAutofix P a).2 = client a.
Proof.
  intros Hcontext Htoken Hget Hfork. unfold runAutofix.
  cbv beta iota zeta delta [reported bindResult bind ret fst snd].
  rewrite Hcontext, Htoken.
  cbv beta iota zeta delta [getPullRequest request bindResult bind ret fst snd].
  rewrite Hget. unfold isForkPR. cbn [PullRequest.isFork]. rewrite Hfork.
  cbn [default from_option id].
  cbv beta iota zeta delta [postReviewComment log liftIO logger request bind ret].
  cbn [fst snd world client github fs].
  destruct (pulls_createReviewComment (octokit P)
              (github a ++ [PullsGet owner repo prNumber]) owner repo prNumber
              "README.md" 1 forkNotice) as [[]|e];
    cbn [fst snd world client github fs]; unfold sentSince; cbn [github];
    rewrite <- app_assoc; now repeat split.
Qed.

Lemma runAutofix_fork_witness :
  (runAutofix (hosted (Some true) [AUTOFIX_LABEL]) startApp).1 = Ok tt
  /\ sentSince startApp (runAutofix (hosted (Some true) [AUTOFIX_LABEL]) startApp).2
       [PullsGet "acme" "shop" 7;
        PullsCreateReviewComment "acme" "shop" 7 "README.md" 1 forkNotice]
  /\ fs (world (runAutofix (hosted (Some true) [AUTOFIX_LABEL]) startApp).2)
     = fs (world startApp)
  /\ client (runAutofix (hosted (Some true) [AUTOFIX_LABEL]) startApp).2
     = client startApp.
Proof.
  apply (runAutofix_fork (hosted (Some true) [AUTOFIX_LABEL]) startApp "acme" "shop" 7
           (PullData.mk 7 "Load the table" None "main" "feature" (Some false)
              (Some true) [AUTOFIX_LABEL]));
    reflexivity.
Defined.

(** *** The commit *)

Lemma createBlobs_run (P : Platform) (owner repo : string)
    (files : list (string * string)) (a : App) :
  exists outcomes,
    createBlobs P owner repo files a
    = (outcomes,
       mkApp (world a) (client a)
         (github a ++ List.map (blobCall P owner repo) files))
    /\ (rejections outcomes = [] ->
        List.map fst (fulfilled outcomes) = List.map fst files)
    /\ (forall i path content blob,
          files !! i = Some (path, content) ->
          rejections outcomes = [] ->
          fulfilled outcomes !! i = Some blob ->
          blob.1 = path
          /\ git_createBlob (octokit P)
               (github a ++ List.map (blobCall P owner repo) (take i files))
               owner repo (to_base64 P content) = Ok blob.2).
Proof.
  revert a. induction files as [|[path content] later IH]; intros a.
  - exists []. cbn. rewrite app_nil_r. split; [now destruct a|].
    split; [reflexivity|]. intros i. now destruct i.
  - cbn [createBlobs]. unfold bind at 1, request.
    destruct (IH (mkApp (world a) (client a)
                    (github a ++ [GitCreateBlob owner repo (to_base64 P content)])))
      as (outcomes & Hrun & Hpaths & Hshas).
    unfold bind at 1. rewrite Hrun. cbn [world client github ret List.map].
    eexists. split; [|split].
    + f_equal. f_equal. now rewrite <- app_assoc.
    + destruct (git_createBlob _ _ _ _ _) as [sha|e]; cbn; [|discriminate].
      intros Hnone. now rewrite (Hpaths Hnone).
    + intros i path' content' blob Hfile.
      destruct (git_createBlob (octokit P) (github a) owner repo
                  (to_base64 P content)) as [sha|e] eqn:Hblob;
        cbn [rejections fulfilled]; [|discriminate].
      intros Hnone Hat. destruct i as [|i].
      * injection Hfile as <- <-. injection Hat as <-. cbn [take List.map fst snd].
        rewrite app_nil_r. now split.
      * cbn in Hfile, Hat.
        destruct (Hshas i path' content' blob Hfile Hnone Hat) as [Hpath Hsha].
        split; [exact Hpath|].
        cbn [take List.map github] in Hsha |- *.
        rewrite <- app_assoc in Hsha. exact Hsha.
Qed.

(** X23. [commitChanges] changes no file and leaves the suggestion client
    as it was. When it returns, it has sent, in this order, the request
    for the branch, for its commit, one blob for every file in the order
    of the files, the tree of these blobs on the tree of that commit, the
    commit with that commit as only parent, and the move of the branch,
    and nothing else; the commit, the tree, the blobs, the new tree and
    the new commit of these requests are the ones GitHub answered to the
    requests before. When it throws, the branch was not moved: no request
    to move it was sent, or that request, the last one sent, was refused
    with the error thrown. *)
Theorem commitChanges_moves_branch_last (P : Platform)
    (owner repo branch : string) (files : list (string * string))
    (message : string) (a : App) :
  let outcome := (commitChanges P owner repo branch files message a).1 in
  let a' := (commitChanges P owner repo branch files message a).2 in
  fs (world a') = fs (world a)
  /\ client a' = client a
  /\ exists calls,
       sentSince a a' calls
       /\ match outcome with
          | Ok _ =>
              exists currentCommitSha currentTreeSha blobs newTree newCommit,
                calls
                = [GitGetRef owner repo ("heads/" +:+ branch);
                   GitGetCommit owner repo currentCommitSha]
                  ++ List.map (blobCall P owner repo) files
                  ++ [GitCreateTree owner repo currentTreeSha blobs;
                      GitCreateCommit owner repo message newTree [currentCommitSha];
                      GitUpdateRef owner repo ("heads/" +:+ branch) newCommit]
                /\ List.map fst blobs = List.map fst files
                /\ git_getRef (octokit P) (github a) owner repo
                     ("heads/" +:+ branch) = Ok currentCommitSha
                /\ git_getCommit (octokit P)
                     (github a ++ [GitGetRef owner repo ("heads/" +:+ branch)])
                     owner repo currentCommitSha = Ok currentTreeSha
                /\ (forall i path content blob,
                      files !! i = Some (path, content) ->
                      blobs !! i = Some blob ->
                      blob.1 = path
                      /\ git_createBlob (octokit P)
                           (github a
                            ++ [GitGetRef owner repo ("heads/" +:+ branch);
                                GitGetCommit owner repo currentCommitSha]
                            ++ List.map (blobCall P owner repo) (take i files))
                           owner repo (to_base64 P content) = Ok blob.2)
                /\ git_createTree (octokit P)
                     (github a
                      ++ [GitGetRef owner repo ("heads/" +:+ branch);
                          GitGetCommit owner repo currentCommitSha]
                      ++ List.map (blobCall P owner repo) files)
                     owner repo currentTreeSha blobs = Ok newTree
                /\ git_createCommit (octokit P)
                     (github a
                      ++ [GitGetRef owner repo ("heads/" +:+ branch);
                          GitGetCommit owner repo currentCommitSha]
                      ++ List.map (blobCall P owner repo) files
                      ++ [GitCreateTree owner repo currentTreeSha blobs])
                     owner repo message newTree [currentCommitSha] = Ok newCommit
          | Throw e =>
              existsb movesBranch calls = false
              \/ exists before newCommit,
                   calls = before
                           ++ [GitUpdateRef owner repo ("heads/" +:+ branch) newCommit]
                   /\ existsb movesBranch before = false
                   /\ git_updateRef (octokit P) (github a ++ before) owner repo
                        ("heads/" +:+ branch) newCommit = Throw e
          end.
Proof.
  cbv zeta. unfold commitChanges.
  cbv beta iota zeta delta [bindResult bind ret request log liftIO logger].
  cbn [world client github fst snd].
  destruct (git_getRef (octokit P) (github a) owner repo ("heads/" +:+ branch))
    as [currentCommitSha|e] eqn:Href; cbn [fst snd world client github fs].
  2: { split; [reflexivity|]. split; [reflexivity|].
       exists [GitGetRef owner repo ("heads/" +:+ branch)].
       split; [reflexivity|]. now left. }
  destruct (git_getCommit (octokit P) _ owner repo currentCommitSha)
    as [currentTreeSha|e] eqn:Hcommit; cbn [fst snd world client github fs].
  2: { split; [reflexivity|]. split; [reflexivity|].
       exists [GitGetRef owner repo ("heads/" +:+ branch);
               GitGetCommit owner repo currentCommitSha].
       split; [unfold sentSince; cbn [github]; now rewrite <- app_assoc|].
       now left. }
  destruct (createBlobs_run P owner repo files
              (mkApp (world a) (client a)
                 ((github a ++ [GitGetRef owner repo ("heads/" +:+ branch)])
                  ++ [GitGetCommit owner repo currentCommitSha])))
    as (outcomes & Hrun & Hpaths & Hshas).
  rewrite Hrun. cbn [world client github].
  assert (Hblobs : existsb movesBranch (List.map (blobCall P owner repo) files) = false).
  { clear. induction files as [|file later IH]; [reflexivity|exact IH]. }
  unfold Promise_all.
  destruct (rejections outcomes) as [|rejected others] eqn:Hrejections;
    cbn [fst snd world client github fs].
  2: { split; [reflexivity|]. split; [reflexivity|].
       exists ([GitGetRef owner repo ("heads/" +:+ branch);
                GitGetCommit owner repo currentCommitSha]
               ++ List.map (blobCall P owner repo) files).
       split; [unfold sentSince; cbn [github]; now rewrite <- !app_assoc|].
       left. cbn [app existsb movesBranch orb]. exact Hblobs. }
  specialize (Hpaths eq_refl).
  destruct (git_createTree (octokit P) _ owner repo currentTreeSha
              (fulfilled outcomes)) as [newTree|e] eqn:Htree;
    cbn [fst snd world client github fs].
  2: { split; [reflexivity|]. split; [reflexivity|].
       exists ([GitGetRef owner repo ("heads/" +:+ branch);
                GitGetCommit owner repo currentCommitSha]
               ++ List.map (blobCall P owner repo) files
               ++ [GitCreateTree owner repo currentTreeSha (fulfilled outcomes)]).
       split; [unfold sentSince; cbn [github]; now rewrite <- !app_assoc|].
       left. cbn [app existsb movesBranch orb]. rewrite existsb_app, Hblobs.
       reflexivity. }
  destruct (git_createCommit (octokit P) _ owner repo message newTree
              [currentCommitSha]) as [newCommit|e] eqn:Hnew;
    cbn [fst snd world client github fs].
  2: { split; [reflexivity|]. split; [reflexivity|].
       exists ([GitGetRef owner repo ("heads/" +:+ branch);
                GitGetCommit owner repo currentCommitSha]
               ++ List.map (blobCall P owner repo) files
               ++ [GitCreateTree owner repo currentTreeSha (fulfilled outcomes);
                   GitCreateCommit owner repo message newTree [currentCommitSha]]).
       split; [unfold sentSince; cbn [github]; now rewrite <- !app_assoc|].
       left. cbn [app existsb movesBranch orb]. rewrite existsb_app, Hblobs.
       reflexivity. }
  destruct (git_updateRef (octokit P) _ owner repo ("heads/" +:+ branch) newCommit)
    as [[]|e] eqn:Hmove; cbn [fst snd world client github fs].
  - split; [reflexivity|]. split; [reflexivity|].
    eexists. split; [unfold sentSince; cbn [github]; rewrite <- !app_assoc;
                     reflexivity|].
    exists currentCommitSha, currentTreeSha, (fulfilled outcomes), newTree, newCommit.
    split; [reflexivity|]. split; [exact Hpaths|].
    split; [first [reflexivity|exact Href]|].
    split; [first [reflexivity|exact Hcommit]|]. split; [|split].
    + intros i path content blob Hfile Hblob.
      destruct (Hshas i path content blob Hfile eq_refl Hblob) as [Hpath Hsha].
      split; [exact Hpath|]. rewrite <- Hsha. f_equal. cbn [github app].
      now rewrite <- !app_assoc.
    + rewrite <- Htree. f_equal. cbn [app]. now rewrite <- !app_assoc.
    + rewrite <- Hnew. f_equal. cbn [app]. now rewrite <- !app_assoc.
  - split; [reflexivity|]. split; [reflexivity|].
    eexists. split; [unfold sentSince; cbn [github]; rewrite <- !app_assoc;
                     reflexivity|].
    right.
    exists ([GitGetRef owner repo ("heads/" +:+ branch);
             GitGetCommit owner repo currentCommitSha]
            ++ List.map (blobCall P owner repo) files
            ++ [GitCreateTree owner repo currentTreeSha (fulfilled outcomes);
                GitCreateCommit owner repo message newTree [currentCommitSha]]),
           newCommit.
    split; [cbn [app]; now rewrite <- !app_assoc|]. split.
    + cbn [app existsb movesBranch orb]. rewrite existsb_app, Hblobs. reflexivity.
    + rewrite <- Hmove. f_equal. cbn [app]. now rewrite <- !app_assoc.
Qed.

(** *** The renames of a run *)

Lemma mapSet_keys (entries : list (string * string)) (path content : string) :
  (forall x, In x (List.map fst (mapSet entries path content))
             <-> In x (List.map fst entries) \/ x = path)
  /\ (NoDup (List.map fst entries) ->
      NoDup (List.map fst (mapSet entries path content))).
Proof.
  induction entries as [|[p c] later [IHin IHnodup]].
  - split.
    + intros x. cbn. intuition congruence.
    + intros _. cbn. apply NoDup_singleton.
  - cbn [mapSet]. destruct (String.eqb_spec p path) as [->|Hother].
    + split.
      * intros x. cbn. intuition congruence.
      * now cbn.
    + split.
      * intros x. cbn [List.map fst In]. rewrite IHin. tauto.
      * cbn [List.map fst]. rewrite !NoDup_cons. intros [Hfresh Hnodup].
        split; [|now apply IHnodup].
        rewrite list_elem_of_In, IHin, <- list_elem_of_In. intros [Hin|Heq];
          [now apply Hfresh|congruence].
Qed.

Lemma applyAutofixes_spec (P : Platform) (autofixSuggestions : list Collected) :
  forall renameResults modifiedFiles a results modified,
    NoDup (List.map fst modifiedFiles) ->
    (applyAutofixes P autofixSuggestions renameResults modifiedFiles a).1
    = Ok (results, modified) ->
    exists new,
      results = renameResults ++ new
      /\ length new = length autofixSuggestions
      /\ NoDup (List.map fst modified)
      /\ forall path,
           In path (List.map fst modified)
           <-> In path (List.map fst modifiedFiles)
               \/ exists i suggestion context result,
                    autofixSuggestions !! i = Some (suggestion, context)
                    /\ new !! i = Some result
                    /\ RenameResult.success result = true
                    /\ NamingContext.file context = path.
Proof.
  induction autofixSuggestions as [|[suggestion context] later IH];
    intros renameResults modifiedFiles a results modified Hnodup.
  - cbn. intros [= <- <-]. exists []. rewrite app_nil_r.
    repeat split; [exact Hnodup|now left|].
    intros [H|(i & s & c & r & Hi & _)]; [exact H|]. now destruct i.
  - cbn [applyAutofixes]. unfold bind at 1.
    destruct (liftIO _ a) as [result a1]. cbv zeta.
    destruct (RenameResult.success result) eqn:Hsuccess.
    + unfold bindResult at 1, bind at 1.
      destruct (liftIO _ a1) as [[content|e] a2]; cbn [fst snd ret]; [|discriminate].
      intros Hrun.
      destruct (mapSet_keys modifiedFiles (NamingContext.file context) content)
        as [Hkeys Hkeep].
      destruct (IH _ _ _ _ _ (Hkeep Hnodup) Hrun)
        as (new & -> & Hlength & Hnodup' & Hmodified).
      exists (result :: new). rewrite <- app_assoc. split; [reflexivity|].
      split; [cbn; now rewrite Hlength|]. split; [exact Hnodup'|].
      intros path. rewrite Hmodified, Hkeys. split.
      * intros [[H| ->]|(i & s & c & r & Hi & Hr & Hs & Hc)].
        -- now left.
        -- right. now exists 0%nat, suggestion, context, result.
        -- right. now exists (S i), s, c, r.
      * intros [H|(i & s & c & r & Hi & Hr & Hs & Hc)]; [now left; left|].
        destruct i as [|i].
        -- injection Hi as <- <-. left. right. now symmetry.
        -- right. now exists i, s, c, r.
    + unfold bind at 1. destruct (log _ _ a1) as [[] a2].
      intros Hrun.
      destruct (IH _ _ _ _ _ Hnodup Hrun)
        as (new & -> & Hlength & Hnodup' & Hmodified).
      exists (result :: new). rewrite <- app_assoc. split; [reflexivity|].
      split; [cbn; now rewrite Hlength|]. split; [exact Hnodup'|].
      intros path. rewrite Hmodified. split.
      * intros [H|(i & s & c & r & Hi & Hr & Hs & Hc)]; [now left|].
        right. now exists (S i), s, c, r.
      * intros [H|(i & s & c & r & Hi & Hr & Hs & Hc)]; [now left|].
        destruct i as [|i].
        -- injection Hr as <-. congruence.
        -- right. now exists i, s, c, r.
Qed.

Lemma applyAutofixes_quiet (P : Platform) (autofixSuggestions : list Collected) :
  forall renameResults modifiedFiles a,
    client (applyAutofixes P autofixSuggestions renameResults modifiedFiles a).2
    = client a
    /\ github (applyAutofixes P autofixSuggestions renameResults modifiedFiles a).2
       = github a.
Proof.
  induction autofixSuggestions as [|[suggestion context] later IH];
    intros renameResults modifiedFiles a; [now split|].
  match goal with
  | |- context [applyAutofixes ?p ?l ?r ?m ?x] =>
      remember (applyAutofixes p l r m x) as outcome eqn:Hrun
  end.
  cbn [applyAutofixes] in Hrun. unfold bind at 1, liftIO at 1 in Hrun.
  destruct (performSafeRename _ _ _ _ _ _ (world a)) as [result w1].
  cbv zeta in Hrun.
  destruct (RenameResult.success result).
  - unfold bindResult at 1, bind at 1, liftIO at 1 in Hrun.
    cbn [world client github] in Hrun.
    destruct (readFile _ w1) as [[content|e] w2]; cbn [fst snd ret] in Hrun.
    + subst outcome.
      destruct (IH (renameResults ++ [result])
                  (mapSet modifiedFiles (NamingContext.file context) content)
                  (mkApp w2 (client a) (github a))) as [Hclient Hgithub].
      now split.
    + subst outcome. now split.
  - unfold bind at 1, log, liftIO, logger in Hrun.
    cbn [world client github] in Hrun. subst outcome.
    destruct (IH (renameResults ++ [result]) modifiedFiles
                (mkApp (mkWorld (fs w1)
                          (logs w1 ++ [(WARN,
                             "Autofix failed for " +:+ NamingContext.oldName context
                             +:+ ": "
                             +:+ default "undefined" (RenameResult.error result))]))
                   (client a) (github a))) as [Hclient Hgithub].
    now split.
Qed.

(** X24. The loop of [runAutofix] that applies the renames does not stop
    at a failure: when it ends without a throw (none of the files renamed
    could not be read back), it has attempted every eligible suggestion,
    in order, one result each; the files it hands to the commit are, each
    once, exactly the files of the contexts whose rename succeeded; and
    it has sent GitHub nothing and left the suggestion client as it
    was. *)
Theorem applyAutofixes_attempts_all (P : Platform)
    (autofixSuggestions : list Collected) (a : App)
    (renameResults : list RenameResult.t) (modifiedFiles : list (string * string)) :
  (applyAutofixes P autofixSuggestions [] [] a).1
  = Ok (renameResults, modifiedFiles) ->
  length renameResults = length autofixSuggestions
  /\ NoDup (List.map fst modifiedFiles)
  /\ (forall path,
        In path (List.map fst modifiedFiles)
        <-> exists i suggestion context result,
              autofixSuggestions !! i = Some (suggestion, context)
              /\ renameResults !! i = Some result
              /\ RenameResult.success result = true
              /\ NamingContext.file context = path)
  /\ client (applyAutofixes P autofixSuggestions [] [] a).2 = client a
  /\ github (applyAutofixes P autofixSuggestions [] [] a).2 = github a.
Proof.
  intros Hrun.
  destruct (applyAutofixes_spec P autofixSuggestions [] [] a renameResults
              modifiedFiles (NoDup_nil_2 (A:=string)) Hrun)
    as (new & -> & Hlength & Hnodup & Hmodified).
  cbn [app]. split; [exact Hlength|]. split; [exact Hnodup|]. split.
  - intros path. rewrite Hmodified. cbn. tauto.
  - apply applyAutofixes_quiet.
Qed.

(** X24 at work: the rename in a file that does not exist fails, the one
    after it is applied all the same and its file goes to the commit. *)
Lemma applyAutofixes_attempts_all_witness :
  length mixedResults = length mixedSuggestions
  /\ NoDup (List.map fst [("app.py", "userProfile = 1")])
  /\ (forall path,
        In path (List.map fst [("app.py", "userProfile = 1")])
        <-> exists i suggestion context result,
              mixedSuggestions !! i = Some (suggestion, context)
              /\ mixedResults !! i = Some result
              /\ RenameResult.success result = true
              /\ NamingContext.file context = path)
  /\ client (applyAutofixes (hosted None []) mixedSuggestions [] []
               (appWith "app.py" "data = 1")).2
     = client (appWith "app.py" "data = 1")
  /\ github (applyAutofixes (hosted None []) mixedSuggestions [] []
               (appWith "app.py" "data = 1")).2
     = github (appWith "app.py" "data = 1").
Proof.
  apply (applyAutofixes_attempts_all (hosted None []) mixedSuggestions
           (appWith "app.py" "data = 1") mixedResults
           [("app.py", "userProfile = 1")]).
  vm_compute. reflexivity.
Defined.

(** ** The level of the logger *)

(** X25. With LOG_LEVEL set to the number of a level, 0 to 3, instead of
    its name, the logger prints nothing at all, errors included. With any
    other value, or none, errors are always printed, and a method of a
    higher level prints whenever one of a lower level does; a value that
    is no name of a level gives the level INFO. *)
Theorem Logger_level_numbers (envLevel : option string) :
  if numberedLevel envLevel
  then forall method, prints (Logger_level envLevel) method = false
  else prints (Logger_level envLevel) ERROR = true
       /\ (forall lower higher,
             prints (Logger_level envLevel) lower = true ->
             levelNumber lower <= levelNumber higher ->
             prints (Logger_level envLevel) higher = true)
       /\ ((forall level, envLevel <> Some (levelName level)) ->
           Logger_level envLevel = AtLevel INFO).
Proof.
  assert (Hat : forall level,
            prints (AtLevel level) ERROR = true
            /\ forall lower higher,
                 prints (AtLevel level) lower = true ->
                 levelNumber lower <= levelNumber higher ->
                 prints (AtLevel level) higher = true).
  { intros level. split; [now destruct level|].
    intros lower higher. cbn [prints]. intros Hlower%Z.leb_le Hhigher.
    apply Z.leb_le. lia. }
  destruct envLevel as [key|]; cbn [numberedLevel Logger_level].
  2: { split; [reflexivity|]. split; [apply (Hat INFO)|reflexivity]. }
  cbn [List.find levels levelName levelNumber existsb].
  destruct (String.eqb_spec key "DEBUG") as [->|HD].
  { split; [reflexivity|]. split; [apply (Hat DEBUG)|].
    intros Hno. now destruct (Hno DEBUG). }
  destruct (String.eqb_spec key "INFO") as [->|HI].
  { split; [reflexivity|]. split; [apply (Hat INFO)|reflexivity]. }
  destruct (String.eqb_spec key "WARN") as [->|HW].
  { split; [reflexivity|]. split; [apply (Hat WARN)|].
    intros Hno. now destruct (Hno WARN). }
  destruct (String.eqb_spec key "ERROR") as [->|HE].
  { split; [reflexivity|]. split; [apply (Hat ERROR)|].
    intros Hno. now destruct (Hno ERROR). }
  change (pretty 0) with "0". change (pretty 1) with "1".
  change (pretty 2) with "2". change (pretty 3) with "3".
  destruct (String.eqb_spec key "0") as [->|H0];
    [cbn; intros method; reflexivity|].
  destruct (String.eqb_spec key "1") as [->|H1];
    [cbn; intros method; reflexivity|].
  destruct (String.eqb_spec key "2") as [->|H2];
    [cbn; intros method; reflexivity|].
  destruct (String.eqb_spec key "3") as [->|H3];
    [cbn; intros method; reflexivity|].
  cbn [orb]. split; [reflexivity|]. split; [apply (Hat INFO)|reflexivity].
Qed.
